(** * Assessment session and scoring engine of jarvis-backend

    A shallow embedding of the assessment subsystem:
    - [AssessmentService] (standalone flow): [evaluateTextAnswer] and
      [finish], with the score computed in binary64 as JavaScript does;
    - [StaticAssessmentService] (the earlier standalone flow): [finish]
      and [getQuestionSet] over the fixed question set [QUESTIONS];
    - [StudentAssessmentService] (template flow): session lifecycle,
      response intake, scoring, option preparation and shuffling;
    - [StudentAssessmentController]: the start-eligibility validation and
      the validation of a response request;
    - [AssessmentFetch]: the questions, options and text answers that the
      standalone flow reads for its question set and for [finish].

    Conventions of the embedding.
    - A JavaScript string is a sequence of code units; the development
      covers code units below 256 (type [ascii]), on which [trim] and
      [toLowerCase] are given exactly.
    - The backing store (a PostgREST service) is an explicit state, a record
      of tables.  It answers every read, [PATCH] and session insert with
      success; the one refusal it gives is 409 on a response insert that
      breaks the uniqueness of (session_id, question_id), where the schema
      declares it.  The [!res.ok] branches of the services are kept as
      written.
    - Every service method is a computation in a state-and-exception monad
      over the store, the clock, the stream of [Math.random] draws and the
      stream of fresh identifiers.  One request runs at one instant of the
      clock.
    - A token or an id that a method pastes into the query of a store URL
      is matched against its column by string equality.  That is how the
      store reads a value made of unreserved URL characters ([url_plain]);
      a value with other characters is read otherwise (a number sign ends
      the query and drops the filters written after it), and the
      statements that rest on the comparison take [url_plain] values.
    - A column that a single method reads and no record of the store
      carries (created_at, passed, is_active of a question) is a function
      of the row, a parameter of that method. *)

From Stdlib Require Import ZArith Floats String Ascii List Permutation Lia Bool.
From stdpp Require Import gmap strings list.

Open Scope Z_scope.
Open Scope string_scope.

(* ===================================================================== *)
(** ** JavaScript string primitives *)
(* ===================================================================== *)

Module JS.

(** WhiteSpace and LineTerminator code units below 256: TAB, LF, VT, FF,
    CR, SPACE and NBSP. *)
Definition is_ws (c : ascii) : bool :=
  let n := N_of_ascii c in
  ((9 <=? n) && (n <=? 13) || (n =? 32) || (n =? 160))%N.

Fixpoint trimStart (s : string) : string :=
  match s with
  | String c s' => if is_ws c then trimStart s' else s
  | EmptyString => EmptyString
  end.

Fixpoint trimEnd (s : string) : string :=
  match s with
  | String c s' =>
      match trimEnd s' with
      | EmptyString => if is_ws c then EmptyString else String c EmptyString
      | r => String c r
      end
  | EmptyString => EmptyString
  end.

(** [String.prototype.trim] *)
Definition trim (s : string) : string := trimEnd (trimStart s).

(** Code units with a lower-case mapping below 256: A-Z, and the Latin-1
    capitals U+00C0-U+00DE except the multiplication sign U+00D7. *)
Definition lower_char (c : ascii) : ascii :=
  let n := N_of_ascii c in
  if ((65 <=? n) && (n <=? 90)
      || (192 <=? n) && (n <=? 222) && negb (n =? 215))%N
  then ascii_of_N (n + 32) else c.

(** [String.prototype.toLowerCase] *)
Fixpoint toLowerCase (s : string) : string :=
  match s with
  | String c s' => String (lower_char c) (toLowerCase s')
  | EmptyString => EmptyString
  end.

(** [String.prototype.includes]: [sub] occurs in [s] at some position. *)
Fixpoint includes (s sub : string) : bool :=
  String.prefix sub s
  || match s with
     | String _ s' => includes s' sub
     | EmptyString => false
     end.

(** Truthiness of a string: the empty string is falsy. *)
Definition truthy (s : string) : bool := negb (s =? "").

(** [Math.ceil(n / 2)] for an array length [n]. *)
Definition ceil_half (n : nat) : nat := Nat.div2 (S n).

(** [Array.prototype.some] and [filter(...).length]. *)
Definition some {A} (p : A -> bool) (l : list A) : bool := existsb p l.
Definition count {A} (p : A -> bool) (l : list A) : nat :=
  List.length (List.filter p l).

(** A JavaScript number holding the integer [z] (exact below 2^53, which
    covers every array length and counter). *)
Definition of_int (z : Z) : float := SF2Prim (binary_normalize prec emax z 0 false).

(** [Math.round]: the nearest integer, halves towards plus infinity,
    computed exactly from the binary expansion [x = v * 2^e]. *)
Definition Math_round (x : float) : float :=
  match Prim2SF x with
  | S754_finite s m e =>
      if (0 <=? e)%Z then x
      else
        let v := if s then Z.neg m else Z.pos m in
        let r := ((2 * v + 2 ^ (- e)) / 2 ^ (- e + 1))%Z in
        if (r =? 0)%Z && s then neg_zero else of_int r
  | _ => x
  end.

(** [String(n)], and [n] inside a template literal, for an integer [n]
    (below 10^21 in size, where JavaScript prints every digit): the decimal
    numeral, with a minus sign when negative. *)
Fixpoint decimal (fuel : nat) (n : Z) (acc : string) : string :=
  match fuel with
  | O => acc
  | S fuel' =>
      let acc' := String (ascii_of_N (Z.to_N (48 + n mod 10))) acc in
      if (n / 10 =? 0)%Z then acc' else decimal fuel' (n / 10) acc'
  end.
Definition String_of_int (z : Z) : string :=
  if (z <? 0)%Z then "-" ++ decimal (S (Z.to_nat (Z.log2 (- z)))) (- z) EmptyString
  else decimal (S (Z.to_nat (Z.log2 z))) z EmptyString.

End JS.

(** Exceptions raised by the services, and the HTTP status the framework
    answers for each (an uncaught [TypeError] is answered 500). *)
Inductive exn : Type :=
| BadRequestException (msg : string)
| ForbiddenException (msg : string)
| NotFoundException (msg : string)
| InternalServerErrorException (msg : string)
| TypeError.

Definition http_status (e : exn) : Z :=
  match e with
  | BadRequestException _ => 400
  | ForbiddenException _ => 403
  | NotFoundException _ => 404
  | InternalServerErrorException _ => 500
  | TypeError => 500
  end.

(** Row of [assessment_text_answers] ([DbTextAnswerRow]); the two array
    columns are nullable. *)
Record DbTextAnswerRow : Type := {
  ta_question_id : string;
  correct_answer : string;
  case_sensitive : bool;
  exact_match : bool;
  alternate_answers : option (list string);
  keywords : option (list string)
}.

(* ===================================================================== *)
(** ** AssessmentService (standalone flow) *)
(* ===================================================================== *)

Module AssessmentService.

Definition PASSING_SCORE : Z := 72.

(** [Array.isArray(x) ? x : []] *)
Definition array_or_empty (x : option (list string)) : list string :=
  match x with Some l => l | None => [] end.

Definition normalize (spec : DbTextAnswerRow) (value : string) : string :=
  if case_sensitive spec then value else JS.toLowerCase value.

Definition evaluateTextAnswer
    (answer : option string) (spec : option DbTextAnswerRow) : bool :=
  match spec with
  | None => false
  | Some spec =>
      let submitted := JS.trim (match answer with Some a => a | None => "" end) in
      if negb (JS.truthy submitted) then false else
      let correctAnswer := JS.trim (correct_answer spec) in
      if negb (JS.truthy correctAnswer) then false else
      if exact_match spec then
        if case_sensitive spec then (submitted =? correctAnswer)
        else (JS.toLowerCase submitted =? JS.toLowerCase correctAnswer)
      else
        let answerToCheck := normalize spec submitted in
        let correctToCheck := normalize spec correctAnswer in
        if JS.includes answerToCheck correctToCheck then true else
        let alternates := array_or_empty (alternate_answers spec) in
        if JS.some (fun alt => JS.includes answerToCheck (normalize spec alt)) alternates
        then true else
        let keywords := array_or_empty (keywords spec) in
        if (List.length keywords =? 0)%nat then false else
        let keywordMatches :=
          JS.count (fun keyword => JS.includes answerToCheck (normalize spec keyword)) keywords in
        (JS.ceil_half (List.length keywords) <=? keywordMatches)%nat
  end.

Inductive QuestionType : Type := mcq | text.

Record DbOptionRow : Type := {
  do_question_id : string;
  do_option_text : string;
  do_is_correct : bool
}.

(** The fields of [FullQuestion] that [finish] reads. *)
Record FullQuestion : Type := {
  fq_id : string;
  fq_type : QuestionType;
  fq_options : list DbOptionRow;
  fq_textAnswer : option DbTextAnswerRow
}.

Record RunnerResponse : Type := {
  q_index : Z;
  question_id : string;
  answer : option string
}.

Record SavedResponse : Type := {
  row_assessment_id : string;
  row_q_index : Z;
  row_question_id : string;
  row_answer_text : option string;
  row_correct : bool
}.

Record FinishSummary : Type := {
  score : float;
  passed : bool;
  total : nat;
  correct : nat;
  toSave : list SavedResponse
}.

(** [new Map(questions.map(q => [q.id, q]))]: a later entry replaces an
    earlier one with the same id. *)
Definition question_map (questions : list FullQuestion) : gmap string FullQuestion :=
  List.fold_left (fun m q => <[fq_id q := q]> m) questions ∅.

(** [totalQuestions > 0 ? Math.round((correctCount / totalQuestions) * 100) : 0] *)
Definition percentage (correctCount totalQuestions : nat) : float :=
  if (0 <? totalQuestions)%nat then
    JS.Math_round
      (PrimFloat.mul
         (PrimFloat.div (JS.of_int (Z.of_nat correctCount))
                        (JS.of_int (Z.of_nat totalQuestions)))
         (JS.of_int 100))
  else JS.of_int 0.

Definition SUPPORTED_TYPES : list string :=
  ["mcq"; "image_mcq"; "text"; "image_text"; "short_text"; "fill_blank"].

Definition sanitizeQuestionType (value : option string) : option QuestionType :=
  match value with
  | None => None
  | Some value =>
      if negb (JS.truthy value) then None
      else if (value =? "mcq") || (value =? "image_mcq") then Some mcq
      else if (value =? "text") || (value =? "image_text") || (value =? "short_text")
              || (value =? "fill_blank") then Some text
      else None
  end.

Section Finish.

(** The option index read from an answer,
    [Number.isFinite(Number(a)) ? parseInt(String(a), 10) : NaN],
    with [None] for NaN. *)
Variable parse_index : option string -> option Z.

(** The body of [responses.map] in [finish]: the stored answer and the
    verdict for one response. *)
Definition grade (questionMap : gmap string FullQuestion) (response : RunnerResponse)
    : option string * bool :=
  match questionMap !! question_id response with
  | Some question =>
      match fq_type question with
      | mcq =>
          let option :=
            match parse_index (answer response) with
            | Some idx =>
                if (0 <=? idx)%Z then fq_options question !! Z.to_nat idx else None
            | None => None
            end in
          (match option with Some o => Some (do_option_text o) | None => None end,
           match option with Some o => do_is_correct o | None => false end)
      | text =>
          let submitted :=
            JS.trim (match answer response with Some a => a | None => "" end) in
          (if JS.truthy submitted then Some submitted else None,
           evaluateTextAnswer (Some submitted) (fq_textAnswer question))
      end
  | None => (answer response, false)
  end.

(** [finish], given the questions fetched for the responses' ids: the
    rows to save and the returned summary.  The rows and the summary are
    then written to the store; those writes do not feed back into the
    score. *)
Definition finish (assessmentId : string) (questions : list FullQuestion)
    (responses : list RunnerResponse) : FinishSummary :=
  let questionMap := question_map questions in
  let graded := List.map (fun r => (r, grade questionMap r)) responses in
  let correctCount := JS.count (fun g => snd (snd g)) graded in
  let totalQuestions := List.length responses in
  let score := percentage correctCount totalQuestions in
  {| score := score;
     passed := PrimFloat.leb (JS.of_int PASSING_SCORE) score;
     total := totalQuestions;
     correct := correctCount;
     toSave :=
       List.map (fun g => {| row_assessment_id := assessmentId;
                             row_q_index := q_index (fst g);
                             row_question_id := question_id (fst g);
                             row_answer_text := fst (snd g);
                             row_correct := snd (snd g) |}) graded |}.

End Finish.

End AssessmentService.

(** The earlier [AssessmentService.finish], over the fixed 25-question
    set [QUESTIONS]: its score and pass lines, from the number of correct
    responses. *)
Module StaticAssessmentService.

Definition QUESTIONS_length : nat := 25.

(** [const passed = correctCount >= 18] *)
Definition passed (correctCount : nat) : bool := (18 <=? correctCount)%nat.

(** [Math.round((correctCount / QUESTIONS.length) * 100)] *)
Definition score (correctCount : nat) : float :=
  JS.Math_round
    (PrimFloat.mul
       (PrimFloat.div (JS.of_int (Z.of_nat correctCount))
                      (JS.of_int (Z.of_nat QUESTIONS_length)))
       (JS.of_int 100)).

(** The question set of questions.ts. *)
Inductive Question : Type :=
| McqQuestion (id prompt : string) (options : list string) (answerIndex : nat)
| TextQuestion (id prompt answerText : string).

Definition question_ident (q : Question) : string :=
  match q with
  | McqQuestion id _ _ _ => id
  | TextQuestion id _ _ => id
  end.

(** The double quote character, as a string. *)
Definition dq : string := String (Ascii.ascii_of_nat 34) EmptyString.

Definition QUESTIONS : list Question :=
  [
    McqQuestion "q1"
      "What is the correct way to create a variable in Python?"
      ["var x = 10"; "x := 10"; "x = 10"; "int x = 10"] 2;
    McqQuestion "q2"
      "Given a=5 and b=10, what is the output of print(a + b * 2)?"
      ["25"; "20"; "15"; "30"] 0;
    McqQuestion "q3"
      "Which function converts a string to an integer in Python?"
      ["toInt()"; "convert()"; "int()"; "strToInt()"] 2;
    McqQuestion "q4"
      "How do you define a function in Python?"
      ["def func():"; "function func():"; "func def():"; "func():"] 0;
    McqQuestion "q5"
      ("What is the output of: x = 10; if x > 5: print(" ++ dq ++ "Greater" ++ dq
       ++ ") else: print(" ++ dq ++ "Smaller" ++ dq ++ ")")
      ["Greater"; "Smaller"; "Error"; "None of the above"] 0;
    McqQuestion "q6"
      "Which of the following is not a valid Python keyword?"
      ["import"; "def"; "class"; "function"] 3;
    McqQuestion "q7"
      "What does this code output? x = [1, 2, 3]; x.append(4); print(len(x))"
      ["3"; "4"; "Error"; "None of the above"] 1;
    McqQuestion "q8"
      "Which operator is used for floor division in Python?"
      ["/"; "//"; "%"; "**"] 1;
    McqQuestion "q9"
      "Given my_list = [1, 2, 3, 4, 5], what does print(my_list[2]) output?"
      ["2"; "3"; "4"; "Error"] 1;
    McqQuestion "q10"
      "Which of the following is an immutable data structure in Python?"
      ["List"; "Dictionary"; "Tuple"; "Set"] 2;
    McqQuestion "q11"
      "How can you remove a specific element from a set in Python?"
      ["set.remove(value)"; "set.delete(value)"; "set.discard(value)"; "Both a and c"] 3;
    McqQuestion "q12"
      "What does this output? my_dict = { 'a': 1, 'b': 2 }; print(my_dict.get('c', 3))"
      ["None"; "Error"; "3"; "1"] 2;
    McqQuestion "q13"
      "Which methods add an element to a list?"
      ["append()"; "add()"; "insert()"; "Both a and c"] 3;
    McqQuestion "q14"
      "Which statement about Python dictionaries is true?"
      ["Keys can be duplicated."; "Keys must be immutable."; "Values must be unique."; "Dictionaries maintain order starting from Python 2."] 1;
    McqQuestion "q15"
      "How can you read a CSV file into a Pandas DataFrame?"
      ["pd.read_csv('file.csv')"; "pandas.read_csv('file.csv')"; "DataFrame.read_csv('file.csv')"; "pd.load_csv('file.csv')"] 0;
    McqQuestion "q16"
      "What does the head() function in Pandas do?"
      ["Returns the first few rows of a DataFrame"; "Returns the last few rows of a DataFrame"; "Adds a new column to a DataFrame"; "Deletes the first row of a DataFrame"] 0;
    McqQuestion "q17"
      "How do you calculate the mean of a column in a Pandas DataFrame?"
      ["DataFrame.mean()"; "DataFrame.column.mean()"; "DataFrame['column'].mean()"; "Both b and c"] 2;
    McqQuestion "q18"
      "Which methods are used to filter rows in Pandas?"
      [".query()"; ".filter()"; "Both a and b"; "None of the above"] 2;
    McqQuestion "q19"
      "What does groupby() do in Pandas?"
      ["Sorts the DataFrame"; "Groups data based on a specific column"; "Deletes duplicate rows"; "None of the above"] 1;
    McqQuestion "q20"
      "Which functions are used to combine multiple DataFrames?"
      ["merge()"; "concat()"; "Both a and b"; "join()"] 2;
    McqQuestion "q21"
      "How can you check for missing values in a DataFrame?"
      [".isnull()"; ".checknull()"; ".findnull()"; ".hasnull()"] 0;
    McqQuestion "q22"
      "What does the drop() method do in Pandas?"
      ["Deletes a row or column"; "Drops duplicates"; "Replaces missing values"; "None of the above"] 0;
    McqQuestion "q23"
      "Which function is used to create a line plot in Matplotlib?"
      ["plt.plot()"; "plt.lineplot()"; "plt.graph()"; "plt.draw()"] 0;
    McqQuestion "q24"
      "What does plt.show() do?"
      ["Displays the plot"; "Saves the plot"; "Closes the plot"; "None of the above"] 0;
    McqQuestion "q25"
      "Which method is used to create a bar chart in Matplotlib?"
      ["plt.bar()"; "plt.barchart()"; "plt.bargraph()"; "plt.histogram()"] 0
  ].

(** A question without its answer, as [getQuestionSet] returns it. *)
Inductive ShownQuestion : Type :=
| ShownMcq (id prompt : string) (options : list string)
| ShownText (id prompt : string).

Definition getQuestionSet : list ShownQuestion :=
  List.map (fun q => match q with
                     | McqQuestion id prompt options _ => ShownMcq id prompt options
                     | TextQuestion id prompt _ => ShownText id prompt
                     end) QUESTIONS.

(** [String(n)] for an array index [n]: its decimal numeral. *)
Fixpoint decimal (fuel n : nat) (acc : string) : string :=
  match fuel with
  | O => acc
  | S fuel' =>
      let acc' := String (Ascii.ascii_of_nat (48 + n mod 10)) acc in
      if (n / 10 =? 0)%nat then acc' else decimal fuel' (n / 10) acc'
  end.
Definition String_of_index (n : nat) : string := decimal (S n) n EmptyString.

(** [String(r.answer)] for an answer that is a string or null. *)
Definition String_of_answer (answer : option string) : string :=
  match answer with Some a => a | None => "null" end.

Record FinishSummary : Type := {
  score_of : float;
  passed_of : bool;
  total : nat;
  correct : nat;
  toSave : list AssessmentService.SavedResponse
}.

Section Finish.

(** The option index read from an answer,
    [Number.isFinite(Number(a)) ? parseInt(String(a), 10) : NaN],
    with [None] for NaN. *)
Variable parse_index : option string -> option Z.

(** The body of [responses.map] in [finish]: the stored answer and the
    verdict for one response. *)
Definition grade (r : AssessmentService.RunnerResponse) : option string * bool :=
  match List.find (fun qq => question_ident qq =? AssessmentService.question_id r)
                  QUESTIONS with
  | Some (McqQuestion _ _ options answerIndex) =>
      (match parse_index (AssessmentService.answer r) with
       | Some idx =>
           if (0 <=? idx)%Z && (idx <? Z.of_nat (List.length options))%Z
           then options !! Z.to_nat idx
           else None
       | None => AssessmentService.answer r
       end,
       String_of_index answerIndex =? String_of_answer (AssessmentService.answer r))
  | Some (TextQuestion _ _ answerText) =>
      let ans :=
        JS.trim (match AssessmentService.answer r with Some a => a | None => "" end) in
      (if JS.truthy ans then Some ans else None,
       JS.toLowerCase ans =? JS.toLowerCase (JS.trim answerText))
  | None => (AssessmentService.answer r, false)
  end.

(** [finish]: the rows to save and the returned summary.  The rows and the
    summary are then written to the store; those writes do not feed back
    into the score. *)
Definition finish (assessmentId : string)
    (responses : list AssessmentService.RunnerResponse) : FinishSummary :=
  let graded := List.map (fun r => (r, grade r)) responses in
  let correctCount := JS.count (fun g => snd (snd g)) graded in
  {| score_of := score correctCount;
     passed_of := passed correctCount;
     total := List.length QUESTIONS;
     correct := correctCount;
     toSave :=
       List.map (fun g => {| AssessmentService.row_assessment_id := assessmentId;
                             AssessmentService.row_q_index :=
                               AssessmentService.q_index (fst g);
                             AssessmentService.row_question_id :=
                               AssessmentService.question_id (fst g);
                             AssessmentService.row_answer_text := fst (snd g);
                             AssessmentService.row_correct := snd (snd g) |}) graded |}.

End Finish.

End StaticAssessmentService.

(* ===================================================================== *)
(** ** The backing store *)
(* ===================================================================== *)

Inductive session_status : Type := in_progress | completed | expired.

Definition session_status_eqb (a b : session_status) : bool :=
  match a, b with
  | in_progress, in_progress | completed, completed | expired, expired => true
  | _, _ => false
  end.

Record TemplateRow : Type := {
  tpl_id : string;
  is_active : bool;
  is_public : bool;
  max_attempts : option Z;
  time_limit_minutes : Z;
  randomize_questions : bool;
  randomize_options : bool;
  allow_retakes : bool
}.

Record QuestionRow : Type := {
  q_id : string;
  question_type : string;
  question_text : string;
  question_image_url : option string;
  difficulty_level : string;
  points_value : option Z;
  time_limit_seconds : option Z;
  q_explanation : option string
}.

Record OptionRow : Type := {
  o_id : string;
  o_question_id : string;
  option_text : string;
  option_image_url : option string;
  is_correct : bool;
  o_explanation : option string;
  o_order_index : Z
}.

Record TemplateQuestionRow : Type := {
  tq_template_id : string;
  tq_question_id : string;
  tq_order_index : Z
}.

Record SessionRow : Type := {
  s_id : string;
  s_student_id : string;
  s_template_id : string;
  s_session_token : string;
  s_attempt_number : Z;
  s_status : session_status;
  s_expires_at : option Z;
  s_started_at : Z;
  s_completed_at : option Z;
  s_total_questions : option Z
}.

Record ResponseRow : Type := {
  r_id : string;
  r_session_id : string;
  r_question_id : string;
  r_selected_option_id : option string;
  r_text_answer : option string;
  r_is_correct : bool;
  r_points_earned : Z;
  r_time_spent_seconds : Z;
  r_answered_at : Z
}.

(** The tables the student flow reads and writes, and one fact of their
    schema: whether the response table is declared unique on
    (session_id, question_id). *)
Record Store : Type := {
  assessment_templates : list TemplateRow;
  assessment_template_questions : list TemplateQuestionRow;
  assessment_questions : list QuestionRow;
  assessment_question_options : list OptionRow;
  assessment_text_answers : list DbTextAnswerRow;
  student_assessment_sessions : list SessionRow;
  student_assessment_responses : list ResponseRow;
  responses_unique : bool
}.

(** What a request can observe besides the store: the wall clock (epoch
    milliseconds), the stream behind [Math.random], and the stream of fresh
    identifiers behind [uuidv4] and the store's generated row ids. *)
Record World : Type := {
  store : Store;
  now : Z;
  rng : nat -> nat;
  rng_pos : nat;
  uuid : nat -> string;
  uuid_pos : nat
}.

Definition with_store (w : World) (st : Store) : World :=
  {| store := st; now := now w; rng := rng w; rng_pos := rng_pos w;
     uuid := uuid w; uuid_pos := uuid_pos w |}.

(** *** The state-and-exception monad of a request.  A thrown exception
    keeps the writes made before it. *)
Definition M (A : Type) : Type := World -> (exn + A) * World.

Definition ret {A} (a : A) : M A := fun w => (inr a, w).
Definition throw {A} (e : exn) : M A := fun w => (inl e, w).
Definition bind {A B} (m : M A) (k : A -> M B) : M B :=
  fun w => match m w with
           | (inl e, w') => (inl e, w')
           | (inr a, w') => k a w'
           end.

Notation "'let*' x ':=' m 'in' k" := (bind m (fun x => k))
  (at level 10, x pattern, m at level 100, k at level 200).
Notation "m ';;' k" := (bind m (fun _ => k))
  (at level 100, k at level 200, right associativity).

Definition when (b : bool) (m : M unit) : M unit := if b then m else ret tt.
Definition get_now : M Z := fun w => (inr (now w), w).
Definition read {A} (f : Store -> A) : M A := fun w => (inr (f (store w)), w).
Definition write (f : Store -> Store) : M unit :=
  fun w => (inr tt, with_store w (f (store w))).
Definition fresh_uuid : M string :=
  fun w => (inr (uuid w (uuid_pos w)),
            {| store := store w; now := now w; rng := rng w; rng_pos := rng_pos w;
               uuid := uuid w; uuid_pos := S (uuid_pos w) |}).

(** A [fetch] answer: [ok], the HTTP status, the decoded body, and the
    body as text ([await res.text()]), which the services read from a
    refusal only. *)
Record Res (A : Type) : Type := { ok : bool; status : Z; json : A; res_text : string }.
Arguments ok {A} _.
Arguments status {A} _.
Arguments json {A} _.
Arguments res_text {A} _.

(** A filtered [GET] on a table.  The store answers every read with 200. *)
Definition rest_get {A} (table : Store -> list A) (p : A -> bool) : M (Res (list A)) :=
  let* rows := read table in
  ret {| ok := true; status := 200; json := List.filter p rows; res_text := EmptyString |}.

(** [order=<col>.asc]: rows by ascending key, ties in table order. *)
Fixpoint insert_by {A} (key : A -> Z) (x : A) (l : list A) : list A :=
  match l with
  | [] => [x]
  | y :: l' => if (key x <=? key y)%Z then x :: l else y :: insert_by key x l'
  end.
Definition order_asc {A} (key : A -> Z) (l : list A) : list A :=
  List.fold_right (insert_by key) [] l.

Definition set_status (st : session_status) (s : SessionRow) : SessionRow :=
  {| s_id := s_id s; s_student_id := s_student_id s; s_template_id := s_template_id s;
     s_session_token := s_session_token s; s_attempt_number := s_attempt_number s;
     s_status := st; s_expires_at := s_expires_at s; s_started_at := s_started_at s;
     s_completed_at := s_completed_at s; s_total_questions := s_total_questions s |}.

Definition set_sessions (l : list SessionRow) (st : Store) : Store :=
  {| assessment_templates := assessment_templates st;
     assessment_template_questions := assessment_template_questions st;
     assessment_questions := assessment_questions st;
     assessment_question_options := assessment_question_options st;
     assessment_text_answers := assessment_text_answers st;
     student_assessment_sessions := l;
     student_assessment_responses := student_assessment_responses st;
     responses_unique := responses_unique st |}.

Definition set_responses (l : list ResponseRow) (st : Store) : Store :=
  {| assessment_templates := assessment_templates st;
     assessment_template_questions := assessment_template_questions st;
     assessment_questions := assessment_questions st;
     assessment_question_options := assessment_question_options st;
     assessment_text_answers := assessment_text_answers st;
     student_assessment_sessions := student_assessment_sessions st;
     student_assessment_responses := l;
     responses_unique := responses_unique st |}.

(** [PATCH student_assessment_sessions?id=eq.<id>] with a new status. *)
Definition patch_session_status (id : string) (st : session_status) : M (Res unit) :=
  write (fun s => set_sessions
           (List.map (fun r => if s_id r =? id then set_status st r else r)
                     (student_assessment_sessions s)) s) ;;
  ret {| ok := true; status := 204; json := tt; res_text := EmptyString |}.

(** [POST student_assessment_sessions]: the store generates the row id and
    fills the column defaults (status [in_progress]). *)
Definition post_session (student template token : string) (attempt : Z)
    (expires started : Z) : M (Res (list SessionRow)) :=
  let* id := fresh_uuid in
  let row := {| s_id := id; s_student_id := student; s_template_id := template;
                s_session_token := token; s_attempt_number := attempt;
                s_status := in_progress; s_expires_at := Some expires;
                s_started_at := started; s_completed_at := None;
                s_total_questions := None |} in
  write (fun s => set_sessions (student_assessment_sessions s ++ [row]) s) ;;
  ret {| ok := true; status := 201; json := [row]; res_text := EmptyString |}.

Definition same_response_key (session question : string) (r : ResponseRow) : bool :=
  (r_session_id r =? session) && (r_question_id r =? question).

(** Modelled from the spec: the uniqueness constraint of the response table
    on (session, question), whose schema is not among the sources, is the
    store's [responses_unique].  [POST student_assessment_responses] is a
    plain insert (no upsert preference is sent).  Where the constraint is
    declared, the insert answers 409 and writes nothing when a row with the
    same (session_id, question_id) exists; otherwise the row is appended
    under a generated id and the answer is 201. *)
Definition post_response (payload : ResponseRow) : M (Res (list ResponseRow)) :=
  let* unique := read responses_unique in
  let* rows := read student_assessment_responses in
  if unique
     && existsb (same_response_key (r_session_id payload) (r_question_id payload)) rows
  then ret {| ok := false; status := 409; json := []; res_text := EmptyString |}
  else
    let* id := fresh_uuid in
    let row := {| r_id := id; r_session_id := r_session_id payload;
                  r_question_id := r_question_id payload;
                  r_selected_option_id := r_selected_option_id payload;
                  r_text_answer := r_text_answer payload;
                  r_is_correct := r_is_correct payload;
                  r_points_earned := r_points_earned payload;
                  r_time_spent_seconds := r_time_spent_seconds payload;
                  r_answered_at := r_answered_at payload |} in
    write (fun s => set_responses (student_assessment_responses s ++ [row]) s) ;;
    ret {| ok := true; status := 201; json := [row]; res_text := EmptyString |}.

(* ===================================================================== *)
(** ** StudentAssessmentService (template flow) *)
(* ===================================================================== *)

Record SubmitResponseDto : Type := {
  dto_session_token : string;
  dto_question_id : string;
  dto_selected_option_id : option string;
  dto_text_answer : option string;
  dto_time_spent_seconds : Z
}.

(** An option as the student sees it. *)
Record PreparedOption : Type := {
  po_id : string;
  po_option_text : string;
  po_option_image_url : option string
}.

(** [{...tq.assessment_questions, options: ...}] *)
Record SessionQuestion : Type := {
  sq_question : QuestionRow;
  sq_options : list OptionRow
}.

Record QuestionPayload : Type := {
  qp_id : string;
  qp_question_number : Z;
  qp_question_type : string;
  qp_question_text : string;
  qp_question_image_url : option string;
  qp_difficulty_level : string;
  qp_points_value : option Z;
  qp_time_limit_seconds : option Z;
  qp_options : list PreparedOption
}.

Record StartPayload : Type := {
  sp_session_token : string;
  sp_session_id : string;
  sp_template : TemplateRow;
  sp_expires_at : Z;
  sp_questions : list QuestionPayload;
  sp_total_questions : nat;
  sp_attempt_number : Z
}.

(** [{...session, responses, time_remaining, is_expired}], the session row
    carrying its embedded [assessment_templates] row. *)
Record SessionView : Type := {
  sv_session : SessionRow;
  sv_assessment_templates : option TemplateRow;
  sv_responses : list ResponseRow;
  sv_time_remaining : Z;
  sv_is_expired : bool
}.

(** [{...question, options, existing_response, session_info}]: the spread
    copies every column of the question row into the answer. *)
Record QuestionView : Type := {
  qv_question : QuestionRow;
  qv_options : list PreparedOption;
  qv_existing_response : option ResponseRow;
  qv_time_remaining : Z;
  qv_questions_answered : nat;
  qv_total_questions : option Z
}.

Record SubmitResult : Type := {
  sr_response_id : string;
  sr_is_correct : bool;
  sr_points_earned : Z;
  sr_explanation : option string;
  sr_questions_answered : nat;
  sr_total_questions : option Z;
  sr_time_remaining : Z
}.

(** The answer of [finishAssessment], without the aggregate score columns
    it copies from the updated session. *)
Record FinishResult : Type := {
  fr_session_id : string;
  fr_attempt_number : Z;
  fr_can_retake : bool
}.

(** [question_breakdown] of [previewAssessment]. *)
Record QuestionBreakdown : Type := {
  qb_total : nat;
  qb_easy : nat;
  qb_medium : nat;
  qb_hard : nat;
  qb_mcq : nat;
  qb_text : nat;
  qb_image_mcq : nat;
  qb_image_text : nat;
  qb_total_points : Z
}.

(** [{...template, question_breakdown}] *)
Record AssessmentPreview : Type := {
  pv_template : TemplateRow;
  pv_question_breakdown : QuestionBreakdown
}.

(** A response row as [getDetailedResults] fetches it, carrying its
    embedded [assessment_questions] row (null when there is none). *)
Record DetailedResponseRow : Type := {
  dr_response : ResponseRow;
  dr_assessment_questions : option QuestionRow
}.

(** One bucket of [byDifficulty] while the responses are tallied. *)
Record DifficultyTally : Type := { dt_total : nat; dt_correct : nat }.

Record ByDifficulty : Type := {
  bd_easy : DifficultyTally;
  bd_medium : DifficultyTally;
  bd_hard : DifficultyTally
}.

(** One entry of the answer of [calculatePerformanceByDifficulty]. *)
Record DifficultyPerformance : Type := {
  dp_total : nat;
  dp_correct : nat;
  dp_percentage : float
}.

Record PerformanceByDifficulty : Type := {
  pbd_easy : DifficultyPerformance;
  pbd_medium : DifficultyPerformance;
  pbd_hard : DifficultyPerformance
}.

(** [student_info] of [getAvailableAssessments].  max_attempts_reached is
    the value of [template.max_attempts && length >= template.max_attempts]:
    the falsy max_attempts itself (null or 0), or the comparison. *)
Record StudentInfo : Type := {
  si_total_attempts : nat;
  si_max_attempts_reached : option Z + bool;
  si_best_score : Z;
  si_has_passed : bool;
  si_last_attempt_status : option session_status;
  si_last_attempt_passed : bool;
  si_can_retake : bool
}.

(** [{...template, student_info}] *)
Record AvailableAssessment : Type := {
  aa_template : TemplateRow;
  aa_student_info : StudentInfo
}.

(** The answer of [getAssessmentResults].  The columns it copies without
    looking at them have values in [Json]. *)
Record AssessmentResults (Json : Type) : Type := {
  ar_session_id : string;
  ar_assessment_title : Json;
  ar_total_score : Json;
  ar_percentage_score : Json;
  ar_total_questions : option Z;
  ar_correct_answers : Json;
  ar_passed : Json;
  ar_passing_percentage : Json;
  ar_time_spent_minutes : float;
  ar_attempt_number : Z;
  ar_completed_at : option Z
}.
Arguments ar_session_id {Json} _.
Arguments ar_time_spent_minutes {Json} _.
Arguments ar_attempt_number {Json} _.
Arguments ar_total_questions {Json} _.
Arguments ar_completed_at {Json} _.

(** One entry of detailed_responses in the answer of [getDetailedResults]. *)
Record DetailedResponse : Type := {
  de_question_text : string;
  de_difficulty_level : string;
  de_student_answer : string;
  de_is_correct : bool;
  de_points_earned : Z;
  de_explanation : option string;
  de_time_spent_seconds : Z
}.

(** [{...results, detailed_responses, performance_by_difficulty}] *)
Record DetailedResults (Json : Type) : Type := {
  dres_results : AssessmentResults Json;
  dres_detailed_responses : list DetailedResponse;
  dres_performance_by_difficulty : PerformanceByDifficulty
}.
Arguments dres_results {Json} _.
Arguments dres_detailed_responses {Json} _.
Arguments dres_performance_by_difficulty {Json} _.

Module StudentAssessmentService.

(** Truthiness of an optional string field. *)
Definition truthy_str (o : option string) : bool :=
  match o with Some s => JS.truthy s | None => false end.

(** [x || null] on an optional string. *)
Definition or_null (o : option string) : option string :=
  if truthy_str o then o else None.

(** [question.points_value || 1] *)
Definition points_or_1 (q : QuestionRow) : Z :=
  match points_value q with
  | Some n => if (n =? 0)%Z then 1 else n
  | None => 1
  end.

(** [new Date(x).getTime()]; [new Date(null)] is the epoch. *)
Definition getTime (o : option Z) : Z := match o with Some t => t | None => 0 end.

(** [Math.max(0, Math.floor((expires_at - now) / 1000))] *)
Definition time_remaining (expires_at : option Z) (now : Z) : Z :=
  Z.max 0 ((getTime expires_at - now) / 1000).

Definition getAssessmentTemplate (templateId studentId : string) : M TemplateRow :=
  let* res := rest_get assessment_templates (fun t => tpl_id t =? templateId) in
  if negb (ok res) then
    throw (InternalServerErrorException
             ("Failed to fetch assessment template: " ++ JS.String_of_int (status res)))
  else
  match head (json res) with
  | None =>
      throw (NotFoundException
               ("Assessment template with id " ++ templateId ++ " not found"))
  | Some template =>
      if negb (is_active template) || negb (is_public template) then
        throw (ForbiddenException "This assessment is not available")
      else ret template
  end.

(** [[shuffled[i], shuffled[j]] = [shuffled[j], shuffled[i]]] *)
Definition swap {T} (i j : nat) (shuffled : list T) : list T :=
  match shuffled !! i, shuffled !! j with
  | Some x, Some y => <[j := x]> (<[i := y]> shuffled)
  | _, _ => shuffled
  end.

(** [Math.floor(Math.random() * (i + 1))]: some index in 0..i, taken from
    the next draw of the random stream. *)
Definition random_index (rng : nat -> nat) (pos : nat) (i : nat) : nat :=
  (rng pos mod (i + 1))%nat.

(** The loop [for (i = ...; i > 0; i--)] of [shuffleArray], started at
    index [i]; returns the array and the position reached in the stream. *)
Fixpoint shuffle_loop {T} (rng : nat -> nat) (pos : nat) (i : nat)
    (shuffled : list T) : list T * nat :=
  match i with
  | O => (shuffled, pos)
  | S i' =>
      let j := random_index rng pos i in
      shuffle_loop rng (S pos) i' (swap i j shuffled)
  end.

Definition shuffleArray {T} (array : list T) : M (list T) :=
  fun w =>
    let shuffled := array in
    let '(shuffled, pos) :=
      shuffle_loop (rng w) (rng_pos w) (List.length shuffled - 1)%nat shuffled in
    (inr shuffled,
     {| store := store w; now := now w; rng := rng w; rng_pos := pos;
        uuid := uuid w; uuid_pos := uuid_pos w |}).

Definition prepareQuestionOptions (options : list OptionRow) (randomize : bool)
    : M (list PreparedOption) :=
  let preparedOptions :=
    List.map (fun option => {| po_id := o_id option;
                               po_option_text := option_text option;
                               po_option_image_url := option_image_url option |})
             options in
  if randomize then shuffleArray preparedOptions else ret preparedOptions.

(** The question embedded in one template-question link, with all its
    columns and all its option rows. *)
Definition embed_question (st : Store) (tq : TemplateQuestionRow) : option SessionQuestion :=
  match List.find (fun q => q_id q =? tq_question_id tq) (assessment_questions st) with
  | Some q =>
      Some {| sq_question := q;
              sq_options := List.filter (fun o => o_question_id o =? q_id q)
                                        (assessment_question_options st) |}
  | None => None
  end.

Fixpoint sequence_embed (l : list (option SessionQuestion)) : M (list SessionQuestion) :=
  match l with
  | [] => ret []
  | None :: _ => throw TypeError
  | Some q :: l' => let* qs := sequence_embed l' in ret (q :: qs)
  end.

Definition getQuestionsForSession (templateId : string) (randomize : bool)
    : M (list SessionQuestion) :=
  let* questionsRes :=
    rest_get assessment_template_questions (fun tq => tq_template_id tq =? templateId) in
  if negb (ok questionsRes) then
    throw (InternalServerErrorException "Failed to fetch template questions")
  else
  let templateQuestions := order_asc tq_order_index (json questionsRes) in
  let* st := read (fun s => s) in
  let* questions := sequence_embed (List.map (embed_question st) templateQuestions) in
  if randomize then shuffleArray questions else ret questions.

(** [questions.map((q, index) => ({...}))] of [startAssessment], from
    index [index]. *)
Fixpoint question_payloads (index : Z) (randomize_options : bool)
    (questions : list SessionQuestion) : M (list QuestionPayload) :=
  match questions with
  | [] => ret []
  | q :: rest =>
      let* options := prepareQuestionOptions (sq_options q) randomize_options in
      let* tail := question_payloads (index + 1) randomize_options rest in
      ret ({| qp_id := q_id (sq_question q);
              qp_question_number := index + 1;
              qp_question_type := question_type (sq_question q);
              qp_question_text := question_text (sq_question q);
              qp_question_image_url := question_image_url (sq_question q);
              qp_difficulty_level := difficulty_level (sq_question q);
              qp_points_value := points_value (sq_question q);
              qp_time_limit_seconds := time_limit_seconds (sq_question q);
              qp_options := options |} :: tail)
  end.

Definition startAssessment (templateId studentId : string) : M StartPayload :=
  let* template := getAssessmentTemplate templateId studentId in
  let* attemptsRes :=
    rest_get student_assessment_sessions
      (fun s => (s_student_id s =? studentId) && (s_template_id s =? templateId)) in
  let attempts :=
    List.firstn 1 (order_asc (fun s => - s_attempt_number s) (json attemptsRes)) in
  let nextAttemptNumber :=
    match attempts with
    | a :: _ => s_attempt_number a + 1
    | [] => 1
    end in
  let* t := get_now in
  let expiresAt := t + time_limit_minutes template * 60000 in
  let* sessionToken := fresh_uuid in
  let* sessionRes :=
    post_session studentId templateId sessionToken nextAttemptNumber expiresAt t in
  if negb (ok sessionRes) then
    throw (InternalServerErrorException
             ("Failed to start assessment: " ++ JS.String_of_int (status sessionRes)
              ++ " " ++ res_text sessionRes))
  else
  match head (json sessionRes) with
  | None => throw TypeError
  | Some session =>
      let* questions := getQuestionsForSession templateId (randomize_questions template) in
      let* payloads := question_payloads 0 (randomize_options template) questions in
      ret {| sp_session_token := sessionToken;
             sp_session_id := s_id session;
             sp_template := template;
             sp_expires_at := expiresAt;
             sp_questions := payloads;
             sp_total_questions := List.length questions;
             sp_attempt_number := nextAttemptNumber |}
  end.

Definition expireSession (sessionId : string) : M unit :=
  patch_session_status sessionId expired ;; ret tt.

(** The session is read with the token and the student id pasted into
    the query, [session_token=eq.<token>&student_id=eq.<id>]; the filter
    below is the store's reading of it for values of unreserved URL
    characters. *)
Definition getAssessmentSession (sessionToken studentId : string) : M SessionView :=
  let* sessionRes :=
    rest_get student_assessment_sessions
      (fun s => (s_session_token s =? sessionToken) && (s_student_id s =? studentId)) in
  if negb (ok sessionRes) then
    throw (InternalServerErrorException "Failed to fetch assessment session")
  else
  match head (json sessionRes) with
  | None => throw (NotFoundException "Assessment session not found")
  | Some session =>
      let* t := get_now in
      if session_status_eqb (s_status session) expired
         || match s_expires_at session with
            | Some e => (e <? t)%Z
            | None => false
            end
      then
        when (negb (session_status_eqb (s_status session) expired))
             (expireSession (s_id session)) ;;
        throw (ForbiddenException "Assessment session has expired")
      else
        let* templates := read assessment_templates in
        let* responsesRes :=
          rest_get student_assessment_responses
            (fun r => r_session_id r =? s_id session) in
        ret {| sv_session := session;
               sv_assessment_templates :=
                 List.find (fun t => tpl_id t =? s_template_id session) templates;
               sv_responses := json responsesRes;
               sv_time_remaining := time_remaining (s_expires_at session) t;
               sv_is_expired := (getTime (s_expires_at session) <? t)%Z |}
  end.

Definition getQuestionForSession (sessionToken questionId studentId : string)
    : M QuestionView :=
  let* session := getAssessmentSession sessionToken studentId in
  let* questionRes := rest_get assessment_questions (fun q => q_id q =? questionId) in
  let* optionsRes :=
    rest_get assessment_question_options (fun o => o_question_id o =? questionId) in
  if negb (ok questionRes) then
    throw (InternalServerErrorException "Failed to fetch question")
  else
  match head (json questionRes) with
  | None => throw (NotFoundException "Question not found")
  | Some question =>
      let options := order_asc o_order_index (json optionsRes) in
      let* responseRes :=
        rest_get student_assessment_responses
          (same_response_key (s_id (sv_session session)) questionId) in
      match sv_assessment_templates session with
      | None => throw TypeError
      | Some template =>
          let* prepared := prepareQuestionOptions options (randomize_options template) in
          let* t := get_now in
          ret {| qv_question := question;
                 qv_options := prepared;
                 qv_existing_response := head (json responseRes);
                 qv_time_remaining := time_remaining (s_expires_at (sv_session session)) t;
                 qv_questions_answered := List.length (sv_responses session);
                 qv_total_questions := s_total_questions (sv_session session) |}
      end
  end.

(** The text branch of [validateAndScoreResponse] once the answer row is
    fetched: the verdict for a submitted text, or the [TypeError] of
    calling [some] or reading [length] on a null column. *)
Definition score_text (textAnswer : DbTextAnswerRow) (text_answer : string) : exn + bool :=
  let studentAnswer := JS.trim text_answer in
  let correctAnswer := JS.trim (correct_answer textAnswer) in
  if exact_match textAnswer then
    inr (if case_sensitive textAnswer
         then (studentAnswer =? correctAnswer)
         else (JS.toLowerCase studentAnswer =? JS.toLowerCase correctAnswer))
  else
    let lower := fun v => if case_sensitive textAnswer then v else JS.toLowerCase v in
    let answerToCheck := lower studentAnswer in
    let correctToCheck := lower correctAnswer in
    let isCorrect :=
      if JS.includes answerToCheck correctToCheck then inr true
      else match alternate_answers textAnswer with
           | None => inl TypeError
           | Some alts => inr (JS.some (fun alt => JS.includes answerToCheck (lower alt)) alts)
           end in
    match isCorrect with
    | inl e => inl e
    | inr true => inr true
    | inr false =>
        match keywords textAnswer with
        | None => inl TypeError
        | Some kws =>
            if (0 <? List.length kws)%nat then
              let keywordMatches :=
                JS.count (fun keyword => JS.includes answerToCheck (lower keyword)) kws in
              inr (JS.ceil_half (List.length kws) <=? keywordMatches)%nat
            else inr false
        end
    end.

Definition lift {A} (r : exn + A) : M A :=
  match r with inl e => throw e | inr a => ret a end.

Definition is_mcq_type (t : string) : bool := (t =? "mcq") || (t =? "image_mcq").
Definition is_text_type (t : string) : bool :=
  (t =? "text") || (t =? "image_text") || (t =? "short_text") || (t =? "fill_blank").

(** The selected option is read with its id and the question id pasted
    into the query, [id=eq.<option>&question_id=eq.<question>]; the filter
    below is the store's reading of it for values of unreserved URL
    characters. *)
Definition validateAndScoreResponse (question : QuestionRow) (responseDto : SubmitResponseDto)
    : M (bool * Z) :=
  if is_mcq_type (question_type question) then
    match dto_selected_option_id responseDto with
    | Some sel =>
        if JS.truthy sel then
          let* optionRes :=
            rest_get assessment_question_options
              (fun o => (o_id o =? sel) && (o_question_id o =? q_id question)) in
          match head (json optionRes) with
          | Some option =>
              if is_correct option then ret (true, points_or_1 question)
              else ret (false, 0)
          | None => ret (false, 0)
          end
        else ret (false, 0)
    | None => ret (false, 0)
    end
  else if is_text_type (question_type question) then
    match dto_text_answer responseDto with
    | Some text =>
        if JS.truthy text then
          let* textAnswerRes :=
            rest_get assessment_text_answers
              (fun a => ta_question_id a =? q_id question) in
          match head (json textAnswerRes) with
          | Some textAnswer =>
              let* isCorrect := lift (score_text textAnswer text) in
              if isCorrect then ret (true, points_or_1 question)
              else ret (false, 0)
          | None => ret (false, 0)
          end
        else ret (false, 0)
    | None => ret (false, 0)
    end
  else ret (false, 0).

Definition submitResponse (responseDto : SubmitResponseDto) (studentId : string)
    : M SubmitResult :=
  let* session := getAssessmentSession (dto_session_token responseDto) studentId in
  if negb (session_status_eqb (s_status (sv_session session)) in_progress) then
    throw (BadRequestException "Cannot submit response for non-active session")
  else
  let* questionRes :=
    rest_get assessment_questions (fun q => q_id q =? dto_question_id responseDto) in
  match head (json questionRes) with
  | None => throw (NotFoundException "Question not found")
  | Some question =>
      let* scored := validateAndScoreResponse question responseDto in
      let isCorrect := fst scored in
      let pointsEarned := snd scored in
      let* t := get_now in
      let responsePayload :=
        {| r_id := "";
           r_session_id := s_id (sv_session session);
           r_question_id := dto_question_id responseDto;
           r_selected_option_id := or_null (dto_selected_option_id responseDto);
           r_text_answer := or_null (dto_text_answer responseDto);
           r_is_correct := isCorrect;
           r_points_earned := pointsEarned;
           r_time_spent_seconds := dto_time_spent_seconds responseDto;
           r_answered_at := t |} in
      let* saveRes := post_response responsePayload in
      if negb (ok saveRes) then
        if (status saveRes =? 409)%Z then
          throw (BadRequestException "Response already submitted for this question")
        else throw (InternalServerErrorException
                      ("Failed to save response: " ++ JS.String_of_int (status saveRes)))
      else
      match head (json saveRes) with
      | None => throw TypeError
      | Some savedResponse =>
          ret {| sr_response_id := r_id savedResponse;
                 sr_is_correct := isCorrect;
                 sr_points_earned := pointsEarned;
                 sr_explanation := or_null (q_explanation question);
                 sr_questions_answered := (List.length (sv_responses session) + 1)%nat;
                 sr_total_questions := s_total_questions (sv_session session);
                 sr_time_remaining :=
                   time_remaining (s_expires_at (sv_session session)) t |}
      end
  end.

(** Modelled from the spec: the store procedure [calculate_session_results],
    which is not among the sources.  On finish it sets the session's status
    to completed and completed_at to now; the aggregate score columns it
    also fills are not part of this development. *)
Definition rpc_calculate_session_results (session_uuid : string) : M (Res unit) :=
  let* t := get_now in
  write (fun s => set_sessions
           (List.map (fun r =>
              if s_id r =? session_uuid then
                {| s_id := s_id r; s_student_id := s_student_id r;
                   s_template_id := s_template_id r;
                   s_session_token := s_session_token r;
                   s_attempt_number := s_attempt_number r;
                   s_status := completed; s_expires_at := s_expires_at r;
                   s_started_at := s_started_at r; s_completed_at := Some t;
                   s_total_questions := s_total_questions r |}
              else r)
              (student_assessment_sessions s)) s) ;;
  ret {| ok := true; status := 204; json := tt; res_text := EmptyString |}.

Definition calculateSessionResults (sessionId : string) : M unit :=
  let* functionRes := rpc_calculate_session_results sessionId in
  if negb (ok functionRes) then
    throw (InternalServerErrorException "Failed to calculate session results")
  else ret tt.

Definition finishAssessment (sessionToken studentId : string) : M FinishResult :=
  let* session := getAssessmentSession sessionToken studentId in
  if negb (session_status_eqb (s_status (sv_session session)) in_progress) then
    throw (BadRequestException "Cannot finish non-active session")
  else
  calculateSessionResults (s_id (sv_session session)) ;;
  let* updatedSession := getAssessmentSession sessionToken studentId in
  match sv_assessment_templates updatedSession with
  | None => throw TypeError
  | Some template =>
      ret {| fr_session_id := s_id (sv_session session);
             fr_attempt_number := s_attempt_number (sv_session updatedSession);
             fr_can_retake :=
               allow_retakes template
               && match max_attempts template with
                  | Some max =>
                      (max =? 0)%Z || (s_attempt_number (sv_session updatedSession) <? max)%Z
                  | None => true
                  end |}
  end.

Definition getActiveSessionsForTemplate (templateId studentId : string)
    : M (list SessionRow) :=
  let* res :=
    rest_get student_assessment_sessions
      (fun s => (s_student_id s =? studentId) && (s_template_id s =? templateId)
                && session_status_eqb (s_status s) in_progress) in
  if ok res then ret (json res) else ret [].

Definition getAttemptCount (templateId studentId : string) : M Z :=
  let* res :=
    rest_get student_assessment_sessions
      (fun s => (s_student_id s =? studentId) && (s_template_id s =? templateId)) in
  if ok res then ret (Z.of_nat (List.length (json res))) else ret 0.

(** [templateQuestions.map(tq => tq.assessment_questions)] as the filters
    of [previewAssessment] read it: a column of a null embed is a
    [TypeError]. *)
Fixpoint embedded_rows (l : list (option QuestionRow)) : M (list QuestionRow) :=
  match l with
  | [] => ret []
  | None :: _ => throw TypeError
  | Some q :: l' => let* qs := embedded_rows l' in ret (q :: qs)
  end.

Definition previewAssessment (templateId : string) : M AssessmentPreview :=
  let* template := getAssessmentTemplate templateId "" in
  let* questionsRes :=
    rest_get assessment_template_questions (fun tq => tq_template_id tq =? templateId) in
  if negb (ok questionsRes) then
    throw (InternalServerErrorException "Failed to fetch template questions")
  else
  let templateQuestions := json questionsRes in
  let* stored := read assessment_questions in
  let* questions :=
    embedded_rows
      (List.map (fun tq => List.find (fun q => q_id q =? tq_question_id tq) stored)
                templateQuestions) in
  ret {| pv_template := template;
         pv_question_breakdown :=
           {| qb_total := List.length questions;
              qb_easy := JS.count (fun q => difficulty_level q =? "easy") questions;
              qb_medium := JS.count (fun q => difficulty_level q =? "medium") questions;
              qb_hard := JS.count (fun q => difficulty_level q =? "hard") questions;
              qb_mcq := JS.count (fun q => question_type q =? "mcq") questions;
              qb_text :=
                JS.count (fun q => existsb (fun t => t =? question_type q)
                                           ["text"; "short_text"; "fill_blank"])
                         questions;
              qb_image_mcq := JS.count (fun q => question_type q =? "image_mcq") questions;
              qb_image_text := JS.count (fun q => question_type q =? "image_text") questions;
              qb_total_points :=
                List.fold_left (fun sum q => sum + points_or_1 q) questions 0 |} |}.

(** The body of [responses.forEach] in [calculatePerformanceByDifficulty]
    for a response of difficulty [difficulty]: a level that is no key of
    [byDifficulty] changes no bucket. *)
Definition tally_response (byDifficulty : ByDifficulty) (difficulty : string)
    (is_correct : bool) : ByDifficulty :=
  let bump := fun d => {| dt_total := S (dt_total d);
                          dt_correct := if is_correct then S (dt_correct d)
                                        else dt_correct d |} in
  if difficulty =? "easy" then
    {| bd_easy := bump (bd_easy byDifficulty); bd_medium := bd_medium byDifficulty;
       bd_hard := bd_hard byDifficulty |}
  else if difficulty =? "medium" then
    {| bd_easy := bd_easy byDifficulty; bd_medium := bump (bd_medium byDifficulty);
       bd_hard := bd_hard byDifficulty |}
  else if difficulty =? "hard" then
    {| bd_easy := bd_easy byDifficulty; bd_medium := bd_medium byDifficulty;
       bd_hard := bump (bd_hard byDifficulty) |}
  else byDifficulty.

(** [responses.forEach(...)]: reading the difficulty of a null embed is a
    [TypeError]. *)
Fixpoint tally_responses (byDifficulty : ByDifficulty) (responses : list DetailedResponseRow)
    : exn + ByDifficulty :=
  match responses with
  | [] => inr byDifficulty
  | response :: rest =>
      match dr_assessment_questions response with
      | None => inl TypeError
      | Some question =>
          tally_responses
            (tally_response byDifficulty (difficulty_level question)
                            (r_is_correct (dr_response response)))
            rest
      end
  end.

Definition calculatePerformanceByDifficulty (responses : list DetailedResponseRow)
    : exn + PerformanceByDifficulty :=
  let byDifficulty :=
    {| bd_easy := {| dt_total := 0; dt_correct := 0 |};
       bd_medium := {| dt_total := 0; dt_correct := 0 |};
       bd_hard := {| dt_total := 0; dt_correct := 0 |} |} in
  match tally_responses byDifficulty responses with
  | inl e => inl e
  | inr byDifficulty =>
      let entry := fun data =>
        {| dp_total := dt_total data;
           dp_correct := dt_correct data;
           dp_percentage :=
             if (0 <? dt_total data)%nat then
               JS.Math_round
                 (PrimFloat.mul
                    (PrimFloat.div (JS.of_int (Z.of_nat (dt_correct data)))
                                   (JS.of_int (Z.of_nat (dt_total data))))
                    (JS.of_int 100))
             else JS.of_int 0 |} in
      inr {| pbd_easy := entry (bd_easy byDifficulty);
             pbd_medium := entry (bd_medium byDifficulty);
             pbd_hard := entry (bd_hard byDifficulty) |}
  end.

Section Discovery.

(** Two columns that only the listing reads, as functions of the row:
    created_at of a template and passed (a boolean or null) of a session. *)
Variable created_at : TemplateRow -> Z.
Variable passed : SessionRow -> option bool.

Definition passed_truthy (a : SessionRow) : bool :=
  match passed a with Some b => b | None => false end.

(** The attempts are fetched with
    [select=template_id,attempt_number,status,passed], so an attempt row
    carries no percentage_score and [a.percentage_score || 0] is 0. *)
Definition getAvailableAssessments (studentId : string) : M (list AvailableAssessment) :=
  let* res := rest_get assessment_templates (fun t => is_active t && is_public t) in
  if negb (ok res) then
    throw (InternalServerErrorException
             ("Failed to fetch available assessments: " ++ JS.String_of_int (status res)))
  else
  let templates := order_asc (fun t => - created_at t) (json res) in
  let templateIds := List.map tpl_id templates in
  if (List.length templateIds =? 0)%nat then ret [] else
  let* attemptsRes :=
    rest_get student_assessment_sessions
      (fun s => (s_student_id s =? studentId)
                && existsb (fun id => s_template_id s =? id) templateIds) in
  let attempts := if ok attemptsRes then json attemptsRes else [] in
  ret (List.map
         (fun template =>
            let templateAttempts :=
              List.filter (fun a => s_template_id a =? tpl_id template) attempts in
            let maxAttempt :=
              List.fold_right Z.max 0 (List.map s_attempt_number templateAttempts) in
            let lastAttempt :=
              List.find (fun a => (s_attempt_number a =? maxAttempt)%Z) templateAttempts in
            let passedAttempts :=
              List.filter (fun a => session_status_eqb (s_status a) completed
                                    && passed_truthy a) templateAttempts in
            {| aa_template := template;
               aa_student_info :=
                 {| si_total_attempts := List.length templateAttempts;
                    si_max_attempts_reached :=
                      match max_attempts template with
                      | None => inl None
                      | Some max =>
                          if (max =? 0)%Z then inl (Some max)
                          else inr (max <=? Z.of_nat (List.length templateAttempts))%Z
                      end;
                    si_best_score :=
                      List.fold_right Z.max 0 (List.map (fun _ => 0) templateAttempts);
                    si_has_passed := (0 <? List.length passedAttempts)%nat;
                    si_last_attempt_status :=
                      match lastAttempt with
                      | Some a => Some (s_status a)
                      | None => None
                      end;
                    si_last_attempt_passed :=
                      match lastAttempt with
                      | Some a => passed_truthy a
                      | None => false
                      end;
                    si_can_retake :=
                      match max_attempts template with
                      | None => true
                      | Some max =>
                          (max =? 0)%Z
                          || (Z.of_nat (List.length templateAttempts) <? max)%Z
                      end |} |})
         templates).

End Discovery.

Section Results.

(** The columns of the session and template rows that only the results
    read, as functions of the row.  [Json] is the type of the values that
    are copied into the answer as they are. *)
Variable Json : Type.
Variables total_score percentage_score correct_answers passed_column : SessionRow -> Json.
Variable time_spent_seconds_column : SessionRow -> option Z.
Variables title passing_percentage : TemplateRow -> Json.
Variable show_results_immediately : TemplateRow -> bool.

Definition getAssessmentResults (sessionId studentId : string)
    : M (AssessmentResults Json) :=
  let* sessionRes :=
    rest_get student_assessment_sessions
      (fun s => (s_id s =? sessionId) && (s_student_id s =? studentId)) in
  if negb (ok sessionRes) then
    throw (InternalServerErrorException "Failed to fetch session")
  else
  match head (json sessionRes) with
  | None => throw (NotFoundException "Session not found")
  | Some session =>
      if negb (session_status_eqb (s_status session) completed) then
        throw (BadRequestException "Results not available for incomplete sessions")
      else
      let* templates := read assessment_templates in
      match List.find (fun t => tpl_id t =? s_template_id session) templates with
      | None => throw TypeError
      | Some assessment_templates =>
          if negb (show_results_immediately assessment_templates) then
            throw (ForbiddenException
                     "Results are not available immediately for this assessment")
          else
            ret {| ar_session_id := sessionId;
                   ar_assessment_title := title assessment_templates;
                   ar_total_score := total_score session;
                   ar_percentage_score := percentage_score session;
                   ar_total_questions := s_total_questions session;
                   ar_correct_answers := correct_answers session;
                   ar_passed := passed_column session;
                   ar_passing_percentage := passing_percentage assessment_templates;
                   ar_time_spent_minutes :=
                     JS.Math_round
                       (PrimFloat.div
                          (JS.of_int (match time_spent_seconds_column session with
                                      | Some n => n
                                      | None => 0
                                      end))
                          (JS.of_int 60));
                   ar_attempt_number := s_attempt_number session;
                   ar_completed_at := s_completed_at session |}
      end
  end.

(** The response rows of [getDetailedResults], in ascending answered_at,
    each with its embedded question row and option row. *)
Definition detailed_rows (st : Store) (sessionId : string)
    : list (DetailedResponseRow * option OptionRow) :=
  List.map
    (fun r =>
       ({| dr_response := r;
           dr_assessment_questions :=
             List.find (fun q => q_id q =? r_question_id r) (assessment_questions st) |},
        match r_selected_option_id r with
        | Some sel => List.find (fun o => o_id o =? sel) (assessment_question_options st)
        | None => None
        end))
    (order_asc r_answered_at
       (List.filter (fun r => r_session_id r =? sessionId)
                    (student_assessment_responses st))).

(** [responses.map(response => ({...}))]: reading a column of a null
    question embed is a [TypeError]. *)
Fixpoint detailed_responses (rows : list (DetailedResponseRow * option OptionRow))
    : exn + list DetailedResponse :=
  match rows with
  | [] => inr []
  | (response, option) :: rest =>
      match dr_assessment_questions response with
      | None => inl TypeError
      | Some question =>
          match detailed_responses rest with
          | inl e => inl e
          | inr tail =>
              inr ({| de_question_text := question_text question;
                      de_difficulty_level := difficulty_level question;
                      de_student_answer :=
                        match or_null (r_text_answer (dr_response response)) with
                        | Some text => text
                        | None =>
                            match option with
                            | Some o =>
                                if JS.truthy (option_text o) then option_text o
                                else "No answer"
                            | None => "No answer"
                            end
                        end;
                      de_is_correct := r_is_correct (dr_response response);
                      de_points_earned := r_points_earned (dr_response response);
                      de_explanation := q_explanation question;
                      de_time_spent_seconds :=
                        r_time_spent_seconds (dr_response response) |} :: tail)
          end
      end
  end.

Definition getDetailedResults (sessionId studentId : string) : M (DetailedResults Json) :=
  let* results := getAssessmentResults sessionId studentId in
  let* st := read (fun s => s) in
  let responses := detailed_rows st sessionId in
  let* detailed := lift (detailed_responses responses) in
  let* performance := lift (calculatePerformanceByDifficulty (List.map fst responses)) in
  ret {| dres_results := results;
         dres_detailed_responses := detailed;
         dres_performance_by_difficulty := performance |}.

End Results.

End StudentAssessmentService.

(* ===================================================================== *)
(** ** StudentAssessmentController *)
(* ===================================================================== *)

Module StudentAssessmentController.

Import StudentAssessmentService.

Definition validateStudentCanStartAssessment (templateId studentId : string) : M unit :=
  let* template := getAssessmentTemplate templateId studentId in
  if negb (is_active template) then
    throw (ForbiddenException "This assessment is not currently available")
  else
  let* activeSessions := getActiveSessionsForTemplate templateId studentId in
  if (0 <? List.length activeSessions)%nat then
    throw (BadRequestException "You already have an active session for this assessment")
  else
  match max_attempts template with
  | Some max =>
      if negb (max =? 0)%Z then
        let* attemptCount := getAttemptCount templateId studentId in
        if (max <=? attemptCount)%Z then
          throw (ForbiddenException
                   ("You have reached the maximum number of attempts ("
                    ++ JS.String_of_int max ++ ") for this assessment"))
        else ret tt
      else ret tt
  | None => ret tt
  end.

(** [POST v1/student/assessments/start] *)
Definition startAssessment (template_id studentId : string) : M StartPayload :=
  validateStudentCanStartAssessment template_id studentId ;;
  StudentAssessmentService.startAssessment template_id studentId.

(** The checks of a response request before the service is called. *)
Definition validateResponseData (responseDto : SubmitResponseDto) : M unit :=
  if negb (JS.truthy (JS.trim (dto_session_token responseDto))) then
    throw (BadRequestException "Session token is required")
  else if negb (JS.truthy (JS.trim (dto_question_id responseDto))) then
    throw (BadRequestException "Question ID is required")
  else if negb (truthy_str (dto_selected_option_id responseDto))
          && negb (truthy_str (dto_text_answer responseDto)) then
    throw (BadRequestException "Either selected_option_id or text_answer is required")
  else if truthy_str (dto_selected_option_id responseDto)
          && truthy_str (dto_text_answer responseDto) then
    throw (BadRequestException "Cannot provide both selected_option_id and text_answer")
  else if (dto_time_spent_seconds responseDto <? 0)%Z then
    throw (BadRequestException "Time spent cannot be negative")
  else ret tt.

(** [POST v1/student/assessments/response] *)
Definition submitResponse (submitResponseDto : SubmitResponseDto) (studentId : string)
    : M SubmitResult :=
  validateResponseData submitResponseDto ;;
  StudentAssessmentService.submitResponse submitResponseDto studentId.

(** [POST v1/student/assessments/finish] *)
Definition finishAssessment (session_token studentId : string) : M FinishResult :=
  StudentAssessmentService.finishAssessment session_token studentId.

End StudentAssessmentController.

(* ===================================================================== *)
(** ** Arrays as heap objects: [shuffleArray] in place *)
(* ===================================================================== *)

(** [shuffleArray] written against a heap of arrays, to tell the array it
    returns from the one it receives. *)
Module ArrayHeap.

Section Arrays.

Context {T : Type}.

(** [[...array]]: a copy at a location not yet in use. *)
Definition spread (array : list T) (h : gmap positive (list T))
    : positive * gmap positive (list T) :=
  let a := fresh (dom h) in (a, <[a := array]> h).

Definition swap_at (a : positive) (i j : nat) (h : gmap positive (list T))
    : gmap positive (list T) :=
  match h !! a with
  | Some l => <[a := StudentAssessmentService.swap i j l]> h
  | None => h
  end.

Fixpoint shuffle_loop_at (rng : nat -> nat) (pos : nat) (i : nat)
    (shuffled : positive) (h : gmap positive (list T))
    : gmap positive (list T) * nat :=
  match i with
  | O => (h, pos)
  | S i' =>
      let j := StudentAssessmentService.random_index rng pos i in
      shuffle_loop_at rng (S pos) i' shuffled (swap_at shuffled i j h)
  end.

(** Returns the location of the shuffled array, the heap and the stream
    position reached; [None] when [array] is not an array of the heap. *)
Definition shuffleArray (rng : nat -> nat) (pos : nat) (array : positive)
    (h : gmap positive (list T))
    : option (positive * gmap positive (list T) * nat) :=
  match h !! array with
  | Some l =>
      let '(shuffled, h1) := spread l h in
      let '(h2, pos') := shuffle_loop_at rng pos (List.length l - 1)%nat shuffled h1 in
      Some (shuffled, h2, pos')
  | None => None
  end.

End Arrays.

End ArrayHeap.

(* ===================================================================== *)
(** ** AssessmentService (standalone flow): the questions it reads *)
(* ===================================================================== *)

Module AssessmentFetch.

Import AssessmentService.

(** The whole [FullQuestion] object that [fetchQuestions] builds: the
    fields that [finish] reads, and the rest. *)
Record FetchedQuestion : Type := {
  fetched_full : FullQuestion;
  fetched_prompt : string;
  fetched_imageUrl : option string;
  fetched_points : Z;
  fetched_timeLimit : option Z;
  fetched_rawType : string
}.

Inductive RunnerQuestion : Type :=
| RunnerMcq (id prompt : string) (options : list string) (imageUrl : option string)
            (rawType : string) (timeLimit : option Z)
| RunnerText (id prompt : string) (imageUrl : option string) (rawType : string)
             (timeLimit : option Z).

Definition DEFAULT_LIMIT : nat := 25.

(** The filter [col=in.(...)] over the list that [formatInFilter] builds
    from [values]: the empty strings are left out, and a row passes when
    its column is one of the others.  (The values are ids and type names,
    free of double quotes and backslashes.) *)
Definition in_filter (values : list string) (x : string) : bool :=
  existsb (fun value => x =? value) (List.filter JS.truthy values).

(** [value.sort((a, b) => key(a) - key(b))]: the sort is stable. *)
Fixpoint sort_insert {A} (key : A -> Z) (x : A) (l : list A) : list A :=
  match l with
  | [] => [x]
  | y :: l' => if (key x <=? key y)%Z then x :: l else y :: sort_insert key x l'
  end.
Definition sort_by {A} (key : A -> Z) (l : list A) : list A :=
  List.fold_right (sort_insert key) [] l.

(** The rows carry the selected columns question_id, option_text,
    is_correct and order_index of the option rows. *)
Definition fetchOptions (questionIds : list string) : M (gmap string (list OptionRow)) :=
  if (List.length questionIds =? 0)%nat then ret ∅ else
  let* res :=
    rest_get assessment_question_options
      (fun o => in_filter questionIds (o_question_id o)) in
  if negb (ok res) then
    throw (InternalServerErrorException
             ("Failed to fetch assessment question options: " ++ JS.String_of_int (status res)
              ++ " " ++ res_text res))
  else
  let rows := order_asc o_order_index (json res) in
  let map :=
    List.fold_left
      (fun (map : gmap string (list OptionRow)) row =>
         let current := default [] (map !! o_question_id row) in
         <[o_question_id row := (current ++ [row])%list]> map)
      rows ∅ in
  ret (sort_by o_order_index <$> map).

Definition fetchTextAnswers (questionIds : list string) : M (gmap string DbTextAnswerRow) :=
  if (List.length questionIds =? 0)%nat then ret ∅ else
  let* res :=
    rest_get assessment_text_answers
      (fun a => in_filter questionIds (ta_question_id a)) in
  if negb (ok res) then
    throw (InternalServerErrorException
             ("Failed to fetch assessment text answers: " ++ JS.String_of_int (status res)
              ++ " " ++ res_text res))
  else
  ret (List.fold_left (fun (map : gmap string DbTextAnswerRow) row =>
                         <[ta_question_id row := row]> map)
                      (json res) ∅).

Definition to_db_option (o : OptionRow) : DbOptionRow :=
  {| do_question_id := o_question_id o; do_option_text := option_text o;
     do_is_correct := is_correct o |}.

Definition is_mcq (type : QuestionType) : bool :=
  match type with mcq => true | text => false end.
Definition is_text (type : QuestionType) : bool :=
  match type with mcq => false | text => true end.

Section Fetch.

(** Two columns of a question row that only this flow reads, as functions
    of the row: is_active (a boolean or null) and created_at. *)
Variable q_is_active : QuestionRow -> option bool.
Variable q_created_at : QuestionRow -> Z.

Definition fetchQuestions (ids : option (list string)) : M (list FetchedQuestion) :=
  let* res :=
    match ids with
    | Some (id :: more) =>
        rest_get assessment_questions (fun q => in_filter (id :: more) (q_id q))
    | _ =>
        let* found :=
          rest_get assessment_questions
            (fun q => match q_is_active q with None => true | Some b => b end
                      && in_filter SUPPORTED_TYPES (question_type q)) in
        ret {| ok := ok found; status := status found;
               json := List.firstn DEFAULT_LIMIT
                         (order_asc (fun q => - q_created_at q) (json found));
               res_text := res_text found |}
    end in
  if negb (ok res) then
    throw (InternalServerErrorException
             ("Failed to fetch assessment questions: " ++ JS.String_of_int (status res)
              ++ " " ++ res_text res))
  else
  let rows := json res in
  let mapped :=
    List.flat_map
      (fun row =>
         match sanitizeQuestionType (Some (question_type row)) with
         | None => []
         | Some type =>
             match ids, q_is_active row with
             | None, Some false => []
             | _, _ => [(row, type)]
             end
         end) rows in
  if (List.length mapped =? 0)%nat then ret [] else
  let mcqIds := List.map (fun e => q_id (fst e)) (List.filter (fun e => is_mcq (snd e)) mapped) in
  let textIds :=
    List.map (fun e => q_id (fst e)) (List.filter (fun e => is_text (snd e)) mapped) in
  let* optionsMap := fetchOptions mcqIds in
  let* textAnswerMap := fetchTextAnswers textIds in
  ret (List.map
         (fun e =>
            let row := fst e in
            {| fetched_full :=
                 {| fq_id := q_id row;
                    fq_type := snd e;
                    fq_options :=
                      List.map to_db_option (default [] (optionsMap !! q_id row));
                    fq_textAnswer := textAnswerMap !! q_id row |};
               fetched_prompt := question_text row;
               fetched_imageUrl := question_image_url row;
               fetched_points := match points_value row with Some n => n | None => 1 end;
               fetched_timeLimit := time_limit_seconds row;
               fetched_rawType := question_type row |})
         mapped).

Definition getQuestionSet : M (list RunnerQuestion) :=
  let* questions := fetchQuestions None in
  ret (List.map
         (fun question =>
            match fq_type (fetched_full question) with
            | mcq =>
                RunnerMcq (fq_id (fetched_full question)) (fetched_prompt question)
                  (List.map do_option_text (fq_options (fetched_full question)))
                  (fetched_imageUrl question) (fetched_rawType question)
                  (fetched_timeLimit question)
            | text =>
                RunnerText (fq_id (fetched_full question)) (fetched_prompt question)
                  (fetched_imageUrl question) (fetched_rawType question)
                  (fetched_timeLimit question)
            end)
         questions).

(** [Array.from(new Set(values))]: the first occurrence of each value. *)
Fixpoint distinct (seen : list string) (values : list string) : list string :=
  match values with
  | [] => []
  | v :: rest =>
      if existsb (fun s => s =? v) seen then distinct seen rest
      else v :: distinct (v :: seen) rest
  end.

(** The first statements of [finish]: the questions fetched for the
    question ids of the responses. *)
Definition finish_questions (responses : list RunnerResponse) : M (list FullQuestion) :=
  let questionIds :=
    distinct [] (List.filter JS.truthy (List.map question_id responses)) in
  let* questions := fetchQuestions (Some questionIds) in
  ret (List.map fetched_full questions).

End Fetch.

End AssessmentFetch.

(* ===================================================================== *)
(** ** Vocabulary of the statements *)
(* ===================================================================== *)

(** The majority-of-keywords rule on a normalized submission [a]. *)
Definition keyword_majority (norm : string -> string) (a : string) (kws : list string) : Prop :=
  kws <> [] /\
  (JS.ceil_half (List.length kws) <= JS.count (fun k => JS.includes a (norm k)) kws)%nat.

(** The normalized submission contains neither the normalized canonical
    answer nor a normalized alternate answer. *)
Definition no_direct_match (spec : DbTextAnswerRow) (s : string) : Prop :=
  let a := AssessmentService.normalize spec (JS.trim s) in
  JS.includes a (AssessmentService.normalize spec (JS.trim (correct_answer spec))) = false /\
  forall alt, In alt (AssessmentService.array_or_empty (alternate_answers spec)) ->
              JS.includes a (AssessmentService.normalize spec alt) = false.

(** Equality of the trimmed submission with the trimmed canonical answer,
    under the case-sensitivity flag. *)
Definition exact_verdict (cs : bool) (canonical s : string) : bool :=
  if cs then (JS.trim s =? JS.trim canonical)
  else (JS.toLowerCase (JS.trim s) =? JS.toLowerCase (JS.trim canonical)).

(** round(100 * c / n): the nearest integer, halves upwards (0 for n = 0). *)
Definition round_half_up (c n : nat) : Z :=
  (200 * Z.of_nat c + Z.of_nat n) / (2 * Z.of_nat n).

(** The pairs (c, n) with c <= n < N. *)
Definition pairs_below (N : nat) : list (nat * nat) :=
  List.flat_map (fun n => List.map (fun c => (c, n)) (List.seq 0 (S n))) (List.seq 0 N).

(** On [c] correct out of [n]: the score is the rounded percentage, and it
    reaches the pass mark exactly when the rounded percentage does. *)
Definition score_exact (p : nat * nat) : Prop :=
  AssessmentService.percentage (fst p) (snd p) = JS.of_int (round_half_up (fst p) (snd p)) /\
  PrimFloat.leb (JS.of_int AssessmentService.PASSING_SCORE)
                (AssessmentService.percentage (fst p) (snd p))
  = (AssessmentService.PASSING_SCORE <=? round_half_up (fst p) (snd p))%Z.

(** [score_exact] as a test. *)
Definition score_exact_b (p : nat * nat) : bool :=
  PrimFloat.Leibniz.eqb (AssessmentService.percentage (fst p) (snd p))
                        (JS.of_int (round_half_up (fst p) (snd p)))
  && Bool.eqb (PrimFloat.leb (JS.of_int AssessmentService.PASSING_SCORE)
                             (AssessmentService.percentage (fst p) (snd p)))
              (AssessmentService.PASSING_SCORE <=? round_half_up (fst p) (snd p))%Z.

(** The student's view of one stored option. *)
Definition strip_option (o : OptionRow) : PreparedOption :=
  {| po_id := o_id o; po_option_text := option_text o;
     po_option_image_url := option_image_url o |}.

(** Two session questions look the same to a student: the fields sent by
    [startAssessment] agree, and so do the stripped options. *)
Definition same_student_view (q q' : SessionQuestion) : Prop :=
  q_id (sq_question q') = q_id (sq_question q) /\
  question_type (sq_question q') = question_type (sq_question q) /\
  question_text (sq_question q') = question_text (sq_question q) /\
  question_image_url (sq_question q') = question_image_url (sq_question q) /\
  difficulty_level (sq_question q') = difficulty_level (sq_question q) /\
  points_value (sq_question q') = points_value (sq_question q) /\
  time_limit_seconds (sq_question q') = time_limit_seconds (sq_question q) /\
  List.map strip_option (sq_options q') = List.map strip_option (sq_options q).

(** The session row a token and a student resolve to. *)
Definition session_lookup (st : Store) (token student : string) : option SessionRow :=
  head (List.filter (fun s => (s_session_token s =? token) && (s_student_id s =? student))
                    (student_assessment_sessions st)).

(** The clock has passed the session's expiry time. *)
Definition past_expiry (s : SessionRow) (t : Z) : bool :=
  match s_expires_at s with
  | Some e => (e <? t)%Z
  | None => false
  end.



(** The store after the status of the sessions with id [id] is set to
    expired. *)
Definition expire_store (id : string) (st : Store) : Store :=
  set_sessions
    (List.map (fun r => if s_id r =? id then set_status expired r else r)
              (student_assessment_sessions st)) st.

(** The question row an id resolves to. *)
Definition question_lookup (st : Store) (id : string) : option QuestionRow :=
  head (List.filter (fun q => q_id q =? id) (assessment_questions st)).

(** The question ids linked to a template. *)
Definition template_question_ids (st : Store) (template : string) : list string :=
  List.map tq_question_id
    (List.filter (fun tq => tq_template_id tq =? template) (assessment_template_questions st)).

(** The (session, question) keys of the stored responses. *)
Definition response_keys (st : Store) : list (string * string) :=
  List.map (fun r => (r_session_id r, r_question_id r)) (student_assessment_responses st).

(** The template row an id resolves to. *)
Definition template_lookup (st : Store) (id : string) : option TemplateRow :=
  head (List.filter (fun t => tpl_id t =? id) (assessment_templates st)).

(** The student's sessions in progress for a template. *)
Definition active_sessions (st : Store) (template student : string) : list SessionRow :=
  List.filter (fun s => (s_student_id s =? student) && (s_template_id s =? template)
                        && session_status_eqb (s_status s) in_progress)
              (student_assessment_sessions st).

(** The number of sessions the student has recorded for a template. *)
Definition attempt_count (st : Store) (template student : string) : Z :=
  Z.of_nat (List.length
              (List.filter (fun s => (s_student_id s =? student) && (s_template_id s =? template))
                           (student_assessment_sessions st))).

(** The template sets a non-zero max_attempts and the count has reached it. *)
Definition cap_reached (t : TemplateRow) (count : Z) : bool :=
  match max_attempts t with
  | Some m => negb (m =? 0)%Z && (m <=? count)%Z
  | None => false
  end.

(** The refusals of the start checks that name their subject: the
    template id that resolves to no row, and the attempt cap of the
    template (the template literal prints a null cap as null). *)
Definition template_not_found (templateId : string) : exn :=
  NotFoundException ("Assessment template with id " ++ templateId ++ " not found").

Definition cap_refusal (t : TemplateRow) : exn :=
  ForbiddenException
    ("You have reached the maximum number of attempts ("
     ++ match max_attempts t with Some m => JS.String_of_int m | None => "null" end
     ++ ") for this assessment").

(** Unfolds the monad and the store reads of a service method. *)
Ltac run :=
  unfold bind, rest_get, read, write, ret, throw, get_now, when; cbn.

(** Case analysis on the innermost scrutinees of the goal. *)
Ltac break_match :=
  repeat match goal with
         | |- context [match ?x with _ => _ end] =>
             lazymatch x with
             | context [match _ with _ => _ end] => fail
             | _ => destruct x eqn:?
             end
         end.

(* ===================================================================== *)
(** ** Example data *)
(* ===================================================================== *)

(** Answer rows and submissions used as examples. *)
Definition spec_head_rows : DbTextAnswerRow :=
  {| ta_question_id := "q-head"; correct_answer := "df.head()";
     case_sensitive := false; exact_match := false;
     alternate_answers := Some [".head()"];
     keywords := Some ["head"; "first"; "rows"] |}.

Definition spec_blank_keyword : DbTextAnswerRow :=
  {| ta_question_id := "q1"; correct_answer := "x";
     case_sensitive := true; exact_match := false;
     alternate_answers := Some []; keywords := Some [""] |}.

Definition spec_exact_def : DbTextAnswerRow :=
  {| ta_question_id := "q-def"; correct_answer := "def";
     case_sensitive := false; exact_match := true;
     alternate_answers := Some ["define"]; keywords := Some [] |}.

Definition spec_exact_blank : DbTextAnswerRow :=
  {| ta_question_id := "q2"; correct_answer := "";
     case_sensitive := true; exact_match := true;
     alternate_answers := Some []; keywords := Some [] |}.

Definition spec_blank_canonical : DbTextAnswerRow :=
  {| ta_question_id := "q3"; correct_answer := "  ";
     case_sensitive := false; exact_match := false;
     alternate_answers := Some []; keywords := Some [] |}.

Definition spec_null_arrays : DbTextAnswerRow :=
  {| ta_question_id := "q4"; correct_answer := "head";
     case_sensitive := false; exact_match := false;
     alternate_answers := None; keywords := None |}.

(** A text question whose exact answer is a, and responses to it. *)
Definition text_question_a : AssessmentService.FullQuestion :=
  {| AssessmentService.fq_id := "q";
     AssessmentService.fq_type := AssessmentService.text;
     AssessmentService.fq_options := [];
     AssessmentService.fq_textAnswer :=
       Some {| ta_question_id := "q"; correct_answer := "a"; case_sensitive := true;
               exact_match := true; alternate_answers := None; keywords := None |} |}.

Definition answer_q (a : string) : AssessmentService.RunnerResponse :=
  {| AssessmentService.q_index := 0; AssessmentService.question_id := "q";
     AssessmentService.answer := Some a |}.


(** A heap holding one array. *)
Definition heap_abc : gmap positive (list string) := {[ 1%positive := ["a"; "b"; "c"] ]}.

(** A template with an attempt cap of 2 and shuffled options. *)
Definition demo_template : TemplateRow :=
  {| tpl_id := "t1"; is_active := true; is_public := true; max_attempts := Some 2;
     time_limit_minutes := 30; randomize_questions := false; randomize_options := true;
     allow_retakes := true |}.

(** A multiple-choice question with an explanation, linked to t1. *)
Definition demo_q1 : QuestionRow :=
  {| q_id := "q1"; question_type := "mcq";
     question_text := "What is the correct way to create a variable in Python?";
     question_image_url := None; difficulty_level := "easy"; points_value := Some 2;
     time_limit_seconds := None;
     q_explanation := Some "x = 10 binds the name x to the value 10" |}.

(** A question that exists but is linked to no template. *)
Definition demo_q2 : QuestionRow :=
  {| q_id := "q2"; question_type := "text";
     question_text := "What keyword is used to create a function in Python?";
     question_image_url := None; difficulty_level := "easy"; points_value := None;
     time_limit_seconds := None; q_explanation := None |}.

(** The options of q1; the second is the correct one. *)
Definition demo_options : list OptionRow :=
  [ {| o_id := "o1"; o_question_id := "q1"; option_text := "var x = 10";
       option_image_url := None; is_correct := false; o_explanation := None;
       o_order_index := 1 |};
    {| o_id := "o2"; o_question_id := "q1"; option_text := "x = 10";
       option_image_url := None; is_correct := true;
       o_explanation := Some "plain assignment"; o_order_index := 2 |} ].

(** The answer row of q2. *)
Definition demo_text_answer : DbTextAnswerRow :=
  {| ta_question_id := "q2"; correct_answer := "def"; case_sensitive := false;
     exact_match := true; alternate_answers := Some ["define"]; keywords := Some [] |}.

(** A session of student stu on template t1, expiring at 1000 ms. *)
Definition demo_session (st : session_status) (attempt : Z) (id token : string) : SessionRow :=
  {| s_id := id; s_student_id := "stu"; s_template_id := "t1"; s_session_token := token;
     s_attempt_number := attempt; s_status := st; s_expires_at := Some 1000;
     s_started_at := 0; s_completed_at := None; s_total_questions := Some 1 |}.

(** The store of the examples, over given sessions and responses. *)
Definition demo_store (sessions : list SessionRow) (responses : list ResponseRow) : Store :=
  {| assessment_templates := [demo_template];
     assessment_template_questions :=
       [ {| tq_template_id := "t1"; tq_question_id := "q1"; tq_order_index := 1 |} ];
     assessment_questions := [demo_q1; demo_q2];
     assessment_question_options := demo_options;
     assessment_text_answers := [demo_text_answer];
     student_assessment_sessions := sessions;
     student_assessment_responses := responses;
     responses_unique := true |}.

(** Fresh identifiers "i", "ii", "iii", ... *)
Definition demo_uuid (n : nat) : string := String.concat "" (List.repeat "i" (S n)).

(** A world at time [t]; the n-th random draw is n. *)
Definition demo_world (st : Store) (t : Z) : World :=
  {| store := st; now := t; rng := fun n => n; rng_pos := 0;
     uuid := demo_uuid; uuid_pos := 0 |}.

(** One session in progress, read before its expiry time. *)
Definition demo_live_world : World :=
  demo_world (demo_store [demo_session in_progress 1 "s1" "tok"] []) 500.



(** The same world over a response table that declares no uniqueness. *)
Definition demo_unconstrained_world : World :=
  demo_world
    {| assessment_templates := [demo_template];
       assessment_template_questions := assessment_template_questions (demo_store [] []);
       assessment_questions := [demo_q1; demo_q2];
       assessment_question_options := demo_options;
       assessment_text_answers := [demo_text_answer];
       student_assessment_sessions := [demo_session in_progress 1 "s1" "tok"];
       student_assessment_responses := [];
       responses_unique := false |} 500.

(** Two finished attempts of the student on the template, whose cap is 2. *)
Definition demo_capped_world : World :=
  demo_world (demo_store [demo_session completed 1 "s1" "tok1";
                          demo_session completed 2 "s2" "tok2"] []) 5000.

(** One finished attempt: a second one may start. *)
Definition demo_retake_world : World :=
  demo_world (demo_store [demo_session completed 1 "s1" "tok1"] []) 5000.

(** Answers to the linked question q1: the right option, then the wrong one. *)
Definition demo_dto (option : string) : SubmitResponseDto :=
  {| dto_session_token := "tok"; dto_question_id := "q1";
     dto_selected_option_id := Some option; dto_text_answer := None;
     dto_time_spent_seconds := 12 |}.

(** An answer to q2, a question that exists and is not linked to the
    session's template. *)
Definition demo_dto_unlinked : SubmitResponseDto :=
  {| dto_session_token := "tok"; dto_question_id := "q2";
     dto_selected_option_id := None; dto_text_answer := Some "def";
     dto_time_spent_seconds := 5 |}.

(** An answer to q9, an id that resolves to no question. *)
Definition demo_dto_unknown : SubmitResponseDto :=
  {| dto_session_token := "tok"; dto_question_id := "q9";
     dto_selected_option_id := Some "o1"; dto_text_answer := None;
     dto_time_spent_seconds := 3 |}.

(** The response row that [submitResponse] stores for a request scored
    [(isCorrect, pointsEarned)] in world [w]: the store generates the id,
    the service stamps the time. *)
Definition stored_response (w : World) (session : string) (dto : SubmitResponseDto)
    (isCorrect : bool) (pointsEarned : Z) : ResponseRow :=
  {| r_id := uuid w (uuid_pos w);
     r_session_id := session;
     r_question_id := dto_question_id dto;
     r_selected_option_id := StudentAssessmentService.or_null (dto_selected_option_id dto);
     r_text_answer := StudentAssessmentService.or_null (dto_text_answer dto);
     r_is_correct := isCorrect;
     r_points_earned := pointsEarned;
     r_time_spent_seconds := dto_time_spent_seconds dto;
     r_answered_at := now w |}.

(** The stored responses of one session. *)
Definition responses_of_session (st : Store) (session : string) : list ResponseRow :=
  List.filter (fun r => r_session_id r =? session) (student_assessment_responses st).

(** The world after a store-generated id was consumed and [st] written. *)
Definition after_insert (w : World) (st : Store) : World :=
  {| store := st; now := now w; rng := rng w; rng_pos := rng_pos w;
     uuid := uuid w; uuid_pos := S (uuid_pos w) |}.

(** A text answer sent for q1, which is a choice question. *)
Definition demo_dto_text_for_choice : SubmitResponseDto :=
  {| dto_session_token := "tok"; dto_question_id := "q1";
     dto_selected_option_id := None; dto_text_answer := Some "x = 10";
     dto_time_spent_seconds := 7 |}.

(** The student's recorded sessions for a template. *)
Definition student_attempts (st : Store) (template student : string) : list SessionRow :=
  List.filter (fun s => (s_student_id s =? student) && (s_template_id s =? template))
              (student_assessment_sessions st).

(** The template-question links of a template in ascending order_index. *)
Definition ordered_links (st : Store) (template : string) : list TemplateQuestionRow :=
  order_asc tq_order_index
    (List.filter (fun tq => tq_template_id tq =? template) (assessment_template_questions st)).

(** The stored options of a question, stripped to the student fields. *)
Definition student_options (st : Store) (question : string) : list PreparedOption :=
  List.map strip_option
    (List.filter (fun o => o_question_id o =? question) (assessment_question_options st)).

(** The attempt number [startAssessment] gives the next session: one more
    than the attempt number of the first row in descending order. *)
Definition next_attempt_number (st : Store) (template student : string) : Z :=
  match order_asc (fun s => - s_attempt_number s) (student_attempts st template student) with
  | a :: _ => s_attempt_number a + 1
  | [] => 1
  end.

(** The session row a start in world [w] records for template row [t]. *)
Definition started_session (w : World) (template student : string) (t : TemplateRow)
    : SessionRow :=
  {| s_id := uuid w (S (uuid_pos w));
     s_student_id := student;
     s_template_id := template;
     s_session_token := uuid w (uuid_pos w);
     s_attempt_number := next_attempt_number (store w) template student;
     s_status := in_progress;
     s_expires_at := Some (now w + time_limit_minutes t * 60000);
     s_started_at := now w;
     s_completed_at := None;
     s_total_questions := None |}.

(** The world in which [startAssessment] fetches the questions: the token
    and the row id were drawn and the new session row was appended. *)
Definition start_world (w : World) (template student : string) (t : TemplateRow) : World :=
  {| store := set_sessions (student_assessment_sessions (store w)
                            ++ [started_session w template student t])%list (store w);
     now := now w; rng := rng w; rng_pos := rng_pos w;
     uuid := uuid w; uuid_pos := S (S (uuid_pos w)) |}.

(** Two question rows agree on every column but the explanation. *)
Definition same_question_facing (q q' : QuestionRow) : Prop :=
  q_id q' = q_id q /\
  question_type q' = question_type q /\
  question_text q' = question_text q /\
  question_image_url q' = question_image_url q /\
  difficulty_level q' = difficulty_level q /\
  points_value q' = points_value q /\
  time_limit_seconds q' = time_limit_seconds q.

(** Two option rows agree on id, question, text and image; the correctness
    flag, the explanation and the order index are free. *)
Definition same_option_facing (o o' : OptionRow) : Prop :=
  o_id o' = o_id o /\
  o_question_id o' = o_question_id o /\
  option_text o' = option_text o /\
  option_image_url o' = option_image_url o.

(** Two stores that differ at most in the answer keys: the explanations of
    questions, the correctness flags, explanations and order indexes of
    options, the text-answer rows, and the stored responses. *)
Definition answers_aside (st st' : Store) : Prop :=
  assessment_templates st' = assessment_templates st /\
  assessment_template_questions st' = assessment_template_questions st /\
  student_assessment_sessions st' = student_assessment_sessions st /\
  Forall2 same_question_facing (assessment_questions st) (assessment_questions st') /\
  Forall2 same_option_facing (assessment_question_options st)
          (assessment_question_options st').

(** Two worlds with the same clock, random stream and identifier stream. *)
Definition same_environment (w w' : World) : Prop :=
  now w' = now w /\ rng w' = rng w /\ rng_pos w' = rng_pos w /\
  uuid w' = uuid w /\ uuid_pos w' = uuid_pos w.

(** The example store with the correctness flags of q1's options swapped,
    other explanations, and another answer for q2. *)
Definition demo_store_other_key : Store :=
  {| assessment_templates := [demo_template];
     assessment_template_questions := assessment_template_questions (demo_store [] []);
     assessment_questions :=
       [ {| q_id := "q1"; question_type := "mcq";
            question_text := "What is the correct way to create a variable in Python?";
            question_image_url := None; difficulty_level := "easy";
            points_value := Some 2; time_limit_seconds := None;
            q_explanation := None |};
         demo_q2 ];
     assessment_question_options :=
       [ {| o_id := "o1"; o_question_id := "q1"; option_text := "var x = 10";
            option_image_url := None; is_correct := true;
            o_explanation := Some "so it is"; o_order_index := 1 |};
         {| o_id := "o2"; o_question_id := "q1"; option_text := "x = 10";
            option_image_url := None; is_correct := false;
            o_explanation := None; o_order_index := 2 |} ];
     assessment_text_answers := [];
     student_assessment_sessions := [demo_session completed 1 "s1" "tok1"];
     student_assessment_responses := [];
     responses_unique := true |}.

(** The question rows linked to a template, one per link, in table order. *)
Definition linked_rows (st : Store) (template : string) : list (option QuestionRow) :=
  List.map (fun tq => List.find (fun q => q_id q =? tq_question_id tq) (assessment_questions st))
    (List.filter (fun tq => tq_template_id tq =? template) (assessment_template_questions st)).

(** The responses whose question has difficulty [d]. *)
Definition of_difficulty (d : string) (responses : list DetailedResponseRow)
    : list DetailedResponseRow :=
  List.filter (fun r => match dr_assessment_questions r with
                        | Some q => difficulty_level q =? d
                        | None => false
                        end) responses.

(** The responses marked correct. *)
Definition marked_correct (responses : list DetailedResponseRow) : list DetailedResponseRow :=
  List.filter (fun r => r_is_correct (dr_response r)) responses.

(** Responses to an easy, a hard and an unrated question. *)
Definition demo_detailed : list DetailedResponseRow :=
  let row := fun c => {| r_id := "r"; r_session_id := "s1"; r_question_id := "q1";
                         r_selected_option_id := None; r_text_answer := None;
                         r_is_correct := c; r_points_earned := 0;
                         r_time_spent_seconds := 1; r_answered_at := 0 |} in
  let rated := fun d => {| q_id := "q1"; question_type := "mcq"; question_text := "";
                           question_image_url := None; difficulty_level := d;
                           points_value := None; time_limit_seconds := None;
                           q_explanation := None |} in
  [ {| dr_response := row true; dr_assessment_questions := Some (rated "easy") |};
    {| dr_response := row false; dr_assessment_questions := Some (rated "easy") |};
    {| dr_response := row true; dr_assessment_questions := Some (rated "hard") |};
    {| dr_response := row true; dr_assessment_questions := Some (rated "expert") |} ].

(** Entry [e] of the performance answer tallies the responses of
    difficulty [d]: their number, the number of those marked correct, and
    [Math.round((correct / total) * 100)], 0 when there is none. *)
Definition tallies (d : string) (responses : list DetailedResponseRow)
    (e : DifficultyPerformance) : Prop :=
  dp_total e = List.length (of_difficulty d responses) /\
  dp_correct e = List.length (marked_correct (of_difficulty d responses)) /\
  (dp_correct e <= dp_total e)%nat /\
  dp_percentage e = AssessmentService.percentage (dp_correct e) (dp_total e) /\
  ((dp_total e < 40)%nat ->
   dp_percentage e = JS.of_int (round_half_up (dp_correct e) (dp_total e))).

(** The stored options of a question in ascending order_index. *)
Definition sorted_options (st : Store) (id : string) : list OptionRow :=
  order_asc o_order_index
    (List.filter (fun o => o_question_id o =? id) (assessment_question_options st)).

(** The keys of a list never go down. *)
Fixpoint ascending {A} (key : A -> Z) (l : list A) : Prop :=
  match l with
  | [] => True
  | x :: l' => Forall (fun y => key x <= key y) l' /\ ascending key l'
  end.

(** The object [fetchQuestions] builds for a row of type [type], given the
    ids whose options were fetched and the map of text answers. *)
Definition built_question (st : Store) (mcqIds : list string)
    (textAnswerMap : gmap string DbTextAnswerRow)
    (e : QuestionRow * AssessmentService.QuestionType) : AssessmentFetch.FetchedQuestion :=
  {| AssessmentFetch.fetched_full :=
       {| AssessmentService.fq_id := q_id (fst e);
          AssessmentService.fq_type := snd e;
          AssessmentService.fq_options :=
            List.map AssessmentFetch.to_db_option
              (if AssessmentFetch.in_filter mcqIds (q_id (fst e))
               then sorted_options st (q_id (fst e)) else []);
          AssessmentService.fq_textAnswer := textAnswerMap !! q_id (fst e) |};
     AssessmentFetch.fetched_prompt := question_text (fst e);
     AssessmentFetch.fetched_imageUrl := question_image_url (fst e);
     AssessmentFetch.fetched_points :=
       match points_value (fst e) with Some n => n | None => 1 end;
     AssessmentFetch.fetched_timeLimit := time_limit_seconds (fst e);
     AssessmentFetch.fetched_rawType := question_type (fst e) |}.

(** The ids of the rows of type mcq. *)
Definition mcq_ids (mapped : list (QuestionRow * AssessmentService.QuestionType))
    : list string :=
  List.map (fun e => q_id (fst e)) (List.filter (fun e => AssessmentFetch.is_mcq (snd e)) mapped).

(** The second option of q1, sent as the index 1. *)
Definition demo_index_answer : AssessmentService.RunnerResponse :=
  {| AssessmentService.q_index := 0; AssessmentService.question_id := "q1";
     AssessmentService.answer := Some "1" |}.

(** An index reader that knows the answer "1". *)
Definition demo_parse_index (a : option string) : option Z :=
  match a with
  | Some s => if s =? "1" then Some 1 else None
  | None => None
  end.

(** A finished attempt with one stored response: option o2 for q1. *)
Definition demo_results_world : World :=
  demo_world
    (demo_store [demo_session completed 1 "s1" "tok1"]
       [ {| r_id := "r1"; r_session_id := "s1"; r_question_id := "q1";
            r_selected_option_id := Some "o2"; r_text_answer := None;
            r_is_correct := true; r_points_earned := 2;
            r_time_spent_seconds := 12; r_answered_at := 400 |} ])
    500.

(** A response to q1 of the fixed set with the index of its right
    option, the same index written with a leading zero, and an index
    reader that knows both. *)
Definition static_right_answer : AssessmentService.RunnerResponse :=
  {| AssessmentService.q_index := 0; AssessmentService.question_id := "q1";
     AssessmentService.answer := Some "2" |}.

Definition static_padded_answer : AssessmentService.RunnerResponse :=
  {| AssessmentService.q_index := 0; AssessmentService.question_id := "q1";
     AssessmentService.answer := Some "02" |}.

Definition static_parse_index (a : option string) : option Z :=
  match a with
  | Some s => if (s =? "2") || (s =? "02") then Some 2%Z else None
  | None => None
  end.

(** Every choice question of the fixed set has its answer index inside
    its options. *)
Definition key_in_range (q : StaticAssessmentService.Question) : bool :=
  match q with
  | StaticAssessmentService.McqQuestion _ _ options answerIndex =>
      (answerIndex <? List.length options)%nat
  | StaticAssessmentService.TextQuestion _ _ _ => true
  end.

(** The score of the earlier [finish] on [c] correct responses is [4 * c]. *)
Definition static_score_exact_b (c : nat) : bool :=
  PrimFloat.Leibniz.eqb (StaticAssessmentService.score c) (JS.of_int (4 * Z.of_nat c)).


(* ===================================================================== *)
(** ** Text answers: the keyword rule, exact matching, the two evaluators *)
(* ===================================================================== *)

Section TextAnswers.

Import AssessmentService.

Lemma truthy_true s : JS.truthy s = true <-> s <> "".
Proof.
  unfold JS.truthy. rewrite negb_true_iff. apply String.eqb_neq.
Qed.

Lemma truthy_false s : JS.truthy s = false <-> s = "".
Proof.
  unfold JS.truthy. rewrite negb_false_iff. apply String.eqb_eq.
Qed.

Lemma includes_empty s : JS.includes s "" = true.
Proof. destruct s; reflexivity. Qed.

Lemma some_false {A} (p : A -> bool) l :
  (forall x, In x l -> p x = false) -> JS.some p l = false.
Proof.
  unfold JS.some. induction l as [|x l IH]; simpl; intros H; [reflexivity|].
  rewrite (H x) by (left; reflexivity). apply IH. intros y Hy. apply H. right. exact Hy.
Qed.

Lemma keyword_majority_dec norm a kws :
  keyword_majority norm a kws <->
  (if (List.length kws =? 0)%nat then false
   else (JS.ceil_half (List.length kws) <=? JS.count (fun k => JS.includes a (norm k)) kws)%nat)
  = true.
Proof.
  unfold keyword_majority. destruct kws as [|k kws].
  - simpl. split; [intros [H _]; congruence | discriminate].
  - change ((List.length (k :: kws) =? 0)%nat) with false. cbv iota.
    rewrite Nat.leb_le. split; [intros [_ H]; exact H | intros H; split; [discriminate | exact H]].
Qed.

(** The verdict of [evaluateTextAnswer] in the substring and keyword
    branch, for a submission that is not blank and matches neither the
    canonical answer nor an alternate. *)
Lemma evaluateTextAnswer_keywords spec s :
  exact_match spec = false ->
  JS.trim s <> "" ->
  no_direct_match spec s ->
  evaluateTextAnswer (Some s) (Some spec) = true <->
  keyword_majority (normalize spec) (normalize spec (JS.trim s))
                   (array_or_empty (keywords spec)).
Proof.
  intros Hex Hs [Hc Halt]. rewrite keyword_majority_dec.
  unfold evaluateTextAnswer. rewrite Hex.
  apply truthy_true in Hs. rewrite Hs. cbn [negb].
  destruct (JS.truthy (JS.trim (correct_answer spec))) eqn:Hca; cbn [negb].
  - rewrite Hc. rewrite (some_false _ _ Halt). reflexivity.
  - apply truthy_false in Hca. rewrite Hca in Hc.
    destruct (case_sensitive spec) eqn:Hcs; unfold normalize in Hc; rewrite Hcs in Hc;
      cbn in Hc; rewrite includes_empty in Hc; discriminate.
Qed.

(** The same for the text branch of [validateAndScoreResponse], when the
    alternate_answers column is not null. *)
Lemma score_text_keywords spec s :
  exact_match spec = false ->
  alternate_answers spec <> None ->
  no_direct_match spec s ->
  StudentAssessmentService.score_text spec s = inr true <->
  keyword_majority (normalize spec) (normalize spec (JS.trim s))
                   (array_or_empty (keywords spec)).
Proof.
  intros Hex Hna [Hc Halt]. rewrite keyword_majority_dec.
  unfold StudentAssessmentService.score_text. rewrite Hex.
  fold (normalize spec (JS.trim s)).
  change (if case_sensitive spec then JS.trim (correct_answer spec)
          else JS.toLowerCase (JS.trim (correct_answer spec)))
    with (normalize spec (JS.trim (correct_answer spec))).
  rewrite Hc.
  destruct (alternate_answers spec) as [alts|] eqn:Ha; [|congruence].
  cbn [array_or_empty] in Halt.
  change (fun alt => JS.includes (normalize spec (JS.trim s))
                       (if case_sensitive spec then alt else JS.toLowerCase alt))
    with (fun alt => JS.includes (normalize spec (JS.trim s)) (normalize spec alt)).
  rewrite (some_false _ _ Halt).
  destruct (keywords spec) as [kws|]; cbn [array_or_empty].
  - destruct kws as [|k kws]; [cbn; split; discriminate|].
    change ((0 <? List.length (k :: kws))%nat) with true.
    change ((List.length (k :: kws) =? 0)%nat) with false. cbv iota.
    split; [intros H; injection H; auto | intros ->; reflexivity].
  - cbn. split; discriminate.
Qed.

End TextAnswers.

Section TextAnswerClaims.

Import AssessmentService.

Lemma toLowerCase_empty s : JS.toLowerCase s = "" <-> s = "".
Proof. destruct s; simpl; split; intros H; congruence. Qed.

Lemma eqb_empty_r s : s <> "" -> (s =? "") = false.
Proof. intros H. apply String.eqb_neq. exact H. Qed.

Lemma evaluateTextAnswer_exact spec s :
  exact_match spec = true ->
  evaluateTextAnswer (Some s) (Some spec)
  = JS.truthy (JS.trim s) && exact_verdict (case_sensitive spec) (correct_answer spec) s.
Proof.
  intros Hex. unfold evaluateTextAnswer, exact_verdict. rewrite Hex.
  destruct (JS.truthy (JS.trim s)) eqn:Hs; cbn [negb andb]; [|reflexivity].
  destruct (JS.truthy (JS.trim (correct_answer spec))) eqn:Hc; cbn [negb]; [reflexivity|].
  apply truthy_false in Hc. rewrite Hc. apply truthy_true in Hs.
  destruct (case_sensitive spec); symmetry.
  - apply eqb_empty_r. exact Hs.
  - change (JS.toLowerCase "") with "". apply eqb_empty_r.
    rewrite toLowerCase_empty. exact Hs.
Qed.

Lemma score_text_exact spec s :
  exact_match spec = true ->
  StudentAssessmentService.score_text spec s
  = inr (exact_verdict (case_sensitive spec) (correct_answer spec) s).
Proof.
  intros Hex. unfold StudentAssessmentService.score_text, exact_verdict.
  rewrite Hex. reflexivity.
Qed.

(** With exact matching, two answer rows that share the canonical answer
    and the case flag give the same verdict, whatever their alternates
    and keywords. *)
Lemma exact_match_ignores_alternates_and_keywords spec spec' s :
  exact_match spec = true -> exact_match spec' = true ->
  correct_answer spec' = correct_answer spec ->
  case_sensitive spec' = case_sensitive spec ->
  evaluateTextAnswer (Some s) (Some spec') = evaluateTextAnswer (Some s) (Some spec) /\
  StudentAssessmentService.score_text spec' s = StudentAssessmentService.score_text spec s.
Proof.
  intros H H' Hc Hs.
  rewrite !evaluateTextAnswer_exact, !score_text_exact by assumption.
  rewrite Hc, Hs. split; reflexivity.
Qed.

(** Where both implementations are guarded alike they agree: a submission
    and a canonical answer that are not blank, and both array columns
    present. *)
Lemma evaluators_agree spec s :
  JS.trim s <> "" -> JS.trim (correct_answer spec) <> "" ->
  alternate_answers spec <> None -> keywords spec <> None ->
  StudentAssessmentService.score_text spec s
  = inr (evaluateTextAnswer (Some s) (Some spec)).
Proof.
  intros Hs Hc Ha Hk.
  unfold StudentAssessmentService.score_text, evaluateTextAnswer, normalize.
  apply truthy_true in Hs, Hc. rewrite Hs, Hc. cbn [negb].
  destruct (exact_match spec); [reflexivity|].
  destruct (JS.includes _ _); [reflexivity|].
  destruct (alternate_answers spec) as [alts|]; [|congruence].
  cbn [array_or_empty]. destruct (JS.some _ alts); [reflexivity|].
  destruct (keywords spec) as [kws|]; [|congruence].
  cbn [array_or_empty]. destruct kws; reflexivity.
Qed.

(** The text branch of [validateAndScoreResponse] is [score_text] on the
    first answer row of the question, for a non-empty submitted text. *)
Lemma validateAndScoreResponse_text question dto text textAnswer w :
  StudentAssessmentService.is_mcq_type (question_type question) = false ->
  StudentAssessmentService.is_text_type (question_type question) = true ->
  dto_text_answer dto = Some text -> text <> "" ->
  head (List.filter (fun a => ta_question_id a =? q_id question)
                    (assessment_text_answers (store w))) = Some textAnswer ->
  StudentAssessmentService.validateAndScoreResponse question dto w
  = match StudentAssessmentService.score_text textAnswer text with
    | inl e => (inl e, w)
    | inr true => (inr (true, StudentAssessmentService.points_or_1 question), w)
    | inr false => (inr (false, 0), w)
    end.
Proof.
  intros Hm Ht Hd Hne Hrow.
  unfold StudentAssessmentService.validateAndScoreResponse.
  rewrite Hm, Ht, Hd. apply truthy_true in Hne. rewrite Hne.
  unfold bind, rest_get, read, ret. cbn. rewrite Hrow.
  destruct (StudentAssessmentService.score_text textAnswer text) as [e|[|]]; reflexivity.
Qed.

End TextAnswerClaims.

(** C1 (as amended).  For a text question whose answer row has exact_match
    false, and a submission that is not blank after trimming and whose
    normalized form contains neither the normalized canonical answer nor a
    normalized alternate: [evaluateTextAnswer] marks it correct if and only
    if the keyword list is non-empty and at least ceil(half) of the keywords
    occur in the normalized submission; the text branch of
    [validateAndScoreResponse] does the same when the alternate_answers
    column is not null.  With keywords head, first, rows, a submission
    containing only head is incorrect and one containing head and rows is
    correct. *)
Theorem keyword_majority_rule (spec : DbTextAnswerRow) (s : string) :
  exact_match spec = false ->
  JS.trim s <> "" ->
  no_direct_match spec s ->
  let a := AssessmentService.normalize spec (JS.trim s) in
  let rule := keyword_majority (AssessmentService.normalize spec) a
                (AssessmentService.array_or_empty (keywords spec)) in
  (AssessmentService.evaluateTextAnswer (Some s) (Some spec) = true <-> rule) /\
  (alternate_answers spec <> None ->
   (StudentAssessmentService.score_text spec s = inr true <-> rule) /\
   forall question dto w,
     StudentAssessmentService.is_mcq_type (question_type question) = false ->
     StudentAssessmentService.is_text_type (question_type question) = true ->
     dto_text_answer dto = Some s ->
     head (List.filter (fun a => ta_question_id a =? q_id question)
                       (assessment_text_answers (store w))) = Some spec ->
     (fst (StudentAssessmentService.validateAndScoreResponse question dto w)
      = inr (true, StudentAssessmentService.points_or_1 question) <-> rule)) /\
  (keywords spec = Some ["head"; "first"; "rows"] ->
   JS.includes a "head" = true -> JS.includes a "first" = false ->
   AssessmentService.evaluateTextAnswer (Some s) (Some spec) = JS.includes a "rows").
Proof.
  intros Hex Hs Hdm a rule.
  pose proof (evaluateTextAnswer_keywords spec s Hex Hs Hdm) as He.
  split; [exact He|]. split.
  - intros Ha.
    pose proof (score_text_keywords spec s Hex Ha Hdm) as Hk. split; [exact Hk|].
    intros question dto w Hm Ht Hd Hrow.
    assert (Hne : s <> "") by (intros ->; apply Hs; reflexivity).
    rewrite (validateAndScoreResponse_text question dto s spec w Hm Ht Hd Hne Hrow).
    fold a rule in Hk.
    destruct (StudentAssessmentService.score_text spec s) as [e|[|]]; cbn [fst].
    + split; [discriminate|]. intros R. apply Hk in R. discriminate.
    + split; [intros _; apply Hk; reflexivity | reflexivity].
    + split; [discriminate|]. intros R. apply Hk in R. discriminate.
  - intros Hk Hhead Hfirst.
    assert (Hn : forall k, JS.toLowerCase k = k -> AssessmentService.normalize spec k = k).
    { intros k Hl. unfold AssessmentService.normalize. destruct (case_sensitive spec); auto. }
    destruct (JS.includes a "rows") eqn:Hrows.
    + apply He. fold a. rewrite Hk. split; [discriminate|].
      cbn. rewrite !Hn by reflexivity. rewrite Hhead, Hfirst, Hrows. cbn. lia.
    + apply not_true_is_false. intros E.
      apply He in E. fold a in E. rewrite Hk in E. destruct E as [_ E].
      cbn in E. rewrite !Hn in E by reflexivity. rewrite Hhead, Hfirst, Hrows in E.
      cbn in E. lia.
Qed.

Lemma keyword_majority_rule_witness :
  AssessmentService.evaluateTextAnswer (Some " Look at the HEAD of the rows ") (Some spec_head_rows) = true
  /\ AssessmentService.evaluateTextAnswer (Some "take the head") (Some spec_head_rows) = false.
Proof.
  split.
  - refine (eq_trans
      (proj2 (proj2 (keyword_majority_rule spec_head_rows " Look at the HEAD of the rows "
                       eq_refl _ _)) eq_refl eq_refl eq_refl) eq_refl).
    + vm_compute. discriminate.
    + split; [reflexivity|]. intros alt [<-|[]]. reflexivity.
  - refine (eq_trans
      (proj2 (proj2 (keyword_majority_rule spec_head_rows "take the head"
                       eq_refl _ _)) eq_refl eq_refl eq_refl) eq_refl).
    + vm_compute. discriminate.
    + split; [reflexivity|]. intros alt [<-|[]]. reflexivity.
Defined.

(** C1, counterexample to the claim as stated: without the requirement that
    the submission is not blank, the empty submission against the keyword
    list holding the empty string satisfies the rule and is marked
    incorrect. *)
Lemma keyword_rule_blank_submission_counterexample :
  ~ (forall (spec : DbTextAnswerRow) (s : string),
       exact_match spec = false ->
       no_direct_match spec s ->
       (AssessmentService.evaluateTextAnswer (Some s) (Some spec) = true <->
        keyword_majority (AssessmentService.normalize spec)
          (AssessmentService.normalize spec (JS.trim s))
          (AssessmentService.array_or_empty (keywords spec)))).
Proof.
  intros H.
  assert (Hd : no_direct_match spec_blank_keyword "").
  { split; [reflexivity|]. intros alt []. }
  destruct (H spec_blank_keyword "" eq_refl Hd) as [_ Hk].
  assert (E : AssessmentService.evaluateTextAnswer (Some "") (Some spec_blank_keyword) = true).
  { apply Hk. split; [discriminate|]. cbn. lia. }
  vm_compute in E. discriminate.
Qed.

Lemma validateAndScoreResponse_exact question dto s spec w :
  StudentAssessmentService.is_mcq_type (question_type question) = false ->
  StudentAssessmentService.is_text_type (question_type question) = true ->
  dto_text_answer dto = Some s ->
  head (List.filter (fun a => ta_question_id a =? q_id question)
                    (assessment_text_answers (store w))) = Some spec ->
  exact_match spec = true ->
  exists points,
    StudentAssessmentService.validateAndScoreResponse question dto w
    = (inr (JS.truthy s && exact_verdict (case_sensitive spec) (correct_answer spec) s,
            points), w).
Proof.
  intros Hm Ht Hd Hrow Hex.
  destruct (JS.truthy s) eqn:Hs.
  - apply truthy_true in Hs.
    rewrite (validateAndScoreResponse_text question dto s spec w Hm Ht Hd Hs Hrow).
    rewrite (score_text_exact spec s Hex). cbn [andb].
    destruct (exact_verdict _ _ s); eexists; reflexivity.
  - exists 0. unfold StudentAssessmentService.validateAndScoreResponse.
    rewrite Hm, Ht, Hd, Hs. reflexivity.
Qed.

(** C7 (as amended).  For a text question whose answer row has exact_match
    true, the verdict is the equality of the trimmed submission with the
    trimmed canonical answer, case-sensitive or not as the flag says, except
    that [evaluateTextAnswer] never accepts a submission that is blank after
    trimming and [validateAndScoreResponse] never accepts an empty one; the
    alternate answers and the keywords do not enter the verdict. *)
Theorem exact_match_verdict (spec : DbTextAnswerRow) (s : string) :
  exact_match spec = true ->
  let verdict := exact_verdict (case_sensitive spec) (correct_answer spec) s in
  AssessmentService.evaluateTextAnswer (Some s) (Some spec)
    = JS.truthy (JS.trim s) && verdict /\
  StudentAssessmentService.score_text spec s = inr verdict /\
  (forall question dto w,
     StudentAssessmentService.is_mcq_type (question_type question) = false ->
     StudentAssessmentService.is_text_type (question_type question) = true ->
     dto_text_answer dto = Some s ->
     head (List.filter (fun a => ta_question_id a =? q_id question)
                       (assessment_text_answers (store w))) = Some spec ->
     exists points,
       StudentAssessmentService.validateAndScoreResponse question dto w
       = (inr (JS.truthy s && verdict, points), w)).
Proof.
  intros Hex verdict. split; [|split].
  - apply evaluateTextAnswer_exact. exact Hex.
  - apply score_text_exact. exact Hex.
  - intros question dto w Hm Ht Hd Hrow.
    apply validateAndScoreResponse_exact; assumption.
Qed.

Lemma exact_match_verdict_witness :
  AssessmentService.evaluateTextAnswer (Some "DEF") (Some spec_exact_def) = true /\
  AssessmentService.evaluateTextAnswer (Some " def ") (Some spec_exact_def) = true /\
  AssessmentService.evaluateTextAnswer (Some "define") (Some spec_exact_def) = false.
Proof.
  split; [|split].
  - exact (eq_trans (proj1 (exact_match_verdict spec_exact_def "DEF" eq_refl)) eq_refl).
  - exact (eq_trans (proj1 (exact_match_verdict spec_exact_def " def " eq_refl)) eq_refl).
  - exact (eq_trans (proj1 (exact_match_verdict spec_exact_def "define" eq_refl)) eq_refl).
Defined.

(** C7, counterexample to the claim as stated: the empty submission equals
    the empty canonical answer, and [evaluateTextAnswer] marks it
    incorrect. *)
Lemma exact_match_blank_counterexample :
  ~ (forall (spec : DbTextAnswerRow) (s : string),
       exact_match spec = true ->
       AssessmentService.evaluateTextAnswer (Some s) (Some spec)
       = exact_verdict (case_sensitive spec) (correct_answer spec) s).
Proof.
  intros H. specialize (H spec_exact_blank "" eq_refl).
  vm_compute in H. discriminate.
Qed.

(** C10, the two implementations evaluated where they part.  A canonical
    answer that is blank: [evaluateTextAnswer] rejects every submission,
    the text branch of [validateAndScoreResponse] accepts every non-empty
    one.  Null alternate_answers and keywords: [evaluateTextAnswer] reads
    them as empty lists, [validateAndScoreResponse] raises a TypeError. *)
Theorem evaluators_disagree :
  AssessmentService.evaluateTextAnswer (Some "anything") (Some spec_blank_canonical) = false /\
  StudentAssessmentService.score_text spec_blank_canonical "anything" = inr true /\
  AssessmentService.evaluateTextAnswer (Some "tail") (Some spec_null_arrays) = false /\
  StudentAssessmentService.score_text spec_null_arrays "tail" = inl TypeError.
Proof. repeat split; reflexivity. Qed.

(* ===================================================================== *)
(** ** The standalone flow: percentage score and pass mark *)
(* ===================================================================== *)

Section StandaloneScore.

Import AssessmentService.

Lemma in_pairs_below c n N : (c <= n)%nat -> (n < N)%nat -> In (c, n) (pairs_below N).
Proof.
  intros Hc Hn. unfold pairs_below. apply in_flat_map. exists n. split.
  - apply in_seq. lia.
  - apply (in_map (fun c0 => (c0, n))). apply in_seq. lia.
Qed.

Lemma score_exact_b_true p : score_exact_b p = true -> score_exact p.
Proof.
  unfold score_exact_b, score_exact. intros H.
  apply andb_prop in H. destruct H as [H1 H2]. split.
  - apply FloatAxioms.Leibniz.eqb_spec. exact H1.
  - apply Bool.eqb_prop. exact H2.
Qed.

Lemma score_table c n : (c <= n)%nat -> (n < 40)%nat -> score_exact (c, n).
Proof.
  intros Hc Hn. apply score_exact_b_true.
  assert (T : List.forallb score_exact_b (pairs_below 40) = true)
    by (vm_compute; reflexivity).
  rewrite List.forallb_forall in T. apply T. apply in_pairs_below; assumption.
Qed.

Lemma count_le_length {A} (p : A -> bool) l : (JS.count p l <= List.length l)%nat.
Proof.
  unfold JS.count. induction l as [|x l IH]; simpl; [lia|].
  destruct (p x); simpl; lia.
Qed.

Lemma count_map {A B} (f : A -> B) (p : B -> bool) l :
  JS.count p (List.map f l) = JS.count (fun x => p (f x)) l.
Proof.
  unfold JS.count. induction l as [|x l IH]; simpl; [reflexivity|].
  destruct (p (f x)); simpl; congruence.
Qed.

Variable parse_index : option string -> option Z.

Lemma finish_counts assessmentId questions responses :
  let r := finish parse_index assessmentId questions responses in
  total r = List.length responses /\
  correct r = List.length (List.filter row_correct (toSave r)) /\
  (correct r <= total r)%nat /\
  score r = percentage (correct r) (total r) /\
  passed r = PrimFloat.leb (JS.of_int PASSING_SCORE) (score r).
Proof.
  unfold finish. cbv zeta. cbn [total correct score passed toSave].
  repeat split.
  - match goal with
    | |- _ = List.length (List.filter row_correct ?l) =>
        change (List.length (List.filter row_correct l)) with (JS.count row_correct l)
    end.
    rewrite !count_map. reflexivity.
  - etransitivity; [apply count_le_length|]. rewrite length_map. lia.
Qed.

(** Whatever the number of responses: an empty list scores 0 and fails. *)
Lemma finish_empty assessmentId questions :
  let r := finish parse_index assessmentId questions [] in
  score r = JS.of_int 0 /\ passed r = false.
Proof. split; reflexivity. Qed.

End StandaloneScore.

Lemma static_score_table c :
  (c <= 1000)%nat -> StaticAssessmentService.score c = JS.of_int (4 * Z.of_nat c).
Proof.
  intros Hc.
  assert (T : List.forallb static_score_exact_b (List.seq 0 1001) = true)
    by (vm_compute; reflexivity).
  rewrite List.forallb_forall in T.
  apply FloatAxioms.Leibniz.eqb_spec. apply T. apply List.in_seq. lia.
Qed.






(** The earlier [finish] over the fixed 25 questions: the score is
    4 * correct and the pass line 18 is the 72 percent mark. *)
Lemma static_finish_score c :
  (c <= 25)%nat ->
  StaticAssessmentService.score c = JS.of_int (round_half_up c 25) /\
  round_half_up c 25 = (4 * Z.of_nat c)%Z /\
  StaticAssessmentService.passed c = (72 <=? round_half_up c 25)%Z.
Proof.
  intros Hc.
  destruct (score_table c 25 Hc ltac:(lia)) as [E1 _]. cbn [fst snd] in E1.
  assert (R : round_half_up c 25 = (4 * Z.of_nat c)%Z).
  { unfold round_half_up. change (Z.of_nat 25) with 25%Z.
    replace (200 * Z.of_nat c + 25)%Z with (25 + (4 * Z.of_nat c) * (2 * 25))%Z by lia.
    rewrite Z.div_add by lia. reflexivity. }
  split; [exact E1|]. split; [exact R|].
  rewrite R. unfold StaticAssessmentService.passed.
  destruct (Nat.leb_spec 18 c); symmetry; [apply Z.leb_le | apply Z.leb_gt]; lia.
Qed.

(* ===================================================================== *)
(** ** Shuffling and the options a student sees *)
(* ===================================================================== *)

Section Shuffle.

Import StudentAssessmentService.

Context {T : Type}.

Lemma swap_Permutation i j (l : list T) : swap i j l ≡ₚ l.
Proof.
  unfold swap. destruct (l !! i) as [x|] eqn:Hi; [|reflexivity].
  destruct (l !! j) as [y|] eqn:Hj; [|reflexivity].
  apply Permutation_insert_swap; assumption.
Qed.

Lemma shuffle_loop_Permutation rng i : forall pos (l : list T),
  fst (shuffle_loop rng pos i l) ≡ₚ l.
Proof.
  induction i as [|i IH]; intros pos l; simpl; [reflexivity|].
  rewrite IH. apply swap_Permutation.
Qed.

Lemma service_shuffle_perm (array : list T) w :
  exists shuffled w',
    shuffleArray array w = (inr shuffled, w') /\
    shuffled ≡ₚ array /\ store w' = store w /\ now w' = now w.
Proof.
  unfold shuffleArray.
  pose proof (shuffle_loop_Permutation (rng w) (List.length array - 1) (rng_pos w) array) as P.
  destruct (shuffle_loop (rng w) (rng_pos w) (List.length array - 1) array) as [s pos'].
  exists s. eexists. split; [reflexivity|]. repeat split. exact P.
Qed.

(** The loop on the heap array at [a] is the loop on its contents. *)
Lemma shuffle_loop_at_spec rng i : forall pos (a : positive) h (l : list T),
  h !! a = Some l ->
  ArrayHeap.shuffle_loop_at rng pos i a h
  = (<[a := fst (shuffle_loop rng pos i l)]> h, snd (shuffle_loop rng pos i l)).
Proof.
  induction i as [|i IH]; intros pos a h l Hl; simpl.
  - rewrite insert_id by exact Hl. reflexivity.
  - unfold ArrayHeap.swap_at at 1. rewrite Hl.
    rewrite (IH _ a _ (swap (S i) (random_index rng pos (S i)) l))
      by apply lookup_insert_eq.
    rewrite insert_insert_eq. reflexivity.
Qed.

Lemma heap_shuffleArray_spec rng pos (array : positive) (h : gmap positive (list T)) l :
  h !! array = Some l ->
  let shuffled := fresh (dom h) in
  let l' := fst (shuffle_loop rng pos (List.length l - 1) l) in
  ArrayHeap.shuffleArray rng pos array h
  = Some (shuffled, <[shuffled := l']> h,
          snd (shuffle_loop rng pos (List.length l - 1) l)) /\
  (shuffled ∉ dom h) /\ shuffled <> array.
Proof.
  intros Hl shuffled l'.
  assert (Hf : shuffled ∉ dom h) by apply is_fresh.
  assert (Hne : shuffled <> array).
  { intros ->. apply Hf. apply elem_of_dom. eauto. }
  split; [|split; assumption].
  unfold ArrayHeap.shuffleArray, ArrayHeap.spread. rewrite Hl.
  fold shuffled.
  rewrite (shuffle_loop_at_spec rng _ pos shuffled _ l) by apply lookup_insert_eq.
  rewrite insert_insert_eq. reflexivity.
Qed.

End Shuffle.

Lemma prepareQuestionOptions_spec options randomize w :
  exists out w',
    StudentAssessmentService.prepareQuestionOptions options randomize w = (inr out, w') /\
    out ≡ₚ List.map strip_option options /\
    store w' = store w /\ now w' = now w /\
    (randomize = false -> out = List.map strip_option options /\ w' = w).
Proof.
  unfold StudentAssessmentService.prepareQuestionOptions.
  fold strip_option. change (fun option => strip_option option) with strip_option.
  destruct randomize.
  - destruct (service_shuffle_perm (List.map strip_option options) w)
      as (out & w' & E & P & Hst & Hnow).
    exists out, w'. repeat split; try assumption; discriminate.
  - exists (List.map strip_option options), w. repeat split; reflexivity.
Qed.

(** C9.  [shuffleArray] returns a new array: its location is not one of the
    heap it was called in, every array of that heap, the input included,
    keeps its contents, and the new array is a permutation of the input (the
    one the service-level function computes from the same random draws).
    [prepareQuestionOptions] returns the stripped options as a permutation
    of the canonical list, so with the same ids and texts, and in the
    canonical order when randomization is off. *)
Theorem shuffleArray_permutation {T : Type} (draws : nat -> nat) (pos : nat)
    (array : positive) (h : gmap positive (list T)) (l : list T)
    (options : list OptionRow) (randomize : bool) (w : World) :
  h !! array = Some l ->
  (exists shuffled h' pos' l',
     ArrayHeap.shuffleArray draws pos array h = Some (shuffled, h', pos') /\
     (shuffled ∉ dom h) /\
     h' !! shuffled = Some l' /\ l' ≡ₚ l /\
     (forall a, a ∈ dom h -> h' !! a = h !! a) /\
     h' !! array = Some l /\
     (rng w = draws -> rng_pos w = pos ->
      fst (StudentAssessmentService.shuffleArray l w) = inr l')) /\
  (exists out w',
     StudentAssessmentService.prepareQuestionOptions options randomize w = (inr out, w') /\
     List.map (fun o => (po_id o, po_option_text o)) out
       ≡ₚ List.map (fun o => (o_id o, option_text o)) options /\
     (randomize = false -> out = List.map strip_option options)).
Proof.
  intros Hl. split.
  - destruct (heap_shuffleArray_spec draws pos array h l Hl) as (E & Hf & Hne).
    cbv zeta in E.
    eexists _, _, _, _. split; [exact E|]. split; [exact Hf|].
    split; [apply lookup_insert_eq|]. split; [apply shuffle_loop_Permutation|].
    split; [|split].
    + intros a Ha. apply lookup_insert_ne. intros <-. exact (Hf Ha).
    + rewrite lookup_insert_ne by exact Hne. exact Hl.
    + intros <- <-. unfold StudentAssessmentService.shuffleArray.
      destruct (StudentAssessmentService.shuffle_loop (rng w) (rng_pos w)
                  (List.length l - 1) l); reflexivity.
  - destruct (prepareQuestionOptions_spec options randomize w)
      as (out & w' & E & P & _ & _ & Hr).
    exists out, w'. split; [exact E|]. split.
    + change (fun o => (o_id o, option_text o))
        with (fun o => (fun p => (po_id p, po_option_text p)) (strip_option o)).
      rewrite <- (List.map_map strip_option (fun p => (po_id p, po_option_text p))).
      apply Permutation_map. exact P.
    + intros Hf. apply Hr. exact Hf.
Qed.

Lemma shuffleArray_permutation_witness :
  exists shuffled h' pos' l',
    ArrayHeap.shuffleArray (fun n => n) 0 1%positive heap_abc = Some (shuffled, h', pos') /\
    (shuffled ∉ dom heap_abc) /\
    h' !! shuffled = Some l' /\ l' ≡ₚ ["a"; "b"; "c"].
Proof.
  destruct (proj1 (shuffleArray_permutation (fun n => n) 0%nat 1%positive heap_abc
                     ["a"; "b"; "c"] demo_options true demo_live_world eq_refl))
    as (shuffled & h' & pos' & l' & E & Hf & Hl' & P & _).
  exists shuffled, h', pos', l'. repeat split; assumption.
Defined.

(* ===================================================================== *)
(** ** Sessions: lazy expiry *)
(* ===================================================================== *)

Section Expiry.

Import StudentAssessmentService.

Lemma getAssessmentSession_not_found w token student :
  session_lookup (store w) token student = None ->
  getAssessmentSession token student w
  = (inl (NotFoundException "Assessment session not found"), w).
Proof.
  intros H. unfold getAssessmentSession. run.
  unfold session_lookup in H. rewrite H. reflexivity.
Qed.

Lemma getAssessmentSession_expired w token student s :
  session_lookup (store w) token student = Some s ->
  s_status s = expired ->
  getAssessmentSession token student w
  = (inl (ForbiddenException "Assessment session has expired"), w).
Proof.
  intros H Hs. unfold getAssessmentSession. run.
  unfold session_lookup in H. rewrite H, Hs. reflexivity.
Qed.

Lemma getAssessmentSession_past w token student s :
  session_lookup (store w) token student = Some s ->
  s_status s <> expired ->
  past_expiry s (now w) = true ->
  getAssessmentSession token student w
  = (inl (ForbiddenException "Assessment session has expired"),
     with_store w (expire_store (s_id s) (store w))).
Proof.
  intros H Hs Hp. unfold getAssessmentSession. run.
  unfold session_lookup in H. rewrite H.
  unfold past_expiry in Hp. rewrite Hp. rewrite orb_true_r.
  destruct (s_status s); try congruence; reflexivity.
Qed.

Lemma getAssessmentSession_live w token student s :
  session_lookup (store w) token student = Some s ->
  s_status s <> expired ->
  past_expiry s (now w) = false ->
  getAssessmentSession token student w
  = (inr {| sv_session := s;
            sv_assessment_templates :=
              List.find (fun t => tpl_id t =? s_template_id s)
                        (assessment_templates (store w));
            sv_responses :=
              List.filter (fun r => r_session_id r =? s_id s)
                          (student_assessment_responses (store w));
            sv_time_remaining := time_remaining (s_expires_at s) (now w);
            sv_is_expired := (getTime (s_expires_at s) <? now w)%Z |}, w).
Proof.
  intros H Hs Hp. unfold getAssessmentSession. run.
  unfold session_lookup in H. rewrite H.
  unfold past_expiry in Hp. rewrite Hp.
  destruct (s_status s); try congruence; reflexivity.
Qed.

(** A read never touches the response table, and a successful read
    changes nothing. *)
Lemma getAssessmentSession_frame w token student :
  student_assessment_responses (store (snd (getAssessmentSession token student w)))
  = student_assessment_responses (store w) /\
  (forall v, fst (getAssessmentSession token student w) = inr v ->
             snd (getAssessmentSession token student w) = w /\
             session_lookup (store w) token student = Some (sv_session v) /\
             s_status (sv_session v) <> expired /\
             past_expiry (sv_session v) (now w) = false).
Proof.
  destruct (session_lookup (store w) token student) as [s|] eqn:H.
  - destruct (session_status_eqb (s_status s) expired) eqn:Hs.
    + assert (s_status s = expired) by (destruct (s_status s); simpl in Hs; congruence).
      rewrite (getAssessmentSession_expired w token student s H) by assumption.
      split; [reflexivity | intros v Hv; discriminate].
    + assert (Hne : s_status s <> expired) by (intros E; rewrite E in Hs; discriminate).
      destruct (past_expiry s (now w)) eqn:Hp.
      * rewrite (getAssessmentSession_past w token student s H Hne Hp).
        split; [reflexivity | intros v Hv; discriminate].
      * rewrite (getAssessmentSession_live w token student s H Hne Hp).
        split; [reflexivity|]. cbn. intros v Hv. injection Hv as <-. cbn.
        repeat split; assumption.
  - rewrite (getAssessmentSession_not_found w token student H).
    split; [reflexivity | intros v Hv; discriminate].
Qed.

Lemma filter_map_head {A} (p : A -> bool) (f : A -> A) (l : list A) :
  (forall x, p (f x) = p x) ->
  head (List.filter p (List.map f l)) = option_map f (head (List.filter p l)).
Proof.
  intros Hp. induction l as [|x l IH]; simpl; [reflexivity|].
  rewrite Hp. destruct (p x); [reflexivity | exact IH].
Qed.

(** After the statuses of the rows with the session's id are set to
    expired, the token resolves to the same row with status expired. *)
Lemma session_lookup_expire_store st token student s :
  session_lookup st token student = Some s ->
  session_lookup (expire_store (s_id s) st) token student = Some (set_status expired s).
Proof.
  intros H. unfold session_lookup, expire_store. cbn.
  rewrite filter_map_head.
  - unfold session_lookup in H. rewrite H. cbn. rewrite String.eqb_refl. reflexivity.
  - intros x. destruct (s_id x =? s_id s); reflexivity.
Qed.

(** An in-progress session read after its expiry time: the read is
    refused as expired and the stored status becomes expired; a second
    read is refused again and writes nothing. *)
Lemma expiry_on_read w token student s :
  session_lookup (store w) token student = Some s ->
  s_status s = in_progress ->
  past_expiry s (now w) = true ->
  let r1 := getAssessmentSession token student w in
  fst r1 = inl (ForbiddenException "Assessment session has expired") /\
  option_map s_status (session_lookup (store (snd r1)) token student) = Some expired /\
  (forall t', getAssessmentSession token student
                {| store := store (snd r1); now := t'; rng := rng w; rng_pos := rng_pos w;
                   uuid := uuid w; uuid_pos := uuid_pos w |}
              = (inl (ForbiddenException "Assessment session has expired"),
                 {| store := store (snd r1); now := t'; rng := rng w; rng_pos := rng_pos w;
                    uuid := uuid w; uuid_pos := uuid_pos w |})).
Proof.
  intros H Hs Hp r1. subst r1.
  rewrite (getAssessmentSession_past w token student s H) by (congruence || assumption).
  cbn [fst snd]. split; [reflexivity|].
  pose proof (session_lookup_expire_store (store w) token student s H) as L.
  split.
  - cbn. rewrite L. reflexivity.
  - intros t'. apply (getAssessmentSession_expired _ token student (set_status expired s)).
    + exact L.
    + reflexivity.
Qed.

(** Finishing a session whose stored status is expired is refused and
    writes nothing. *)
Lemma finish_expired_rejected w token student s :
  session_lookup (store w) token student = Some s ->
  s_status s = expired ->
  finishAssessment token student w
  = (inl (ForbiddenException "Assessment session has expired"), w).
Proof.
  intros H Hs. unfold finishAssessment, bind.
  rewrite (getAssessmentSession_expired w token student s H Hs). reflexivity.
Qed.

(** Finishing a completed session before its expiry time is refused and
    writes nothing. *)
Lemma finish_completed_rejected w token student s :
  session_lookup (store w) token student = Some s ->
  s_status s = completed ->
  past_expiry s (now w) = false ->
  finishAssessment token student w
  = (inl (BadRequestException "Cannot finish non-active session"), w).
Proof.
  intros H Hs Hp. unfold finishAssessment, bind.
  rewrite (getAssessmentSession_live w token student s H) by (congruence || assumption).
  cbn. rewrite Hs. reflexivity.
Qed.

(** A completed session read after its expiry time is refused as expired
    and its stored status is overwritten with expired. *)
Lemma completed_session_expired_on_read w token student s :
  session_lookup (store w) token student = Some s ->
  s_status s = completed ->
  past_expiry s (now w) = true ->
  let r := getAssessmentSession token student w in
  fst r = inl (ForbiddenException "Assessment session has expired") /\
  session_lookup (store (snd r)) token student = Some (set_status expired s).
Proof.
  intros H Hs Hp r. subst r.
  rewrite (getAssessmentSession_past w token student s H) by (congruence || assumption).
  split; [reflexivity|]. cbn.
  apply session_lookup_expire_store. exact H.
Qed.

End Expiry.

(** C3, the code at a completed session whose expiry time has passed: the
    read is refused as expired and the stored status, completed, is
    overwritten with expired. *)
Theorem completed_session_becomes_expired :
  let w := demo_world (demo_store [demo_session completed 1 "s1" "tok"] []) 2000 in
  let r := StudentAssessmentService.getAssessmentSession "tok" "stu" w in
  fst r = inl (ForbiddenException "Assessment session has expired") /\
  student_assessment_sessions (store (snd r)) = [demo_session expired 1 "s1" "tok"].
Proof. split; reflexivity. Qed.

(* ===================================================================== *)
(** ** Response intake *)
(* ===================================================================== *)

Section Intake.

Import StudentAssessmentService.

Lemma validateAndScoreResponse_pure question dto w :
  snd (validateAndScoreResponse question dto w) = w.
Proof.
  unfold validateAndScoreResponse, lift. run. break_match; reflexivity.
Qed.

(** Scoring reads the option and text-answer tables and the two answer
    fields of the request, nothing else. *)
Lemma validateAndScoreResponse_ext question dto dto' w w' :
  assessment_question_options (store w') = assessment_question_options (store w) ->
  assessment_text_answers (store w') = assessment_text_answers (store w) ->
  dto_selected_option_id dto' = dto_selected_option_id dto ->
  dto_text_answer dto' = dto_text_answer dto ->
  fst (validateAndScoreResponse question dto' w')
  = fst (validateAndScoreResponse question dto w).
Proof.
  intros Ho Ht Hs Hx. unfold validateAndScoreResponse, lift. run.
  rewrite Hs, Hx.
  destruct (is_mcq_type (question_type question)).
  - destruct (dto_selected_option_id dto) as [sel|]; [|reflexivity].
    destruct (JS.truthy sel); [|reflexivity].
    cbn. rewrite Ho. break_match; reflexivity.
  - destruct (is_text_type (question_type question)); [|reflexivity].
    destruct (dto_text_answer dto) as [text|]; [|reflexivity].
    destruct (JS.truthy text); [|reflexivity].
    cbn. rewrite Ht. break_match; reflexivity.
Qed.

Lemma existsb_key_In session question rows :
  existsb (same_response_key session question) rows = false ->
  ~ In (session, question) (List.map (fun r => (r_session_id r, r_question_id r)) rows).
Proof.
  intros H Hin. apply in_map_iff in Hin. destruct Hin as (r & Hk & Hr).
  assert (E : existsb (same_response_key session question) rows = true).
  { apply existsb_exists. exists r. split; [exact Hr|].
    unfold same_response_key. injection Hk as -> ->. rewrite !String.eqb_refl. reflexivity. }
  congruence.
Qed.

(** What one call of [submitResponse] does.  It either throws and leaves
    the response table as it was, or it returns and has appended exactly
    one row: for a session in progress and not past its expiry time, for a
    question that exists, under a (session, question) key that no stored
    row had, holding the answer of this request. *)
Lemma submitResponse_spec dto student w :
  match submitResponse dto student w with
  | (inl e, w') =>
      student_assessment_responses (store w') = student_assessment_responses (store w)
  | (inr res, w') =>
      exists s question row,
        session_lookup (store w) (dto_session_token dto) student = Some s /\
        s_status s = in_progress /\ past_expiry s (now w) = false /\
        question_lookup (store w) (dto_question_id dto) = Some question /\
        (responses_unique (store w) = true ->
         existsb (same_response_key (s_id s) (dto_question_id dto))
                 (student_assessment_responses (store w)) = false) /\
        store w' = set_responses (student_assessment_responses (store w) ++ [row]) (store w) /\
        r_session_id row = s_id s /\ r_question_id row = dto_question_id dto /\
        r_selected_option_id row = or_null (dto_selected_option_id dto) /\
        r_text_answer row = or_null (dto_text_answer dto) /\
        fst (validateAndScoreResponse question dto w)
        = inr (r_is_correct row, r_points_earned row)
  end.
Proof.
  unfold submitResponse, bind at 1.
  pose proof (getAssessmentSession_frame w (dto_session_token dto) student) as [Fr Fv].
  destruct (getAssessmentSession (dto_session_token dto) student w) as [[e|v] w0] eqn:G.
  - exact Fr.
  - destruct (Fv v eq_refl) as (Hw & Hl & Hne & Hp). cbn [snd] in Hw. subst w0.
    destruct (session_status_eqb (s_status (sv_session v)) in_progress) eqn:Hst;
      cbn [negb]; [|reflexivity].
    assert (Hin : s_status (sv_session v) = in_progress)
      by (destruct (s_status (sv_session v)); simpl in Hst; congruence).
    unfold bind at 1. unfold rest_get at 1. unfold bind at 1, read at 1, ret at 1.
    cbn [json].
    fold (question_lookup (store w) (dto_question_id dto)).
    destruct (question_lookup (store w) (dto_question_id dto)) as [question|] eqn:Hq;
      [|reflexivity].
    unfold bind at 1.
    pose proof (validateAndScoreResponse_pure question dto w) as Hpure.
    destruct (validateAndScoreResponse question dto w) as [[e|scored] w1] eqn:Hsc;
      cbn [snd] in Hpure; subst w1; [reflexivity|].
    unfold bind at 1, get_now at 1.
    unfold bind at 1, post_response at 1, bind at 1, read at 1, bind at 1, read at 1.
    destruct (responses_unique (store w)
              && existsb _ (student_assessment_responses (store w))) eqn:Hdup.
    + reflexivity.
    + cbn. eexists (sv_session v), question, _.
      split; [exact Hl|]. split; [exact Hin|]. split; [exact Hp|]. split; [reflexivity|].
      split.
      { intros Hu. rewrite Hu in Hdup. exact Hdup. }
      split; [reflexivity|]. repeat (split; [reflexivity|]).
      rewrite Hsc. cbn. destruct scored; reflexivity.
Qed.

(** The store's answer 409 surfaces as the duplicate-submission error, and
    nothing is written: a live session, an existing question, a request
    that scores without error, and a stored row under the same key. *)
Lemma submitResponse_conflict dto student w s question scored :
  session_lookup (store w) (dto_session_token dto) student = Some s ->
  s_status s = in_progress -> past_expiry s (now w) = false ->
  question_lookup (store w) (dto_question_id dto) = Some question ->
  fst (validateAndScoreResponse question dto w) = inr scored ->
  responses_unique (store w) = true ->
  existsb (same_response_key (s_id s) (dto_question_id dto))
          (student_assessment_responses (store w)) = true ->
  submitResponse dto student w
  = (inl (BadRequestException "Response already submitted for this question"), w).
Proof.
  intros Hl Hst Hp Hq Hsc Hu Hdup.
  unfold submitResponse, bind at 1.
  rewrite (getAssessmentSession_live w _ student s Hl) by (congruence || assumption).
  cbn [sv_session]. rewrite Hst. cbn [session_status_eqb negb].
  unfold bind at 1. unfold rest_get at 1. unfold bind at 1, read at 1, ret at 1.
  cbn [json]. fold (question_lookup (store w) (dto_question_id dto)). rewrite Hq.
  unfold bind at 1.
  pose proof (validateAndScoreResponse_pure question dto w) as Hpure.
  destruct (validateAndScoreResponse question dto w) as [r w1].
  cbn [fst snd] in Hsc, Hpure. subst r w1.
  unfold bind at 1, get_now at 1.
  unfold bind at 1, post_response at 1, bind at 1, read at 1, bind at 1, read at 1.
  cbn [r_session_id r_question_id]. rewrite Hu, Hdup. reflexivity.
Qed.

(** A request for a question id that resolves to no question is rejected
    and writes no response; against a live session the rejection is the
    not-found error. *)
Lemma submitResponse_unknown_question dto student w :
  question_lookup (store w) (dto_question_id dto) = None ->
  (exists e w',
     submitResponse dto student w = (inl e, w') /\
     student_assessment_responses (store w') = student_assessment_responses (store w)) /\
  (forall s, session_lookup (store w) (dto_session_token dto) student = Some s ->
             s_status s = in_progress -> past_expiry s (now w) = false ->
             submitResponse dto student w
             = (inl (NotFoundException "Question not found"), w)).
Proof.
  intros Hq. split.
  - pose proof (submitResponse_spec dto student w) as S.
    destruct (submitResponse dto student w) as [[e|res] w'].
    + exists e, w'. split; [reflexivity | exact S].
    + destruct S as (s & question & row & _ & _ & _ & Hq' & _). congruence.
  - intros s Hl Hst Hp.
    unfold submitResponse, bind at 1.
    rewrite (getAssessmentSession_live w _ student s Hl) by (congruence || assumption).
    cbn [sv_session]. rewrite Hst. cbn [session_status_eqb negb].
    unfold bind at 1. unfold rest_get at 1. unfold bind at 1, read at 1, ret at 1.
    cbn [json]. fold (question_lookup (store w) (dto_question_id dto)). rewrite Hq.
    reflexivity.
Qed.

(** No two stored responses share a (session, question) key, and
    [submitResponse] keeps it so. *)
Lemma submitResponse_unique_keys dto student w :
responses_unique (store w) = true ->
List.NoDup (response_keys (store w)) ->
  List.NoDup (response_keys (store (snd (submitResponse dto student w)))).
Proof.
  intros Hu Hnd. pose proof (submitResponse_spec dto student w) as S.
  destruct (submitResponse dto student w) as [[e|res] w']; cbn [snd].
  - unfold response_keys. rewrite S. exact Hnd.
  - destruct S as (s & question & row & _ & _ & _ & _ & Hdup & Hst & Hrs & Hrq & _).
    unfold response_keys. rewrite Hst. cbn [student_assessment_responses set_responses].
    rewrite List.map_app. cbn [List.map].
    apply List.NoDup_app; [exact Hnd | constructor; [intros []|constructor] |].
    intros k Hk [<-|[]]. rewrite Hrs, Hrq in Hk.
    exact (existsb_key_In _ _ _ (Hdup Hu) Hk).
Qed.

(** The service has no check of its own: over a response table without the
    uniqueness constraint a second submission for the same question is
    stored next to the first. *)
Lemma duplicate_stored_without_constraint :
  let w1 := snd (submitResponse (demo_dto "o2") "stu" demo_unconstrained_world) in
  let w2 := snd (submitResponse (demo_dto "o1") "stu" w1) in
  List.map (fun r => (r_session_id r, r_question_id r, r_selected_option_id r))
           (student_assessment_responses (store w2))
  = [("s1", "q1", Some "o2"); ("s1", "q1", Some "o1")].
Proof. vm_compute. reflexivity. Qed.

End Intake.

(** C2.  Where the response table is unique on (session, question): once a
    submission for a question of a session is accepted, the table holds
    one more row, with that submission's answer; every later
    [submitResponse] for the same session and question throws and leaves
    the table as the first call left it.  When the later call reaches the
    store (the session is not past its expiry time and scoring raises no
    error, as for a repeated identical request) the store answers 409 and
    the call fails with the duplicate-submission BadRequest, having written
    nothing.  The keys of the table stay pairwise distinct. *)
Theorem second_submission_rejected
    (w w1 w2 : World) (dto dto2 : SubmitResponseDto) (student : string)
    (res : SubmitResult) :
  responses_unique (store w) = true ->
  StudentAssessmentService.submitResponse dto student w = (inr res, w1) ->
  store w2 = store w1 ->
  dto_session_token dto2 = dto_session_token dto ->
  dto_question_id dto2 = dto_question_id dto ->
  exists s question row e w3,
    session_lookup (store w) (dto_session_token dto) student = Some s /\
    question_lookup (store w) (dto_question_id dto) = Some question /\
    student_assessment_responses (store w1)
      = (student_assessment_responses (store w) ++ [row])%list /\
    r_session_id row = s_id s /\ r_question_id row = dto_question_id dto /\
    r_selected_option_id row
      = StudentAssessmentService.or_null (dto_selected_option_id dto) /\
    r_text_answer row = StudentAssessmentService.or_null (dto_text_answer dto) /\
    StudentAssessmentService.submitResponse dto2 student w2 = (inl e, w3) /\
    student_assessment_responses (store w3) = student_assessment_responses (store w1) /\
    (past_expiry s (now w2) = false ->
     (exists scored,
        fst (StudentAssessmentService.validateAndScoreResponse question dto2 w2)
        = inr scored) ->
     e = BadRequestException "Response already submitted for this question" /\
     http_status e = 400 /\ w3 = w2) /\
    (past_expiry s (now w2) = false ->
     dto_selected_option_id dto2 = dto_selected_option_id dto ->
     dto_text_answer dto2 = dto_text_answer dto ->
     e = BadRequestException "Response already submitted for this question") /\
    (List.NoDup (response_keys (store w)) -> List.NoDup (response_keys (store w3))).
Proof.
  intros Hu H1 Hst Htok Hqid.
  pose proof (submitResponse_spec dto student w) as S1. rewrite H1 in S1.
  destruct S1 as (s & question & row & Hl & Hin & Hp & Hq & Hdup & Hw1 & Hrs & Hrq & Hsel
                  & Htxt & Hsc).
  assert (Hresp1 : student_assessment_responses (store w1)
                   = (student_assessment_responses (store w) ++ [row])%list)
    by (rewrite Hw1; reflexivity).
  assert (Hl2 : session_lookup (store w2) (dto_session_token dto2) student = Some s).
  { rewrite Hst, Hw1, Htok. exact Hl. }
  assert (Hq2 : question_lookup (store w2) (dto_question_id dto2) = Some question).
  { rewrite Hst, Hw1, Hqid. exact Hq. }
  assert (Hdup2 : existsb (same_response_key (s_id s) (dto_question_id dto2))
                          (student_assessment_responses (store w2)) = true).
  { rewrite Hst, Hresp1, Hqid. rewrite existsb_app. apply orb_true_iff. right.
    cbn. unfold same_response_key. rewrite Hrs, Hrq, !String.eqb_refl. reflexivity. }
  assert (Hconf : past_expiry s (now w2) = false ->
                  (exists scored,
                     fst (StudentAssessmentService.validateAndScoreResponse question dto2 w2)
                     = inr scored) ->
                  StudentAssessmentService.submitResponse dto2 student w2
                  = (inl (BadRequestException "Response already submitted for this question"),
                     w2)).
  { intros Hp2 [scored Hs2].
    apply (submitResponse_conflict dto2 student w2 s question scored); try assumption.
    rewrite Hst, Hw1. exact Hu. }
  pose proof (submitResponse_spec dto2 student w2) as S2.
  destruct (StudentAssessmentService.submitResponse dto2 student w2) as [[e|res2] w3] eqn:H2.
  - exists s, question, row, e, w3.
    assert (Hresp3 : student_assessment_responses (store w3)
                     = student_assessment_responses (store w1))
      by (rewrite S2, Hst; reflexivity).
    repeat (split; [assumption || reflexivity|]).
    split; [|split].
    + intros Hp2 Hs2. specialize (Hconf Hp2 Hs2). injection Hconf as -> ->.
      repeat split.
    + intros Hp2 Es Et.
      assert (Hs2 : exists scored,
                 fst (StudentAssessmentService.validateAndScoreResponse question dto2 w2)
                 = inr scored).
      { exists (r_is_correct row, r_points_earned row). rewrite <- Hsc.
        apply validateAndScoreResponse_ext; try assumption; rewrite Hst, Hw1; reflexivity. }
      specialize (Hconf Hp2 Hs2). injection Hconf as -> ->. reflexivity.
    + intros Hnd. unfold response_keys. rewrite Hresp3.
      pose proof (submitResponse_unique_keys dto student w Hu Hnd) as K.
      rewrite H1 in K. exact K.
  - exfalso. destruct S2 as (s' & q' & row' & Hl' & _ & _ & _ & Hdup' & _).
    rewrite Hl2 in Hl'. injection Hl' as <-.
    rewrite Hdup' in Hdup2 by (rewrite Hst, Hw1; exact Hu). discriminate.
Qed.

Lemma second_submission_rejected_witness :
  exists res w1 e w3,
    StudentAssessmentService.submitResponse (demo_dto "o2") "stu" demo_live_world
    = (inr res, w1) /\
    StudentAssessmentService.submitResponse (demo_dto "o1") "stu" (demo_world (store w1) 600)
    = (inl e, w3) /\
    e = BadRequestException "Response already submitted for this question" /\
    List.map r_selected_option_id (student_assessment_responses (store w3)) = [Some "o2"].
Proof.
  pose (first := StudentAssessmentService.submitResponse (demo_dto "o2") "stu" demo_live_world).
  pose (res := match fst first with
               | inr r => r
               | inl _ => {| sr_response_id := ""; sr_is_correct := false;
                             sr_points_earned := 0; sr_explanation := None;
                             sr_questions_answered := 0; sr_total_questions := None;
                             sr_time_remaining := 0 |}
               end).
  assert (H1 : StudentAssessmentService.submitResponse (demo_dto "o2") "stu" demo_live_world
               = (inr res, snd first)) by reflexivity.
  destruct (second_submission_rejected demo_live_world (snd first)
              (demo_world (store (snd first)) 600)
              (demo_dto "o2") (demo_dto "o1") "stu" res eq_refl H1 eq_refl eq_refl eq_refl)
    as (s & question & row & e & w3 & Hl & Hq & Hrow & _ & _ & Hsel & _ & H2 & H3 & Hc & _).
  exists res, (snd first), e, w3. split; [exact H1|]. split; [exact H2|].
  vm_compute in Hl. injection Hl as <-. vm_compute in Hq. injection Hq as <-.
  split.
  - apply Hc; [reflexivity|]. eexists. vm_compute. reflexivity.
  - rewrite H3. reflexivity.
Defined.

Lemma question_lookup_Some st id question :
  question_lookup st id = Some question ->
  In question (assessment_questions st) /\ q_id question = id.
Proof.
  unfold question_lookup. intros H.
  assert (Hin : In question (List.filter (fun q => q_id q =? id) (assessment_questions st))).
  { destruct (List.filter _ _) as [|x l]; [discriminate|]. injection H as ->. left. reflexivity. }
  apply List.filter_In in Hin. destruct Hin as [Hin Hid].
  split; [exact Hin | apply String.eqb_eq; exact Hid].
Qed.

(** C5 (as amended).  A [submitResponse] call whose question id resolves to
    no stored question is rejected and writes no response row (with the
    not-found error when the session is live); a response is accepted only
    for a question that exists in the question table. *)
Theorem unknown_question_rejected (w : World) (dto : SubmitResponseDto) (student : string) :
  (question_lookup (store w) (dto_question_id dto) = None ->
   (exists e w',
      StudentAssessmentService.submitResponse dto student w = (inl e, w') /\
      student_assessment_responses (store w') = student_assessment_responses (store w)) /\
   (forall s, session_lookup (store w) (dto_session_token dto) student = Some s ->
              s_status s = in_progress -> past_expiry s (now w) = false ->
              StudentAssessmentService.submitResponse dto student w
              = (inl (NotFoundException "Question not found"), w))) /\
  (forall res w',
     StudentAssessmentService.submitResponse dto student w = (inr res, w') ->
     exists question,
       In question (assessment_questions (store w)) /\
       q_id question = dto_question_id dto).
Proof.
  split.
  - apply submitResponse_unknown_question.
  - intros res w' H. pose proof (submitResponse_spec dto student w) as S. rewrite H in S.
    destruct S as (s & question & row & _ & _ & _ & Hq & _).
    exists question. apply question_lookup_Some. exact Hq.
Qed.

Lemma unknown_question_rejected_witness :
  StudentAssessmentService.submitResponse demo_dto_unknown "stu" demo_live_world
  = (inl (NotFoundException "Question not found"), demo_live_world).
Proof.
  apply (proj2 (proj1 (unknown_question_rejected demo_live_world demo_dto_unknown "stu")
                  eq_refl)
           (demo_session in_progress 1 "s1" "tok")); reflexivity.
Defined.

(** C5, counterexample to the claim as stated: q2 exists and is not linked
    to the template of the session, and the submission for it is accepted
    and stored. *)
Lemma unlinked_question_accepted_counterexample :
  ~ (forall (w : World) (dto : SubmitResponseDto) (student : string) (s : SessionRow),
       session_lookup (store w) (dto_session_token dto) student = Some s ->
       ~ In (dto_question_id dto) (template_question_ids (store w) (s_template_id s)) ->
       exists e w',
         StudentAssessmentService.submitResponse dto student w = (inl e, w') /\
         student_assessment_responses (store w') = student_assessment_responses (store w)).
Proof.
  intros H.
  destruct (H demo_live_world demo_dto_unlinked "stu" (demo_session in_progress 1 "s1" "tok")
              eq_refl) as (e & w' & E & _).
  - cbn. intros [E|[]]. discriminate.
  - vm_compute in E. discriminate.
Qed.

(* ===================================================================== *)
(** ** Starting an attempt *)
(* ===================================================================== *)

Section Start.

Import StudentAssessmentService.

Lemma getAssessmentTemplate_spec templateId studentId w :
  getAssessmentTemplate templateId studentId w
  = match template_lookup (store w) templateId with
    | None => (inl (template_not_found templateId), w)
    | Some t =>
        if negb (is_active t) || negb (is_public t)
        then (inl (ForbiddenException "This assessment is not available"), w)
        else (inr t, w)
    end.
Proof.
  unfold getAssessmentTemplate, template_lookup. run.
  destruct (head _) as [t|]; [|reflexivity].
  destruct (negb (is_active t) || negb (is_public t)); reflexivity.
Qed.

Lemma validateStudentCanStartAssessment_spec templateId studentId w :
  StudentAssessmentController.validateStudentCanStartAssessment templateId studentId w
  = match template_lookup (store w) templateId with
    | None => (inl (template_not_found templateId), w)
    | Some t =>
        if negb (is_active t) || negb (is_public t)
        then (inl (ForbiddenException "This assessment is not available"), w)
        else if (0 <? List.length (active_sessions (store w) templateId studentId))%nat
        then (inl (BadRequestException
                     "You already have an active session for this assessment"), w)
        else if cap_reached t (attempt_count (store w) templateId studentId)
        then (inl (cap_refusal t), w)
        else (inr tt, w)
    end.
Proof.
  unfold StudentAssessmentController.validateStudentCanStartAssessment.
  unfold bind at 1. rewrite getAssessmentTemplate_spec.
  destruct (template_lookup (store w) templateId) as [t|]; [|reflexivity].
  destruct (negb (is_active t) || negb (is_public t)) eqn:Hv; [reflexivity|].
  apply orb_false_iff in Hv. destruct Hv as [Ha _]. rewrite Ha.
  unfold getActiveSessionsForTemplate, getAttemptCount, cap_reached, cap_refusal. run.
  fold (active_sessions (store w) templateId studentId).
  destruct (List.length (active_sessions (store w) templateId studentId));
    cbn; [|reflexivity].
  destruct (max_attempts t) as [m|]; [|reflexivity].
  destruct (m =? 0)%Z; [reflexivity|]. cbn.
  fold (attempt_count (store w) templateId studentId).
  destruct (m <=? attempt_count (store w) templateId studentId)%Z; reflexivity.
Qed.

Lemma sequence_embed_pure l w : snd (sequence_embed l w) = w.
Proof.
  induction l as [|[q|] l IH]; simpl; try reflexivity.
  unfold bind. destruct (sequence_embed l w) as [[e|qs] w']; simpl in *; exact IH.
Qed.

Lemma getQuestionsForSession_store templateId randomize w :
  store (snd (getQuestionsForSession templateId randomize w)) = store w.
Proof.
  unfold getQuestionsForSession. run.
  pose proof (sequence_embed_pure
                (List.map (embed_question (store w))
                   (order_asc tq_order_index
                      (List.filter (fun tq => tq_template_id tq =? templateId)
                                   (assessment_template_questions (store w))))) w) as P.
  destruct (sequence_embed _ w) as [[e|qs] w']; cbn [snd] in P; subst w'; [reflexivity|].
  destruct randomize; [|reflexivity].
  destruct (service_shuffle_perm qs w) as (out & w' & E & _ & Hs & _).
  rewrite E. exact Hs.
Qed.

Lemma question_payloads_store randomize questions : forall index w,
  store (snd (question_payloads index randomize questions w)) = store w.
Proof.
  induction questions as [|q qs IH]; intros index w; [reflexivity|].
  cbn [question_payloads]. unfold bind at 1.
  destruct (prepareQuestionOptions_spec (sq_options q) randomize w)
    as (out & w1 & E & _ & Hs & _).
  rewrite E. unfold bind at 1. specialize (IH (index + 1) w1).
  destruct (question_payloads (index + 1) randomize qs w1) as [[e|tail] w2];
    unfold ret; cbn [snd] in *; rewrite IH; exact Hs.
Qed.

Local Opaque getQuestionsForSession question_payloads.

(** Once the template is available, the service's [startAssessment]
    records one new session, in progress, for this student and template,
    expiring after the template's time limit. *)
Lemma startAssessment_records_session templateId studentId w t :
  template_lookup (store w) templateId = Some t ->
  is_active t = true -> is_public t = true ->
  exists row,
    student_assessment_sessions (store (snd (startAssessment templateId studentId w)))
    = (student_assessment_sessions (store w) ++ [row])%list /\
    s_status row = in_progress /\ s_student_id row = studentId /\
    s_template_id row = templateId /\
    s_expires_at row = Some (now w + time_limit_minutes t * 60000)%Z.
Proof.
  intros Hl Ha Hp. unfold startAssessment. unfold bind at 1.
  rewrite getAssessmentTemplate_spec, Hl, Ha, Hp. cbn [negb orb].
  run.
  match goal with
  | |- context [getQuestionsForSession templateId ?r ?w'] =>
      pose proof (getQuestionsForSession_store templateId r w') as G;
      destruct (getQuestionsForSession templateId r w') as [[e|qs] w1]
  end; cbn [snd] in G.
  - eexists. cbn. rewrite G. cbn. split; [reflexivity|]. repeat split.
  - cbn.
    match goal with
    | |- context [question_payloads 0 ?r qs w1] =>
        pose proof (question_payloads_store r qs 0 w1) as Q;
        destruct (question_payloads 0 r qs w1) as [[e|ps] w2]
    end; cbn [snd] in Q; eexists; cbn; rewrite Q, G; cbn;
      (split; [reflexivity|]); repeat split.
Qed.

Local Transparent getQuestionsForSession question_payloads.

End Start.

(** C4 (as amended).  For an existing template, the start operation fails
    with HTTP 403 when the template is inactive or not public, with HTTP
    400 when the student already has an in_progress session for the
    template, and with HTTP 403 when the template sets a non-zero
    max_attempts and the student's recorded attempt count has reached it;
    in each case nothing is written.  Otherwise the validation passes and
    the service starts the attempt, recording a new in_progress session. *)
Theorem start_eligibility (w : World) (templateId studentId : string) (t : TemplateRow) :
  template_lookup (store w) templateId = Some t ->
  let start := StudentAssessmentController.startAssessment templateId studentId w in
  let active := active_sessions (store w) templateId studentId in
  let count := attempt_count (store w) templateId studentId in
  (is_active t = false \/ is_public t = false ->
   exists e, start = (inl e, w) /\ http_status e = 403) /\
  (is_active t = true -> is_public t = true -> active <> [] ->
   exists e, start = (inl e, w) /\ http_status e = 400) /\
  (is_active t = true -> is_public t = true -> active = [] ->
   cap_reached t count = true ->
   exists e, start = (inl e, w) /\ http_status e = 403) /\
  (is_active t = true -> is_public t = true -> active = [] ->
   cap_reached t count = false ->
   StudentAssessmentController.validateStudentCanStartAssessment templateId studentId w
   = (inr tt, w) /\
   start = StudentAssessmentService.startAssessment templateId studentId w /\
   exists row,
     student_assessment_sessions (store (snd start))
     = (student_assessment_sessions (store w) ++ [row])%list /\
     s_status row = in_progress /\ s_student_id row = studentId /\
     s_template_id row = templateId).
Proof.
  intros Hl start active count.
  pose proof (validateStudentCanStartAssessment_spec templateId studentId w) as V.
  rewrite Hl in V. fold active count in V.
  unfold start, StudentAssessmentController.startAssessment, bind.
  split; [|split; [|split]].
  - intros Hv. rewrite V.
    assert (E : negb (is_active t) || negb (is_public t) = true).
    { destruct Hv as [-> | ->]; [reflexivity | apply orb_true_r]. }
    rewrite E. eexists. split; reflexivity.
  - intros Ha Hp Hact. rewrite V, Ha, Hp. cbn [negb orb].
    destruct active as [|a l]; [congruence|]. cbn. eexists. split; reflexivity.
  - intros Ha Hp Hact Hcap. rewrite V, Ha, Hp, Hact, Hcap. cbn.
    eexists. split; reflexivity.
  - intros Ha Hp Hact Hcap. rewrite V, Ha, Hp, Hact, Hcap. cbn [negb orb].
    split; [reflexivity|]. split; [reflexivity|].
    destruct (startAssessment_records_session templateId studentId w t Hl Ha Hp)
      as (row & Hs & H1 & H2 & H3 & _).
    exists row. cbn. repeat split; assumption.
Qed.

Lemma start_eligibility_witness :
  (exists e,
     StudentAssessmentController.startAssessment "t1" "stu" demo_capped_world
     = (inl e, demo_capped_world) /\ http_status e = 403) /\
  (exists e,
     StudentAssessmentController.startAssessment "t1" "stu" demo_live_world
     = (inl e, demo_live_world) /\ http_status e = 400) /\
  (exists row,
     student_assessment_sessions
       (store (snd (StudentAssessmentController.startAssessment "t1" "stu" demo_retake_world)))
     = [demo_session completed 1 "s1" "tok1"; row] /\ s_status row = in_progress).
Proof.
  split; [|split].
  - apply (proj1 (proj2 (proj2 (start_eligibility demo_capped_world "t1" "stu"
                                  demo_template eq_refl)))); reflexivity.
  - apply (proj1 (proj2 (start_eligibility demo_live_world "t1" "stu"
                           demo_template eq_refl))); [reflexivity | reflexivity |].
    vm_compute. discriminate.
  - destruct (proj2 (proj2 (proj2 (start_eligibility demo_retake_world "t1" "stu"
                                     demo_template eq_refl)))
                eq_refl eq_refl eq_refl eq_refl) as (_ & _ & row & Hs & Hst & _).
    exists row. split; [exact Hs | exact Hst].
Defined.

(** C4, counterexample to the claim as stated: with the attempt cap reached
    the start operation fails with HTTP 403, not 400. *)
Lemma attempt_cap_status_counterexample :
  ~ (forall (w : World) (templateId studentId : string) (t : TemplateRow) (m : Z),
       template_lookup (store w) templateId = Some t ->
       max_attempts t = Some m ->
       (m <= attempt_count (store w) templateId studentId)%Z ->
       exists e w',
         StudentAssessmentController.startAssessment templateId studentId w = (inl e, w') /\
         http_status e = 400).
Proof.
  intros H.
  destruct (H demo_capped_world "t1" "stu" demo_template 2 eq_refl eq_refl)
    as (e & w' & E & Hs).
  - vm_compute. discriminate.
  - vm_compute in E. injection E as <- _. vm_compute in Hs. discriminate.
Qed.

(* ===================================================================== *)
(** ** What the student-facing answers carry *)
(* ===================================================================== *)

Section StudentView.

Import StudentAssessmentService.

(** The prepared options do not depend on the correctness flags or the
    explanations of the stored options, with or without shuffling. *)
Lemma prepareQuestionOptions_hides_correctness options options' randomize w :
  List.map strip_option options' = List.map strip_option options ->
  prepareQuestionOptions options' randomize w = prepareQuestionOptions options randomize w.
Proof.
  intros H. unfold prepareQuestionOptions.
  fold strip_option. change (fun option => strip_option option) with strip_option.
  rewrite H. reflexivity.
Qed.

(** The question list sent by [startAssessment] does not depend on the
    explanation of a question, nor on the correctness flags and
    explanations of its options. *)
Lemma question_payloads_hide_answers randomize qs qs' :
  Forall2 same_student_view qs qs' ->
  forall index w,
    question_payloads index randomize qs' w = question_payloads index randomize qs w.
Proof.
  induction 1 as [|q q' qs qs' Hq _ IH]; intros index w; [reflexivity|].
  destruct Hq as (H1 & H2 & H3 & H4 & H5 & H6 & H7 & H8).
  cbn [question_payloads]. unfold bind.
  rewrite (prepareQuestionOptions_hides_correctness _ _ randomize w H8).
  destruct (prepareQuestionOptions (sq_options q) randomize w) as [[e|o] w1];
    [reflexivity|].
  rewrite IH. rewrite H1, H2, H3, H4, H5, H6, H7. reflexivity.
Qed.

(** The answer of [getQuestionForSession] embeds the stored question row
    whole, its explanation included. *)
Lemma getQuestionForSession_embeds_row sessionToken questionId studentId w v w' :
  getQuestionForSession sessionToken questionId studentId w = (inr v, w') ->
  question_lookup (store w) questionId = Some (qv_question v).
Proof.
  unfold getQuestionForSession, bind at 1.
  pose proof (getAssessmentSession_frame w sessionToken studentId) as [_ Fv].
  destruct (getAssessmentSession sessionToken studentId w) as [[e|sv] w0];
    [discriminate|].
  destruct (Fv sv eq_refl) as (Hw & _). cbn [snd] in Hw. subst w0.
  unfold bind at 1, rest_get at 1, bind at 1, read at 1, ret at 1.
  unfold bind at 1, rest_get at 1, bind at 1, read at 1, ret at 1.
  cbn [ok json negb].
  fold (question_lookup (store w) questionId).
  destruct (question_lookup (store w) questionId) as [question|]; [|discriminate].
  unfold bind at 1, rest_get at 1, bind at 1, read at 1, ret at 1.
  destruct (sv_assessment_templates sv) as [template|]; [|discriminate].
  unfold bind at 1.
  destruct (prepareQuestionOptions _ _ w) as [[e|prepared] w1]; [discriminate|].
  unfold bind, get_now, ret. intros H. injection H as <- _. reflexivity.
Qed.

End StudentView.

(** C6, the code at a question with an explanation: the answer of
    [getQuestionForSession] carries the explanation of the question, while
    its options carry only id, text and image. *)
Theorem getQuestionForSession_returns_explanation :
  exists v w',
    StudentAssessmentService.getQuestionForSession "tok" "q1" "stu" demo_live_world
    = (inr v, w') /\
    q_explanation (qv_question v) = Some "x = 10 binds the name x to the value 10" /\
    qv_options v ≡ₚ List.map strip_option demo_options.
Proof.
  eexists _, _. split; [vm_compute; reflexivity|]. split; [reflexivity|].
  cbn [qv_options]. apply Permutation_swap.
Qed.

(* ===================================================================== *)
(** ** Further properties: reading and finishing a session *)
(* ===================================================================== *)





(** X1.  An in-progress session read after its expiry time: the read is
    refused as expired and changes nothing but the status of the rows with
    that session's id, which becomes expired; the token then resolves to the
    expired row, and every later read, at whatever time, is refused without
    a write. *)
Theorem session_expires_once (w : World) (token student : string) (s : SessionRow) :
  session_lookup (store w) token student = Some s ->
  s_status s = in_progress ->
  past_expiry s (now w) = true ->
  StudentAssessmentService.getAssessmentSession token student w
  = (inl (ForbiddenException "Assessment session has expired"),
     with_store w (expire_store (s_id s) (store w))) /\
  session_lookup (expire_store (s_id s) (store w)) token student
  = Some (set_status expired s) /\
  student_assessment_responses (expire_store (s_id s) (store w))
  = student_assessment_responses (store w) /\
  (forall r, In r (student_assessment_sessions (store w)) -> s_id r <> s_id s ->
             In r (student_assessment_sessions (expire_store (s_id s) (store w)))) /\
  (forall w2, store w2 = expire_store (s_id s) (store w) ->
              StudentAssessmentService.getAssessmentSession token student w2
              = (inl (ForbiddenException "Assessment session has expired"), w2)).
Proof.
  intros H Hs Hp.
  pose proof (session_lookup_expire_store (store w) token student s H) as L.
  split; [apply getAssessmentSession_past; [exact H | congruence | exact Hp]|].
  split; [exact L|]. split; [reflexivity|]. split.
  - intros r Hin Hne. unfold expire_store. cbn. apply in_map_iff. exists r.
    split; [|exact Hin]. apply String.eqb_neq in Hne. rewrite Hne. reflexivity.
  - intros w2 Hst. apply (getAssessmentSession_expired w2 token student (set_status expired s)).
    + rewrite Hst. exact L.
    + reflexivity.
Qed.

Lemma session_expires_once_witness :
  let w := demo_world (demo_store [demo_session in_progress 1 "s1" "tok"] []) 2000 in
  student_assessment_sessions
    (store (snd (StudentAssessmentService.getAssessmentSession "tok" "stu" w)))
  = [demo_session expired 1 "s1" "tok"].
Proof.
  exact (eq_trans
           (f_equal (fun r => student_assessment_sessions (store (snd r)))
              (proj1 (session_expires_once
                        (demo_world (demo_store [demo_session in_progress 1 "s1" "tok"] []) 2000)
                        "tok" "stu" (demo_session in_progress 1 "s1" "tok")
                        eq_refl eq_refl eq_refl)))
           eq_refl).
Defined.

(** X2.  [finishAssessment] on a session that is not active never completes
    it.  A session stored as expired: refused as expired, nothing written.
    A session past its expiry time and not yet stored as expired: refused
    as expired, and its status is set to expired.  A completed session
    before its expiry time: refused as not active, nothing written. *)
Theorem finish_rejects_inactive_session (w : World) (token student : string) (s : SessionRow) :
  session_lookup (store w) token student = Some s ->
  (s_status s = expired ->
   StudentAssessmentService.finishAssessment token student w
   = (inl (ForbiddenException "Assessment session has expired"), w)) /\
  (s_status s <> expired -> past_expiry s (now w) = true ->
   StudentAssessmentService.finishAssessment token student w
   = (inl (ForbiddenException "Assessment session has expired"),
      with_store w (expire_store (s_id s) (store w)))) /\
  (s_status s = completed -> past_expiry s (now w) = false ->
   StudentAssessmentService.finishAssessment token student w
   = (inl (BadRequestException "Cannot finish non-active session"), w)).
Proof.
  intros H. split; [|split].
  - intros Hs. apply (finish_expired_rejected w token student s H Hs).
  - intros Hs Hp. unfold StudentAssessmentService.finishAssessment, bind.
    rewrite (getAssessmentSession_past w token student s H Hs Hp). reflexivity.
  - intros Hs Hp. apply (finish_completed_rejected w token student s H Hs Hp).
Qed.

Lemma finish_rejects_inactive_session_witness :
  StudentAssessmentService.finishAssessment "tok1" "stu"
    (demo_world (demo_store [demo_session completed 1 "s1" "tok1"] []) 500)
  = (inl (BadRequestException "Cannot finish non-active session"),
     demo_world (demo_store [demo_session completed 1 "s1" "tok1"] []) 500).
Proof.
  exact (proj2 (proj2 (finish_rejects_inactive_session
                         (demo_world (demo_store [demo_session completed 1 "s1" "tok1"] []) 500)
                         "tok1" "stu" (demo_session completed 1 "s1" "tok1") eq_refl))
           eq_refl eq_refl).
Defined.





(* ===================================================================== *)
(** ** Further properties: submitting and scoring a response *)
(* ===================================================================== *)

(** The outcome of [submitResponse] on a live session, for a question that
    exists, when scoring succeeds and the store accepts the insert. *)
Lemma submitResponse_live dto student w s question c p :
  session_lookup (store w) (dto_session_token dto) student = Some s ->
  s_status s = in_progress -> past_expiry s (now w) = false ->
  question_lookup (store w) (dto_question_id dto) = Some question ->
  fst (StudentAssessmentService.validateAndScoreResponse question dto w) = inr (c, p) ->
  responses_unique (store w)
  && existsb (same_response_key (s_id s) (dto_question_id dto))
             (student_assessment_responses (store w)) = false ->
  StudentAssessmentService.submitResponse dto student w
  = (inr {| sr_response_id := uuid w (uuid_pos w);
            sr_is_correct := c;
            sr_points_earned := p;
            sr_explanation := StudentAssessmentService.or_null (q_explanation question);
            sr_questions_answered := S (List.length (responses_of_session (store w) (s_id s)));
            sr_total_questions := s_total_questions s;
            sr_time_remaining :=
              StudentAssessmentService.time_remaining (s_expires_at s) (now w) |},
     after_insert w
       (set_responses (student_assessment_responses (store w)
                       ++ [stored_response w (s_id s) dto c p])%list (store w))).
Proof.
  intros Hl Hst Hp Hq Hsc Hdup.
  unfold StudentAssessmentService.submitResponse, bind at 1.
  rewrite (getAssessmentSession_live w _ student s Hl) by (congruence || assumption).
  cbn [sv_session sv_responses]. rewrite Hst. cbn [session_status_eqb negb].
  unfold bind at 1. unfold rest_get at 1. unfold bind at 1, read at 1, ret at 1.
  cbn [json]. fold (question_lookup (store w) (dto_question_id dto)). rewrite Hq.
  unfold bind at 1.
  pose proof (validateAndScoreResponse_pure question dto w) as Hpure.
  destruct (StudentAssessmentService.validateAndScoreResponse question dto w) as [r w1].
  cbn [fst snd] in Hsc, Hpure. subst r w1.
  unfold bind at 1, get_now at 1.
  unfold bind at 1, post_response at 1, bind at 1, read at 1, bind at 1, read at 1.
  cbn [r_session_id r_question_id]. rewrite Hdup.
  unfold responses_of_session, stored_response, after_insert.
  cbn. rewrite Nat.add_1_r. reflexivity.
Qed.

Lemma filter_snoc_length {A} (p : A -> bool) (l : list A) (x : A) :
  p x = true -> List.length (List.filter p (l ++ [x])%list) = S (List.length (List.filter p l)).
Proof.
  intros H. rewrite List.filter_app, List.length_app. cbn. rewrite H. cbn. lia.
Qed.

(** X5.  One call of [submitResponse] is all or nothing, and what it
    reports is what it stored.  When it throws, the response table is as
    before.  When it returns, exactly one row was appended, for the session
    behind the token and the question of the request, with the request's
    time spent and the time of the call; the returned response id, verdict
    and points are those of the stored row, and the returned
    questions_answered is the number of responses then stored for the
    session. *)
Theorem submitResponse_reports_stored_row (dto : SubmitResponseDto) (student : string)
    (w : World) :
  match StudentAssessmentService.submitResponse dto student w with
  | (inl e, w') =>
      student_assessment_responses (store w') = student_assessment_responses (store w)
  | (inr res, w') =>
      exists s row,
        session_lookup (store w) (dto_session_token dto) student = Some s /\
        store w'
        = set_responses (student_assessment_responses (store w) ++ [row])%list (store w) /\
        r_session_id row = s_id s /\
        r_question_id row = dto_question_id dto /\
        r_time_spent_seconds row = dto_time_spent_seconds dto /\
        r_answered_at row = now w /\
        sr_response_id res = r_id row /\
        sr_is_correct res = r_is_correct row /\
        sr_points_earned res = r_points_earned row /\
        sr_questions_answered res = List.length (responses_of_session (store w') (s_id s))
  end.
Proof.
  pose proof (submitResponse_spec dto student w) as S.
  destruct (StudentAssessmentService.submitResponse dto student w) as [[e|res] w'] eqn:E.
  - exact S.
  - destruct S as (s & question & row & Hl & Hst & Hp & Hq & Hdup & _ & _ & _ & _ & _ & Hsc).
    assert (D : responses_unique (store w)
                && existsb (same_response_key (s_id s) (dto_question_id dto))
                     (student_assessment_responses (store w)) = false).
    { destruct (responses_unique (store w)); [apply Hdup; reflexivity | reflexivity]. }
    rewrite (submitResponse_live dto student w s question _ _ Hl Hst Hp Hq Hsc D) in E.
    injection E as <- <-.
    exists s, (stored_response w (s_id s) dto (r_is_correct row) (r_points_earned row)).
    split; [exact Hl|]. repeat (split; [reflexivity|]).
    cbn [sr_questions_answered]. unfold responses_of_session at 2.
    cbn [store after_insert student_assessment_responses set_responses].
    rewrite filter_snoc_length; [reflexivity|]. cbn. apply String.eqb_refl.
Qed.

(** X6.  Points follow the verdict.  Whenever [validateAndScoreResponse]
    returns, it has written nothing, and the points earned are the
    question's points_value (1 when that is null or 0) for a correct
    response and 0 for an incorrect one. *)
Theorem points_follow_verdict (question : QuestionRow) (dto : SubmitResponseDto)
    (w w' : World) (isCorrect : bool) (pointsEarned : Z) :
  StudentAssessmentService.validateAndScoreResponse question dto w
  = (inr (isCorrect, pointsEarned), w') ->
  w' = w /\
  pointsEarned
  = (if isCorrect
     then match points_value question with
          | Some 0 | None => 1
          | Some n => n
          end
     else 0).
Proof.
  intros H. pose proof (validateAndScoreResponse_pure question dto w) as P.
  rewrite H in P. cbn [snd] in P. split; [exact P|]. clear P. revert H.
  assert (Hp : StudentAssessmentService.points_or_1 question
               = match points_value question with Some 0 | None => 1 | Some n => n end).
  { unfold StudentAssessmentService.points_or_1.
    destruct (points_value question) as [[|n|n]|]; reflexivity. }
  rewrite <- Hp.
  unfold StudentAssessmentService.validateAndScoreResponse, StudentAssessmentService.lift.
  run. break_match; intros H; inversion H; subst; reflexivity.
Qed.

Lemma points_follow_verdict_witness :
  demo_live_world = demo_live_world /\
  2 = (if true
       then match points_value demo_q1 with
            | Some 0 | None => 1
            | Some n => n
            end
       else 0).
Proof.
  exact (points_follow_verdict demo_q1 (demo_dto "o2") demo_live_world demo_live_world
           true 2 eq_refl).
Defined.



(** Every return of [submitResponse] is the outcome of [submitResponse_live]. *)
Lemma submitResponse_outcome dto student w res w' :
  StudentAssessmentService.submitResponse dto student w = (inr res, w') ->
  exists s question c p,
    session_lookup (store w) (dto_session_token dto) student = Some s /\
    s_status s = in_progress /\ past_expiry s (now w) = false /\
    question_lookup (store w) (dto_question_id dto) = Some question /\
    fst (StudentAssessmentService.validateAndScoreResponse question dto w) = inr (c, p) /\
    sr_is_correct res = c /\ sr_points_earned res = p /\
    sr_response_id res = uuid w (uuid_pos w) /\
    w' = after_insert w
           (set_responses (student_assessment_responses (store w)
                           ++ [stored_response w (s_id s) dto c p])%list (store w)).
Proof.
  intros E. pose proof (submitResponse_spec dto student w) as S. rewrite E in S.
  destruct S as (s & question & row & Hl & Hst & Hp & Hq & Hdup & _ & _ & _ & _ & _ & Hsc).
  assert (D : responses_unique (store w)
              && existsb (same_response_key (s_id s) (dto_question_id dto))
                   (student_assessment_responses (store w)) = false).
  { destruct (responses_unique (store w)); [apply Hdup; reflexivity | reflexivity]. }
  rewrite (submitResponse_live dto student w s question _ _ Hl Hst Hp Hq Hsc D) in E.
  injection E as <- <-.
  exists s, question, (r_is_correct row), (r_points_earned row).
  repeat (split; [assumption || reflexivity|]). reflexivity.
Qed.

Lemma truthy_not_empty s : JS.truthy s = true -> s <> "".
Proof. intros H ->. discriminate. Qed.



(** X9.  An answer of the wrong kind is not refused: it is stored as
    incorrect.  For a live session and an existing question, when the
    request carries no option id for a choice question, or no text for a
    text question, or the question has a type that is neither, and the
    store accepts the insert, [submitResponse] returns with an incorrect
    verdict and 0 points and appends the row with that verdict. *)
Theorem mismatched_answer_kind_stored_incorrect (dto : SubmitResponseDto)
    (student : string) (w : World) (s : SessionRow) (question : QuestionRow) :
  session_lookup (store w) (dto_session_token dto) student = Some s ->
  s_status s = in_progress -> past_expiry s (now w) = false ->
  question_lookup (store w) (dto_question_id dto) = Some question ->
  responses_unique (store w)
  && existsb (same_response_key (s_id s) (dto_question_id dto))
             (student_assessment_responses (store w)) = false ->
  (StudentAssessmentService.is_mcq_type (question_type question) = true /\
   StudentAssessmentService.truthy_str (dto_selected_option_id dto) = false) \/
  (StudentAssessmentService.is_mcq_type (question_type question) = false /\
   StudentAssessmentService.is_text_type (question_type question) = true /\
   StudentAssessmentService.truthy_str (dto_text_answer dto) = false) \/
  (StudentAssessmentService.is_mcq_type (question_type question) = false /\
   StudentAssessmentService.is_text_type (question_type question) = false) ->
  exists res w',
    StudentAssessmentService.submitResponse dto student w = (inr res, w') /\
    sr_is_correct res = false /\ sr_points_earned res = 0 /\
    student_assessment_responses (store w')
    = (student_assessment_responses (store w)
       ++ [stored_response w (s_id s) dto false 0])%list.
Proof.
  intros Hl Hst Hp Hq Hdup Hkind.
  assert (Hsc : fst (StudentAssessmentService.validateAndScoreResponse question dto w)
                = inr (false, 0)).
  { unfold StudentAssessmentService.validateAndScoreResponse,
      StudentAssessmentService.truthy_str in *.
    destruct Hkind as [[Hm Hs]|[(Hm & Ht & Hs)|[Hm Ht]]]; rewrite Hm; try rewrite Ht.
    - destruct (dto_selected_option_id dto) as [sel|]; [rewrite Hs|]; reflexivity.
    - destruct (dto_text_answer dto) as [text|]; [rewrite Hs|]; reflexivity.
    - reflexivity. }
  eexists _, _. split; [apply (submitResponse_live dto student w s question _ _
                                 Hl Hst Hp Hq Hsc Hdup)|].
  repeat split.
Qed.

Lemma mismatched_answer_kind_stored_incorrect_witness :
  exists res w',
    StudentAssessmentController.submitResponse demo_dto_text_for_choice "stu" demo_live_world
    = (inr res, w') /\
    sr_is_correct res = false /\
    List.map r_is_correct (student_assessment_responses (store w')) = [false].
Proof.
  destruct (mismatched_answer_kind_stored_incorrect demo_dto_text_for_choice "stu"
              demo_live_world (demo_session in_progress 1 "s1" "tok") demo_q1
              eq_refl eq_refl eq_refl eq_refl eq_refl (or_introl (conj eq_refl eq_refl)))
    as (res & w' & E & Hc & _ & Hrows).
  exists res, w'. split; [|split; [exact Hc|]].
  - unfold StudentAssessmentController.submitResponse, bind. cbn. exact E.
  - rewrite Hrows. reflexivity.
Defined.

(* ===================================================================== *)
(** ** Further properties: starting an attempt *)
(* ===================================================================== *)

Section StartOutcome.

Import StudentAssessmentService.

Lemma insert_by_Permutation {A} (key : A -> Z) (x : A) (l : list A) :
  insert_by key x l ≡ₚ x :: l.
Proof.
  induction l as [|y l IH]; simpl; [reflexivity|].
  destruct (key x <=? key y)%Z; [reflexivity|].
  rewrite IH. apply Permutation_swap.
Qed.

Lemma order_asc_Permutation {A} (key : A -> Z) (l : list A) : order_asc key l ≡ₚ l.
Proof.
  induction l as [|x l IH]; simpl; [reflexivity|].
  unfold order_asc in *. simpl. rewrite insert_by_Permutation, IH. reflexivity.
Qed.

(** The first row of [order_asc] carries a least key. *)
Lemma order_asc_head {A} (key : A -> Z) (l : list A) :
  match order_asc key l with
  | [] => l = []
  | a :: _ => In a l /\ forall b, In b l -> (key a <= key b)%Z
  end.
Proof.
  induction l as [|x l IH]; [reflexivity|].
  unfold order_asc in *. simpl.
  destruct (List.fold_right (insert_by key) [] l) as [|a k].
  - subst l. simpl. split; [left; reflexivity|]. intros b [<-|[]]. lia.
  - destruct IH as [Ha Hmin]. simpl.
    destruct (key x <=? key a)%Z eqn:C.
    + apply Z.leb_le in C. split; [left; reflexivity|].
      intros b [<-|Hb]; [lia|]. specialize (Hmin b Hb). lia.
    + apply Z.leb_gt in C. split; [right; exact Ha|].
      intros b [<-|Hb]; [lia|]. apply Hmin. exact Hb.
Qed.

Lemma sequence_embed_Some l : forall w qs w',
  sequence_embed l w = (inr qs, w') -> w' = w /\ l = List.map Some qs.
Proof.
  induction l as [|[q|] l IH]; intros w qs w'; simpl.
  - intros H. injection H as <- <-. split; reflexivity.
  - unfold bind. destruct (sequence_embed l w) as [[e|qs0] w0] eqn:E; [discriminate|].
    unfold ret. intros H. injection H as <- <-.
    destruct (IH w qs0 w0 E) as [-> ->]. split; reflexivity.
  - discriminate.
Qed.

Lemma embed_question_Some st tq q :
  embed_question st tq = Some q ->
  q_id (sq_question q) = tq_question_id tq /\
  List.map strip_option (sq_options q) = student_options st (q_id (sq_question q)).
Proof.
  unfold embed_question.
  destruct (List.find _ (assessment_questions st)) as [row|] eqn:F; [|discriminate].
  intros H. injection H as <-. apply List.find_some in F. destruct F as [_ F].
  apply String.eqb_eq in F. split; [exact F | reflexivity].
Qed.

Lemma embedded_ids st links qs :
  List.map (embed_question st) links = List.map Some qs ->
  List.map (fun q => q_id (sq_question q)) qs = List.map tq_question_id links /\
  Forall (fun q => List.map strip_option (sq_options q)
                   = student_options st (q_id (sq_question q))) qs.
Proof.
  revert qs. induction links as [|tq links IH]; intros [|q qs] H; try discriminate.
  - split; [reflexivity | constructor].
  - simpl in H. injection H as Hq Hr. destruct (IH qs Hr) as [I1 I2].
    destruct (embed_question_Some st tq q Hq) as [E1 E2].
    split; [simpl; rewrite E1, I1; reflexivity | constructor; assumption].
Qed.

(** The questions of a session: those linked to the template, each with
    its own options, in link order unless shuffled. *)
Lemma getQuestionsForSession_result templateId randomize w qs w1 :
  getQuestionsForSession templateId randomize w = (inr qs, w1) ->
  List.map (fun q => q_id (sq_question q)) qs
  ≡ₚ List.map tq_question_id (ordered_links (store w) templateId) /\
  (randomize = false ->
   List.map (fun q => q_id (sq_question q)) qs
   = List.map tq_question_id (ordered_links (store w) templateId)) /\
  Forall (fun q => List.map strip_option (sq_options q)
                   = student_options (store w) (q_id (sq_question q))) qs.
Proof.
  unfold getQuestionsForSession. run. fold (ordered_links (store w) templateId).
  destruct (sequence_embed _ w) as [[e|qs0] w0] eqn:E; [discriminate|].
  apply sequence_embed_Some in E. destruct E as [-> E].
  apply embedded_ids in E. destruct E as [E1 E2].
  destruct randomize.
  - destruct (service_shuffle_perm qs0 w) as (out & w' & S & P & _).
    rewrite S. intros H. injection H as <- <-.
    split; [rewrite P, E1; reflexivity|]. split; [discriminate|].
    rewrite List.Forall_forall in *. intros q Hq. apply E2.
    apply (Permutation_in _ P). exact Hq.
  - intros H. injection H as <- <-.
    split; [rewrite E1; reflexivity|]. split; [intros _; exact E1 | exact E2].
Qed.

(** The payload list: one entry per question, in the same order, numbered
    from [index + 1], with the question's stripped options in some order. *)
Lemma question_payloads_shape randomize questions : forall index w ps w',
  question_payloads index randomize questions w = (inr ps, w') ->
  List.map qp_id ps = List.map (fun q => q_id (sq_question q)) questions /\
  List.map qp_question_number ps
  = List.map (fun k => index + Z.of_nat k) (seq 1 (List.length questions)) /\
  Forall2 (fun q qp => qp_options qp ≡ₚ List.map strip_option (sq_options q)) questions ps.
Proof.
  induction questions as [|q qs IH]; intros index w ps w'.
  - cbn. unfold ret. intros H. injection H as <- <-. repeat split. constructor.
  - cbn [question_payloads]. unfold bind at 1.
    destruct (prepareQuestionOptions_spec (sq_options q) randomize w)
      as (out & w1 & E & P & _).
    rewrite E. unfold bind at 1.
    destruct (question_payloads (index + 1) randomize qs w1) as [[e|tail] w2] eqn:T;
      [discriminate|].
    unfold ret. intros H. injection H as <- <-.
    destruct (IH _ _ _ _ T) as (I1 & I2 & I3).
    split; [cbn; rewrite I1; reflexivity|]. split.
    + cbn [List.map List.length seq qp_question_number]. f_equal.
      rewrite I2. rewrite <- (List.seq_shift (List.length qs) 1), List.map_map.
      apply List.map_ext. intros k. lia.
    + constructor; [exact P | exact I3].
Qed.

Local Opaque getQuestionsForSession question_payloads.

(** Every return of [startAssessment]: the template was available, one
    session row was appended, and the payload describes that row and the
    questions fetched after the insert. *)
Lemma startAssessment_outcome templateId studentId w p w' :
  startAssessment templateId studentId w = (inr p, w') ->
  exists t qs w0 w1,
    template_lookup (store w) templateId = Some t /\
    is_active t = true /\ is_public t = true /\
    store w0 = set_sessions (student_assessment_sessions (store w)
                             ++ [started_session w templateId studentId t])%list (store w) /\
    getQuestionsForSession templateId (randomize_questions t) w0 = (inr qs, w1) /\
    question_payloads 0 (randomize_options t) qs w1 = (inr (sp_questions p), w') /\
    store w' = store w0 /\
    sp_session_token p = uuid w (uuid_pos w) /\
    sp_session_id p = uuid w (S (uuid_pos w)) /\
    sp_template p = t /\
    sp_expires_at p = now w + time_limit_minutes t * 60000 /\
    sp_total_questions p = List.length qs /\
    sp_attempt_number p = next_attempt_number (store w) templateId studentId.
Proof.
  unfold startAssessment. unfold bind at 1.
  rewrite getAssessmentTemplate_spec.
  destruct (template_lookup (store w) templateId) as [t|] eqn:Hl; [|discriminate].
  destruct (is_active t) eqn:Ha; [|discriminate].
  destruct (is_public t) eqn:Hp; [|discriminate].
  cbn [negb orb]. run.
  assert (Hn : match
                 List.firstn 1
                   (order_asc (fun s => - s_attempt_number s)
                      (List.filter
                         (fun s => (s_student_id s =? studentId)
                                   && (s_template_id s =? templateId))
                         (student_assessment_sessions (store w))))
               with
               | a :: _ => s_attempt_number a + 1
               | [] => 1
               end = next_attempt_number (store w) templateId studentId).
  { unfold next_attempt_number, student_attempts.
    destruct (order_asc _ _) as [|a l]; reflexivity. }
  unfold order_asc in Hn. rewrite Hn.
  match goal with
  | |- context [getQuestionsForSession templateId ?r ?w0] =>
      pose proof (getQuestionsForSession_store templateId r w0) as G;
      destruct (getQuestionsForSession templateId r w0) as [[e|qs] w1] eqn:Q;
      [discriminate|]; cbn [snd] in G;
      pose proof (question_payloads_store (randomize_options t) qs 0 w1) as Hst;
      destruct (question_payloads 0 (randomize_options t) qs w1) as [[e|ps] w2] eqn:P;
      [discriminate|]; cbn [snd] in Hst;
      intros H; injection H as <- <-;
      exists t, qs, w0, w1
  end.
  split; [reflexivity|]. split; [exact Ha|]. split; [exact Hp|].
  split; [reflexivity|]. split; [exact Q|]. split; [exact P|].
  split; [rewrite Hst; exact G|]. repeat split.
Qed.

Local Transparent getQuestionsForSession question_payloads.

End StartOutcome.

Lemma options_by_id st qs ps :
  Forall2 (fun q qp => qp_options qp ≡ₚ List.map strip_option (sq_options q)) qs ps ->
  List.map qp_id ps = List.map (fun q => q_id (sq_question q)) qs ->
  Forall (fun q => List.map strip_option (sq_options q)
                   = student_options st (q_id (sq_question q))) qs ->
  Forall (fun qp => qp_options qp ≡ₚ student_options st (qp_id qp)) ps.
Proof.
  induction 1 as [|q qp qs ps Hq _ IH]; intros Hid Hop; [constructor|].
  simpl in Hid. injection Hid as Hi Hid. inversion Hop as [|? ? Ho Hos]; subst.
  constructor; [rewrite Hq, Ho, Hi; reflexivity | apply IH; assumption].
Qed.

(** X10.  What a successful start sends.  The payload's total_questions is
    the number of questions listed; the questions are numbered 1, 2, ... in
    the order sent; their ids are the question ids linked to the template,
    each link once, in ascending order_index when the template does not
    randomize questions and in some order when it does; and each question
    carries, in some order, exactly the stored options of that question,
    cut down to id, text and image. *)
Theorem start_payload_lists_template_questions (templateId studentId : string)
    (w w' : World) (p : StartPayload) :
  StudentAssessmentService.startAssessment templateId studentId w = (inr p, w') ->
  sp_total_questions p = List.length (sp_questions p) /\
  List.map qp_question_number (sp_questions p)
  = List.map Z.of_nat (seq 1 (List.length (sp_questions p))) /\
  List.map qp_id (sp_questions p) ≡ₚ template_question_ids (store w) templateId /\
  (randomize_questions (sp_template p) = false ->
   List.map qp_id (sp_questions p)
   = List.map tq_question_id (ordered_links (store w) templateId)) /\
  Forall (fun qp => qp_options qp ≡ₚ student_options (store w) (qp_id qp))
         (sp_questions p).
Proof.
  intros H. apply startAssessment_outcome in H.
  destruct H as (t & qs & w0 & w1 & _ & _ & _ & Hs & Q & P & _ & _ & _ & Ht & _ & Hn & _).
  apply getQuestionsForSession_result in Q. destruct Q as (Q1 & Q2 & Q3).
  apply question_payloads_shape in P. destruct P as (P1 & P2 & P3).
  assert (Hlinks : ordered_links (store w0) templateId = ordered_links (store w) templateId)
    by (unfold ordered_links; rewrite Hs; reflexivity).
  assert (Hopts : forall id, student_options (store w0) id = student_options (store w) id)
    by (intros id; unfold student_options; rewrite Hs; reflexivity).
  rewrite Hlinks in Q1, Q2.
  assert (Hlen : List.length (sp_questions p) = List.length qs).
  { rewrite <- (List.length_map qp_id), P1, List.length_map. reflexivity. }
  split; [congruence|]. split.
  { rewrite P2, Hlen. apply List.map_ext. intros k. lia. }
  split.
  { rewrite P1, Q1. unfold template_question_ids, ordered_links.
    rewrite order_asc_Permutation. reflexivity. }
  split.
  { rewrite Ht. intros Hr. rewrite P1. apply Q2. exact Hr. }
  apply (options_by_id (store w) qs); [exact P3 | exact P1 |].
  eapply List.Forall_impl; [|exact Q3]. intros q Hq. cbn beta in Hq.
  rewrite Hq. apply Hopts.
Qed.

Lemma start_payload_lists_template_questions_witness :
  exists p w',
    StudentAssessmentService.startAssessment "t1" "stu" demo_retake_world = (inr p, w') /\
    sp_total_questions p = 1%nat /\
    List.map qp_question_number (sp_questions p) = [1] /\
    List.map qp_id (sp_questions p) = ["q1"].
Proof.
  eexists _, _. split; [vm_compute; reflexivity|].
  destruct (start_payload_lists_template_questions "t1" "stu" demo_retake_world _ _ eq_refl)
    as (H1 & H2 & _ & H4 & _).
  split; [exact H1|]. split; [exact H2|]. exact (H4 eq_refl).
Defined.

(** X11.  Attempt numbers go up.  A successful start numbers the new
    attempt 1 when the student has no recorded session for the template,
    and otherwise one more than the attempt number of one of them; in both
    cases the new number is greater than the attempt number of every
    session the student has recorded for the template, and it is the
    attempt number of the row stored for the new session. *)
Theorem start_attempt_number_is_next (templateId studentId : string)
    (w w' : World) (p : StartPayload) :
  StudentAssessmentService.startAssessment templateId studentId w = (inr p, w') ->
  let prior := student_attempts (store w) templateId studentId in
  (prior = [] -> sp_attempt_number p = 1) /\
  (prior <> [] ->
   exists a, In a prior /\ sp_attempt_number p = s_attempt_number a + 1) /\
  (forall b, In b prior -> s_attempt_number b < sp_attempt_number p) /\
  (exists row,
     student_assessment_sessions (store w')
     = (student_assessment_sessions (store w) ++ [row])%list /\
     s_id row = sp_session_id p /\ s_attempt_number row = sp_attempt_number p).
Proof.
  intros H prior. apply startAssessment_outcome in H.
  destruct H as (t & qs & w0 & w1 & _ & _ & _ & Hs & _ & _ & Hw & _ & Hid & _ & _ & _ & Hn).
  rewrite Hn. unfold next_attempt_number. fold prior.
  pose proof (order_asc_head (fun s => - s_attempt_number s) prior) as O.
  destruct (order_asc (fun s => - s_attempt_number s) prior) as [|a l] eqn:E.
  - split; [reflexivity|]. split; [congruence|]. split.
    + intros b Hb. rewrite O in Hb. destruct Hb.
    + eexists. rewrite Hw, Hs. split; [reflexivity|]. split; [symmetry; exact Hid|].
      cbn. unfold next_attempt_number. fold prior. rewrite E. reflexivity.
  - destruct O as [Ha Hmin]. split; [intros ->; destruct Ha|].
    split; [intros _; exists a; split; [exact Ha | reflexivity]|]. split.
    + intros b Hb. specialize (Hmin b Hb). cbn beta in Hmin. lia.
    + eexists. rewrite Hw, Hs. split; [reflexivity|]. split; [symmetry; exact Hid|].
      cbn. unfold next_attempt_number. fold prior. rewrite E. reflexivity.
Qed.

Lemma start_attempt_number_is_next_witness :
  exists p w',
    StudentAssessmentService.startAssessment "t1" "stu" demo_retake_world = (inr p, w') /\
    sp_attempt_number p = 2.
Proof.
  eexists _, _. split; [vm_compute; reflexivity|].
  destruct (start_attempt_number_is_next "t1" "stu" demo_retake_world _ _ eq_refl)
    as (_ & H & _).
  destruct H as (a & Ha & Hp); [vm_compute; discriminate|].
  vm_compute in Ha. destruct Ha as [<-|[]]. exact (eq_trans Hp eq_refl).
Defined.

Lemma find_head_filter {A} (p : A -> bool) (l : list A) :
  List.find p l = head (List.filter p l).
Proof.
  induction l as [|x l IH]; [reflexivity|]. simpl. destruct (p x); [reflexivity | exact IH].
Qed.

Lemma filter_none {A} (p : A -> bool) (l : list A) :
  (forall x, In x l -> p x = false) -> List.filter p l = [].
Proof.
  intros H. induction l as [|x l IH]; [reflexivity|]. simpl.
  rewrite (H x) by (left; reflexivity). apply IH. intros y Hy. apply H. right. exact Hy.
Qed.



(** X13.  One session in progress per template.  After a successful start,
    a request to start the same template again for the same student, over
    the store the start left, is refused with the active-session error
    (status 400) and writes nothing, at whatever time it comes: the session
    blocks a new start for as long as its stored status is in_progress. *)
Theorem active_session_blocks_new_start (templateId studentId : string)
    (w w' w2 : World) (p : StartPayload) :
  StudentAssessmentService.startAssessment templateId studentId w = (inr p, w') ->
  store w2 = store w' ->
  StudentAssessmentController.startAssessment templateId studentId w2
  = (inl (BadRequestException "You already have an active session for this assessment"),
     w2).
Proof.
  intros H Hst. apply startAssessment_outcome in H.
  destruct H as (t & qs & w0 & w1 & Hl & Ha & Hp & Hs & _ & _ & Hw & _).
  unfold StudentAssessmentController.startAssessment, bind.
  rewrite validateStudentCanStartAssessment_spec.
  assert (L : template_lookup (store w2) templateId = Some t)
    by (unfold template_lookup; rewrite Hst, Hw, Hs; exact Hl).
  rewrite L, Ha, Hp. cbn [negb orb].
  assert (A : (0 <? List.length (active_sessions (store w2) templateId studentId))%nat = true).
  { unfold active_sessions. rewrite Hst, Hw, Hs.
    cbn [student_assessment_sessions set_sessions]. rewrite List.filter_app, List.length_app.
    cbn. rewrite !String.eqb_refl. cbn. rewrite Nat.add_1_r. reflexivity. }
  rewrite A. reflexivity.
Qed.

Lemma active_session_blocks_new_start_witness :
  exists w',
    snd (StudentAssessmentService.startAssessment "t1" "stu" demo_retake_world) = w' /\
    StudentAssessmentController.startAssessment "t1" "stu" w'
    = (inl (BadRequestException "You already have an active session for this assessment"),
       w').
Proof.
  let r := eval vm_compute in
        (StudentAssessmentService.startAssessment "t1" "stu" demo_retake_world) in
  match r with
  | (inr ?p, ?wc) =>
      exists wc; split; [reflexivity|];
      exact (active_session_blocks_new_start "t1" "stu" demo_retake_world wc wc p
               eq_refl eq_refl)
  end.
Defined.

(* ===================================================================== *)
(** ** Further properties: reading a response back *)
(* ===================================================================== *)

(** X14.  A stored response is read back.  After [submitResponse] has
    returned for a session whose template exists, under a (session,
    question) key that had no stored row, and for as long as the session
    has not passed its expiry time: [getAssessmentSession] lists the
    session's earlier responses followed by the new row, and
    [getQuestionForSession] for the answered question returns the new row
    as existing_response, with the verdict and points that
    [submitResponse] reported, and the same questions_answered. *)
Theorem submitted_response_is_read_back (dto : SubmitResponseDto) (student : string)
    (w w' w2 : World) (res : SubmitResult) (s : SessionRow) (t : TemplateRow) :
  StudentAssessmentService.submitResponse dto student w = (inr res, w') ->
  session_lookup (store w) (dto_session_token dto) student = Some s ->
  template_lookup (store w) (s_template_id s) = Some t ->
  existsb (same_response_key (s_id s) (dto_question_id dto))
          (student_assessment_responses (store w)) = false ->
  store w2 = store w' ->
  past_expiry s (now w2) = false ->
  let row := stored_response w (s_id s) dto (sr_is_correct res) (sr_points_earned res) in
  (exists v,
     StudentAssessmentService.getAssessmentSession (dto_session_token dto) student w2
     = (inr v, w2) /\
     sv_responses v = (responses_of_session (store w) (s_id s) ++ [row])%list) /\
  (exists qv w3,
     StudentAssessmentService.getQuestionForSession
       (dto_session_token dto) (dto_question_id dto) student w2 = (inr qv, w3) /\
     qv_existing_response qv = Some row /\
     qv_questions_answered qv = sr_questions_answered res /\
     store w3 = store w2).
Proof.
  intros E Hl Ht Hnew Hst Hp row.
  pose proof E as E0.
  apply submitResponse_outcome in E.
  destruct E as (s' & question & c & p & Hl' & Hin & _ & Hq & Hsc & Hc & Hpt & _ & Hw).
  rewrite Hl in Hl'. injection Hl' as <-.
  assert (D : responses_unique (store w)
              && existsb (same_response_key (s_id s) (dto_question_id dto))
                   (student_assessment_responses (store w)) = false)
    by (rewrite Hnew; apply andb_false_r).
  assert (Hres : sr_questions_answered res
                 = S (List.length (responses_of_session (store w) (s_id s)))).
  { destruct (past_expiry s (now w)) eqn:Hp0.
    - exfalso. pose proof (submitResponse_spec dto student w) as Sp. rewrite E0 in Sp.
      destruct Sp as (s1 & _ & _ & L1 & _ & P1 & _). congruence.
    - rewrite (submitResponse_live dto student w s question c p Hl Hin Hp0 Hq Hsc D) in E0.
      injection E0 as <- _. reflexivity. }
  subst c p. fold row in Hw.
  assert (Hstore : store w2
                   = set_responses (student_assessment_responses (store w) ++ [row])%list
                                   (store w))
    by (rewrite Hst, Hw; reflexivity).
  assert (L2 : session_lookup (store w2) (dto_session_token dto) student = Some s)
    by (unfold session_lookup; rewrite Hstore; exact Hl).
  assert (Hne : s_status s <> expired) by congruence.
  pose proof (getAssessmentSession_live w2 _ student s L2 Hne Hp) as G.
  assert (Hrows : List.filter (fun r => r_session_id r =? s_id s)
                              (student_assessment_responses (store w2))
                  = (responses_of_session (store w) (s_id s) ++ [row])%list).
  { rewrite Hstore. cbn [student_assessment_responses set_responses].
    rewrite List.filter_app. cbn. rewrite String.eqb_refl. reflexivity. }
  split.
  - eexists. split; [exact G|]. cbn [sv_responses]. exact Hrows.
  - unfold StudentAssessmentService.getQuestionForSession, bind at 1. rewrite G.
    unfold bind at 1, rest_get at 1, bind at 1, read at 1, ret at 1.
    unfold bind at 1, rest_get at 1, bind at 1, read at 1, ret at 1.
    cbn [ok json negb].
    assert (Q2 : head (List.filter (fun q => q_id q =? dto_question_id dto)
                                   (assessment_questions (store w2))) = Some question)
      by (rewrite Hstore; exact Hq).
    rewrite Q2.
    unfold bind at 1, rest_get at 1, bind at 1, read at 1, ret at 1.
    cbn [json sv_assessment_templates sv_session sv_responses].
    assert (T2 : List.find (fun t0 => tpl_id t0 =? s_template_id s)
                           (assessment_templates (store w2)) = Some t)
      by (rewrite find_head_filter, Hstore; exact Ht).
    rewrite T2. unfold bind at 1.
    match goal with
    | |- context [StudentAssessmentService.prepareQuestionOptions ?o ?r w2] =>
        destruct (prepareQuestionOptions_spec o r w2) as (out & w3 & Ep & _ & Hs3 & _);
        rewrite Ep
    end.
    unfold bind, get_now, ret. eexists _, w3. split; [reflexivity|].
    cbn [qv_existing_response qv_questions_answered].
    split; [|split; [rewrite Hrows, Hres, List.length_app; cbn; lia | exact Hs3]].
    rewrite Hstore. cbn [student_assessment_responses set_responses].
    rewrite List.filter_app, filter_none.
    + cbn. unfold same_response_key. cbn. rewrite !String.eqb_refl. reflexivity.
    + intros r Hr. apply not_true_is_false. intros Hk.
      assert (X : existsb (same_response_key (s_id s) (dto_question_id dto))
                    (student_assessment_responses (store w)) = true)
        by (apply existsb_exists; exists r; split; assumption).
      congruence.
Qed.

Lemma submitted_response_is_read_back_witness :
  exists w' qv w3,
    snd (StudentAssessmentService.submitResponse (demo_dto "o2") "stu" demo_live_world) = w' /\
    StudentAssessmentService.getQuestionForSession "tok" "q1" "stu" w' = (inr qv, w3) /\
    option_map r_is_correct (qv_existing_response qv) = Some true.
Proof.
  let r := eval vm_compute in
        (StudentAssessmentService.submitResponse (demo_dto "o2") "stu" demo_live_world) in
  match r with
  | (inr ?res, ?wc) =>
      destruct (submitted_response_is_read_back (demo_dto "o2") "stu" demo_live_world wc wc
                  res (demo_session in_progress 1 "s1" "tok") demo_template
                  eq_refl eq_refl eq_refl eq_refl eq_refl eq_refl)
        as (_ & qv & w3 & G & Hex & _);
      exists wc, qv, w3
  end.
  split; [reflexivity|]. split; [exact G|]. rewrite Hex. reflexivity.
Defined.

(* ===================================================================== *)
(** ** Further properties: the start payload and the answer keys *)
(* ===================================================================== *)

Section StartPayloadKeys.

Import StudentAssessmentService.

Context {T : Type} (R : T -> T -> Prop).

Lemma swap_Forall2 i j (l l' : list T) :
  Forall2 R l l' -> Forall2 R (swap i j l) (swap i j l').
Proof.
  intros H. unfold swap.
  destruct (l !! i) as [x|] eqn:Hi.
  - destruct (Forall2_lookup_l _ _ _ _ _ H Hi) as (x' & Hi' & Rx). rewrite Hi'.
    destruct (l !! j) as [y|] eqn:Hj.
    + destruct (Forall2_lookup_l _ _ _ _ _ H Hj) as (y' & Hj' & Ry). rewrite Hj'.
      apply Forall2_insert; [apply Forall2_insert|]; assumption.
    + destruct (l' !! j) as [y'|] eqn:Hj'; [|exact H].
      destruct (Forall2_lookup_r _ _ _ _ _ H Hj') as (y & Hy & _). congruence.
  - destruct (l' !! i) as [x'|] eqn:Hi'; [|exact H].
    destruct (Forall2_lookup_r _ _ _ _ _ H Hi') as (x & Hx & _). congruence.
Qed.

Lemma shuffle_loop_Forall2 draws i : forall pos (l l' : list T),
  Forall2 R l l' ->
  Forall2 R (fst (shuffle_loop draws pos i l)) (fst (shuffle_loop draws pos i l')) /\
  snd (shuffle_loop draws pos i l') = snd (shuffle_loop draws pos i l).
Proof.
  induction i as [|i IH]; intros pos l l' H; simpl; [split; [exact H | reflexivity]|].
  apply IH. apply swap_Forall2. exact H.
Qed.

(** [shuffleArray] moves related arrays in step: the same draws give the
    same positions. *)
Lemma shuffleArray_Forall2 (l l' : list T) w w2 :
  Forall2 R l l' -> same_environment w w2 ->
  exists out out' w1 w1',
    shuffleArray l w = (inr out, w1) /\ shuffleArray l' w2 = (inr out', w1') /\
    Forall2 R out out' /\ store w1 = store w /\ store w1' = store w2 /\
    same_environment w1 w1'.
Proof.
  intros H (En & Er & Ep & Eu & Eup). unfold shuffleArray.
  rewrite Er, Ep, <- (Forall2_length _ _ _ H).
  destruct (shuffle_loop_Forall2 (rng w) (List.length l - 1) (rng_pos w) l l' H) as [F Hpos].
  destruct (shuffle_loop (rng w) (rng_pos w) (List.length l - 1) l) as [out pos].
  destruct (shuffle_loop (rng w) (rng_pos w) (List.length l - 1) l') as [out' pos'].
  cbn [fst snd] in F, Hpos. subst pos'.
  eexists _, _, _, _. split; [reflexivity|]. split; [reflexivity|].
  split; [exact F|]. split; [reflexivity|]. split; [reflexivity|].
  repeat split; cbn; assumption.
Qed.

End StartPayloadKeys.

Section HiddenKeys.

Import StudentAssessmentService.

Lemma find_Forall2 {A} (R : A -> A -> Prop) (p p' : A -> bool) (l l' : list A) :
  Forall2 R l l' -> (forall x y, R x y -> p' y = p x) ->
  match List.find p l, List.find p' l' with
  | Some x, Some y => R x y
  | None, None => True
  | _, _ => False
  end.
Proof.
  intros H Hp. induction H as [|x y l l' Hxy _ IH]; [exact I|].
  simpl. rewrite (Hp x y Hxy). destruct (p x); [exact Hxy | exact IH].
Qed.

Lemma filter_Forall2 {A} (R : A -> A -> Prop) (p p' : A -> bool) (l l' : list A) :
  Forall2 R l l' -> (forall x y, R x y -> p' y = p x) ->
  Forall2 R (List.filter p l) (List.filter p' l').
Proof.
  intros H Hp. induction H as [|x y l l' Hxy _ IH]; [constructor|].
  simpl. rewrite (Hp x y Hxy). destruct (p x); [constructor; assumption | exact IH].
Qed.

Lemma strip_option_facing (l l' : list OptionRow) :
  Forall2 same_option_facing l l' -> List.map strip_option l' = List.map strip_option l.
Proof.
  induction 1 as [|o o' l l' (H1 & _ & H3 & H4) _ IH]; [reflexivity|].
  simpl. rewrite IH. unfold strip_option. rewrite H1, H3, H4. reflexivity.
Qed.

(** The question embedded in a link looks the same over both stores. *)
Lemma embed_question_facing st st' tq :
  answers_aside st st' ->
  match embed_question st tq, embed_question st' tq with
  | Some q, Some q' => same_student_view q q'
  | None, None => True
  | _, _ => False
  end.
Proof.
  intros (_ & _ & _ & Hq & Ho). unfold embed_question.
  pose proof (find_Forall2 same_question_facing
                (fun q => q_id q =? tq_question_id tq) (fun q => q_id q =? tq_question_id tq)
                _ _ Hq) as F.
  destruct (List.find _ (assessment_questions st)) as [q|];
    destruct (List.find _ (assessment_questions st')) as [q'|];
    try (apply F; intros x y (E & _); rewrite E; reflexivity).
  assert (Rq : same_question_facing q q')
    by (apply F; intros x y (E & _); rewrite E; reflexivity).
  destruct Rq as (H1 & H2 & H3 & H4 & H5 & H6 & H7).
  unfold same_student_view. cbn [sq_question sq_options].
  repeat (split; [assumption|]).
  apply strip_option_facing. apply filter_Forall2; [exact Ho|].
  intros x y (_ & E & _). rewrite E, H1. reflexivity.
Qed.

Lemma sequence_embed_facing st st' links w w2 :
  answers_aside st st' ->
  match fst (sequence_embed (List.map (embed_question st) links) w),
        fst (sequence_embed (List.map (embed_question st') links) w2) with
  | inr qs, inr qs' => Forall2 same_student_view qs qs'
  | inl e, inl e' => e' = e
  | _, _ => False
  end.
Proof.
  intros H. induction links as [|tq links IH]; [constructor|].
  cbn [List.map sequence_embed].
  pose proof (embed_question_facing st st' tq H) as E.
  destruct (embed_question st tq) as [q|]; destruct (embed_question st' tq) as [q'|];
    try contradiction; [|reflexivity].
  unfold bind.
  destruct (sequence_embed (List.map (embed_question st) links) w) as [[e|qs] w1];
    destruct (sequence_embed (List.map (embed_question st') links) w2) as [[e'|qs'] w1'];
    cbn [fst] in *; try contradiction; [exact IH|].
  constructor; assumption.
Qed.

(** The questions fetched for a session look the same over both stores,
    shuffled or not, and leave both worlds in step. *)
Lemma getQuestionsForSession_facing templateId randomize w w2 :
  answers_aside (store w) (store w2) -> same_environment w w2 ->
  match getQuestionsForSession templateId randomize w,
        getQuestionsForSession templateId randomize w2 with
  | (inr qs, w1), (inr qs', w1') =>
      Forall2 same_student_view qs qs' /\ same_environment w1 w1'
  | (inl e, _), (inl e', _) => e' = e
  | _, _ => False
  end.
Proof.
  intros Ha He. unfold getQuestionsForSession, rest_get, bind, read, ret, throw.
  cbn [ok json negb].
  destruct Ha as (Ht & Hl & Hs & Hq & Ho). rewrite Hl.
  pose proof (sequence_embed_facing (store w) (store w2)
                (order_asc tq_order_index
                   (List.filter (fun tq => tq_template_id tq =? templateId)
                                (assessment_template_questions (store w)))) w w2
                (conj Ht (conj Hl (conj Hs (conj Hq Ho))))) as F.
  match type of F with
  | match fst (sequence_embed ?a w) with _ => _ end =>
      pose proof (sequence_embed_pure a w) as P1;
      destruct (sequence_embed a w) as [[e|qs] w1]
  end;
  match type of F with
  | context [sequence_embed ?b w2] =>
      pose proof (sequence_embed_pure b w2) as P2;
      destruct (sequence_embed b w2) as [[e'|qs'] w1']
  end; cbn [fst snd] in *; try contradiction; [exact F|]. subst w1 w1'.
  destruct randomize; [|split; assumption].
  destruct (shuffleArray_Forall2 same_student_view qs qs' w w2 F He)
    as (out & out' & u & u' & E1 & E2 & Fo & _ & _ & Eo).
  rewrite E1, E2. split; assumption.
Qed.

Lemma prepareQuestionOptions_facing options options' randomize w w2 :
  List.map strip_option options' = List.map strip_option options ->
  same_environment w w2 ->
  exists out w1 w1',
    prepareQuestionOptions options randomize w = (inr out, w1) /\
    prepareQuestionOptions options' randomize w2 = (inr out, w1') /\
    same_environment w1 w1'.
Proof.
  intros Hm He. unfold prepareQuestionOptions.
  fold strip_option. change (fun option => strip_option option) with strip_option.
  rewrite Hm. destruct randomize.
  - destruct He as (En & Er & Ep & Eu & Eup). unfold shuffleArray. rewrite Er, Ep.
    destruct (shuffle_loop (rng w) (rng_pos w) _ (List.map strip_option options))
      as [out pos].
    eexists _, _, _. split; [reflexivity|]. split; [reflexivity|].
    repeat split; cbn; assumption.
  - exists (List.map strip_option options), w, w2. repeat split; apply He.
Qed.

(** The payload list is the same over both stores. *)
Lemma question_payloads_facing randomize qs qs' :
  Forall2 same_student_view qs qs' ->
  forall index w w2, same_environment w w2 ->
    fst (question_payloads index randomize qs' w2)
    = fst (question_payloads index randomize qs w).
Proof.
  induction 1 as [|q q' qs qs' Hq _ IH]; intros index w w2 He; [reflexivity|].
  destruct Hq as (H1 & H2 & H3 & H4 & H5 & H6 & H7 & H8).
  cbn [question_payloads]. unfold bind at 1 3.
  destruct (prepareQuestionOptions_facing (sq_options q) (sq_options q') randomize w w2 H8 He)
    as (out & w1 & w1' & E1 & E2 & He1).
  rewrite E1, E2. unfold bind. specialize (IH (index + 1) w1 w1' He1).
  destruct (question_payloads (index + 1) randomize qs w1) as [[e|tail] u];
    destruct (question_payloads (index + 1) randomize qs' w1') as [[e'|tail'] u'];
    cbn [fst] in *; try discriminate; [exact IH|].
  injection IH as ->. unfold ret. cbn [fst].
  rewrite H1, H2, H3, H4, H5, H6, H7. reflexivity.
Qed.

Local Opaque getQuestionsForSession question_payloads.

(** [startAssessment] in one equation. *)
Lemma startAssessment_unfold templateId studentId w :
  startAssessment templateId studentId w
  = match template_lookup (store w) templateId with
    | None => (inl (template_not_found templateId), w)
    | Some t =>
        if negb (is_active t) || negb (is_public t)
        then (inl (ForbiddenException "This assessment is not available"), w)
        else
          match getQuestionsForSession templateId (randomize_questions t)
                  (start_world w templateId studentId t) with
          | (inl e, w1) => (inl e, w1)
          | (inr qs, w1) =>
              match question_payloads 0 (randomize_options t) qs w1 with
              | (inl e, w2) => (inl e, w2)
              | (inr ps, w2) =>
                  (inr {| sp_session_token := uuid w (uuid_pos w);
                          sp_session_id := uuid w (S (uuid_pos w));
                          sp_template := t;
                          sp_expires_at := now w + time_limit_minutes t * 60000;
                          sp_questions := ps;
                          sp_total_questions := List.length qs;
                          sp_attempt_number :=
                            next_attempt_number (store w) templateId studentId |}, w2)
              end
          end
    end.
Proof.
  unfold startAssessment. unfold bind at 1.
  rewrite getAssessmentTemplate_spec.
  destruct (template_lookup (store w) templateId) as [t|]; [|reflexivity].
  destruct (negb (is_active t) || negb (is_public t)); [reflexivity|].
  run.
  assert (Hn : match
                 List.firstn 1
                   (order_asc (fun s => - s_attempt_number s)
                      (List.filter
                         (fun s => (s_student_id s =? studentId)
                                   && (s_template_id s =? templateId))
                         (student_assessment_sessions (store w))))
               with
               | a :: _ => s_attempt_number a + 1
               | [] => 1
               end = next_attempt_number (store w) templateId studentId).
  { unfold next_attempt_number, student_attempts.
    destruct (order_asc _ _) as [|a l]; reflexivity. }
  unfold order_asc in Hn. rewrite Hn. reflexivity.
Qed.

Local Transparent getQuestionsForSession question_payloads.

End HiddenKeys.

(** X15.  The start payload does not depend on the answer keys.  Over two
    stores that differ at most in the explanations of questions, in the
    correctness flags, explanations and order indexes of options, in the
    text-answer rows and in the stored responses, and with the same clock
    and the same random and identifier streams, [startAssessment] returns
    the same payload, or fails with the same error. *)
Theorem start_payload_independent_of_answer_keys (templateId studentId : string)
    (w w2 : World) :
  answers_aside (store w) (store w2) ->
  same_environment w w2 ->
  fst (StudentAssessmentService.startAssessment templateId studentId w2)
  = fst (StudentAssessmentService.startAssessment templateId studentId w).
Proof.
  intros Ha He. rewrite !startAssessment_unfold.
  pose proof Ha as (Ht & Hl & Hs & Hq & Ho). pose proof He as (En & Er & Ep & Eu & Eup).
  assert (L : template_lookup (store w2) templateId = template_lookup (store w) templateId)
    by (unfold template_lookup; rewrite Ht; reflexivity).
  rewrite L. destruct (template_lookup (store w) templateId) as [t|]; [|reflexivity].
  destruct (negb (is_active t) || negb (is_public t)); [reflexivity|].
  assert (N : next_attempt_number (store w2) templateId studentId
              = next_attempt_number (store w) templateId studentId)
    by (unfold next_attempt_number, student_attempts; rewrite Hs; reflexivity).
  assert (Row : started_session w2 templateId studentId t
                = started_session w templateId studentId t)
    by (unfold started_session; rewrite N, En, Eu, Eup; reflexivity).
  assert (Ha0 : answers_aside (store (start_world w templateId studentId t))
                              (store (start_world w2 templateId studentId t))).
  { unfold start_world. cbn. rewrite Row, Hs. repeat split; assumption. }
  assert (He0 : same_environment (start_world w templateId studentId t)
                                 (start_world w2 templateId studentId t)).
  { unfold start_world. repeat split; cbn; congruence. }
  pose proof (getQuestionsForSession_facing templateId (randomize_questions t) _ _ Ha0 He0)
    as G.
  destruct (StudentAssessmentService.getQuestionsForSession templateId
              (randomize_questions t) (start_world w templateId studentId t))
    as [[e|qs] w1];
    destruct (StudentAssessmentService.getQuestionsForSession templateId
                (randomize_questions t) (start_world w2 templateId studentId t))
      as [[e'|qs'] w1']; try contradiction; [cbn; congruence|].
  destruct G as [F He1].
  pose proof (question_payloads_facing (randomize_options t) qs qs' F 0 w1 w1' He1) as P.
  destruct (StudentAssessmentService.question_payloads 0 (randomize_options t) qs w1)
    as [[e|ps] u];
    destruct (StudentAssessmentService.question_payloads 0 (randomize_options t) qs' w1')
      as [[e'|ps'] u']; cbn [fst] in *; try discriminate; [congruence|].
  injection P as ->. rewrite N, En, Eu, Eup, (Forall2_length _ _ _ F). reflexivity.
Qed.

Lemma start_payload_independent_of_answer_keys_witness :
  fst (StudentAssessmentService.startAssessment "t1" "stu"
         (demo_world demo_store_other_key 5000))
  = fst (StudentAssessmentService.startAssessment "t1" "stu" demo_retake_world).
Proof.
  apply (start_payload_independent_of_answer_keys "t1" "stu" demo_retake_world
           (demo_world demo_store_other_key 5000)).
  - split; [reflexivity|]. split; [reflexivity|]. split; [reflexivity|].
    split; repeat constructor.
  - repeat split.
Defined.

(* ===================================================================== *)
(** ** Further properties: the preview and the performance breakdown *)
(* ===================================================================== *)

Section Breakdowns.

Import StudentAssessmentService.

Lemma count_sum2 {A} (p q r : A -> bool) (l : list A) :
  (forall x, (Nat.b2n (p x) + Nat.b2n (q x) = Nat.b2n (r x))%nat) ->
  (JS.count p l + JS.count q l = JS.count r l)%nat.
Proof.
  intros H. unfold JS.count. induction l as [|x l IH]; [reflexivity|].
  simpl. specialize (H x). destruct (p x), (q x), (r x); simpl in *; lia.
Qed.

Lemma count_disjoint2 {A} (p q : A -> bool) (l : list A) :
  (forall x, (Nat.b2n (p x) + Nat.b2n (q x) <= 1)%nat) ->
  (JS.count p l + JS.count q l <= List.length l)%nat.
Proof.
  intros H. unfold JS.count. induction l as [|x l IH]; [simpl; lia|].
  simpl. specialize (H x). destruct (p x), (q x); simpl in *; lia.
Qed.

Lemma count_disjoint3 {A} (p q r : A -> bool) (l : list A) :
  (forall x, (Nat.b2n (p x) + Nat.b2n (q x) + Nat.b2n (r x) <= 1)%nat) ->
  (JS.count p l + JS.count q l + JS.count r l <= List.length l)%nat.
Proof.
  intros H. unfold JS.count. induction l as [|x l IH]; [simpl; lia|].
  simpl. specialize (H x). destruct (p x), (q x), (r x); simpl in *; lia.
Qed.

Lemma difficulty_levels_disjoint (d : string) :
  (Nat.b2n (d =? "easy")%string + Nat.b2n (d =? "medium")%string + Nat.b2n (d =? "hard")%string <= 1)%nat.
Proof.
  destruct (String.eqb_spec d "easy") as [->|]; [cbn; lia|].
  destruct (String.eqb_spec d "medium") as [->|]; [cbn; lia|].
  destruct (d =? "hard"); cbn; lia.
Qed.

Lemma choice_types (t : string) :
  (Nat.b2n (t =? "mcq")%string + Nat.b2n (t =? "image_mcq")%string = Nat.b2n (is_mcq_type t))%nat.
Proof.
  unfold is_mcq_type.
  destruct (String.eqb_spec t "mcq") as [->|]; [reflexivity|].
  destruct (t =? "image_mcq"); reflexivity.
Qed.

Lemma text_types (t : string) :
  (Nat.b2n (existsb (fun t0 => (t0 =? t)%string) ["text"; "short_text"; "fill_blank"])
   + Nat.b2n (t =? "image_text")%string = Nat.b2n (is_text_type t))%nat.
Proof.
  unfold is_text_type. cbn [existsb]. rewrite !(String.eqb_sym _ t).
  destruct (String.eqb_spec t "text") as [->|]; [reflexivity|].
  destruct (String.eqb_spec t "image_text") as [->|]; [reflexivity|].
  destruct (t =? "short_text"), (t =? "fill_blank"); reflexivity.
Qed.

Lemma scored_types_disjoint (t : string) :
  (Nat.b2n (is_mcq_type t) + Nat.b2n (is_text_type t) <= 1)%nat.
Proof.
  unfold is_mcq_type, is_text_type.
  destruct (String.eqb_spec t "mcq") as [->|]; [cbn; lia|].
  destruct (String.eqb_spec t "image_mcq") as [->|]; [cbn; lia|].
  cbn. destruct (_ || _); cbn; lia.
Qed.

Lemma embedded_rows_Some l : forall w qs w',
  embedded_rows l w = (inr qs, w') -> w' = w /\ l = List.map Some qs.
Proof.
  induction l as [|[q|] l IH]; intros w qs w'; simpl.
  - intros H. injection H as <- <-. split; reflexivity.
  - unfold bind. destruct (embedded_rows l w) as [[e|qs0] w0] eqn:E; [discriminate|].
    unfold ret. intros H. injection H as <- <-.
    destruct (IH w qs0 w0 E) as [-> ->]. split; reflexivity.
  - discriminate.
Qed.

Lemma fold_left_points (questions : list QuestionRow) : forall sum,
  List.fold_left (fun sum q => sum + points_or_1 q) questions sum
  = sum + List.fold_right Z.add 0 (List.map points_or_1 questions).
Proof.
  induction questions as [|q qs IH]; intros sum; simpl; [lia|]. rewrite IH. lia.
Qed.

End Breakdowns.

(** Every return of [previewAssessment]. *)
Lemma previewAssessment_returns templateId w pv w' :
  StudentAssessmentService.previewAssessment templateId w = (inr pv, w') ->
  exists t questions,
    template_lookup (store w) templateId = Some t /\
    linked_rows (store w) templateId = List.map Some questions /\
    w' = w /\
    pv = {| pv_template := t;
            pv_question_breakdown :=
              {| qb_total := List.length questions;
                 qb_easy := JS.count (fun q => difficulty_level q =? "easy") questions;
                 qb_medium := JS.count (fun q => difficulty_level q =? "medium") questions;
                 qb_hard := JS.count (fun q => difficulty_level q =? "hard") questions;
                 qb_mcq := JS.count (fun q => question_type q =? "mcq") questions;
                 qb_text :=
                   JS.count (fun q => existsb (fun t0 => t0 =? question_type q)
                                              ["text"; "short_text"; "fill_blank"])
                            questions;
                 qb_image_mcq := JS.count (fun q => question_type q =? "image_mcq") questions;
                 qb_image_text :=
                   JS.count (fun q => question_type q =? "image_text") questions;
                 qb_total_points :=
                   List.fold_left (fun sum q => sum + StudentAssessmentService.points_or_1 q)
                                  questions 0 |} |}.
Proof.
  unfold StudentAssessmentService.previewAssessment. unfold bind at 1.
  rewrite getAssessmentTemplate_spec.
  destruct (template_lookup (store w) templateId) as [t|] eqn:Hl; [|discriminate].
  destruct (negb (is_active t) || negb (is_public t)); [discriminate|].
  unfold rest_get, bind, read, ret, throw.
  cbv beta iota delta [ok json negb].
  fold (linked_rows (store w) templateId).
  destruct (StudentAssessmentService.embedded_rows (linked_rows (store w) templateId) w)
    as [[e|questions] w0] eqn:E; [discriminate|].
  apply embedded_rows_Some in E. destruct E as [-> E].
  intros H. exists t, questions. split; [reflexivity|]. split; [exact E|].
  split; [congruence|]. inversion H. reflexivity.
Qed.

(** X16.  What a preview counts.  A preview that returns has written
    nothing and shows the template row of that id; its total is the number
    of question links of the template, which is also the total_questions
    of any start of that template over the same store; the three
    difficulty counts together do not exceed the total; the mcq and
    image_mcq counts together are the number of linked questions that
    response scoring treats as choice questions, the text and image_text
    counts together those it treats as text questions, so that the four
    type counts never exceed the total; and total_points adds up, over the
    linked questions, the points a correct response earns. *)
Theorem preview_breakdown_counts (templateId : string) (w w' : World)
    (pv : AssessmentPreview) :
  StudentAssessmentService.previewAssessment templateId w = (inr pv, w') ->
  let b := pv_question_breakdown pv in
  exists questions,
    linked_rows (store w) templateId = List.map Some questions /\
    w' = w /\
    template_lookup (store w) templateId = Some (pv_template pv) /\
    qb_total b = List.length (template_question_ids (store w) templateId) /\
    (forall studentId sp w1,
       StudentAssessmentService.startAssessment templateId studentId w = (inr sp, w1) ->
       sp_total_questions sp = qb_total b) /\
    (qb_easy b + qb_medium b + qb_hard b <= qb_total b)%nat /\
    (qb_mcq b + qb_image_mcq b
     = JS.count (fun q => StudentAssessmentService.is_mcq_type (question_type q)) questions)%nat /\
    (qb_text b + qb_image_text b
     = JS.count (fun q => StudentAssessmentService.is_text_type (question_type q)) questions)%nat /\
    (qb_mcq b + qb_text b + qb_image_mcq b + qb_image_text b <= qb_total b)%nat /\
    qb_total_points b
    = List.fold_right Z.add 0 (List.map StudentAssessmentService.points_or_1 questions).
Proof.
  intros H b. apply previewAssessment_returns in H.
  destruct H as (t & questions & Hl & E & -> & Hpv). subst pv b.
  cbv beta iota zeta delta
    [pv_question_breakdown pv_template qb_total qb_easy qb_medium qb_hard qb_mcq qb_text
     qb_image_mcq qb_image_text qb_total_points].
  assert (Hlen : List.length questions
                 = List.length (template_question_ids (store w) templateId)).
  { unfold template_question_ids. rewrite List.length_map.
    rewrite <- (List.length_map Some questions), <- E. unfold linked_rows.
    rewrite List.length_map. reflexivity. }
  pose proof (count_sum2 (fun q => question_type q =? "mcq")
                (fun q => question_type q =? "image_mcq")
                (fun q => StudentAssessmentService.is_mcq_type (question_type q)) questions
                (fun q => choice_types (question_type q))) as Hm.
  pose proof (count_sum2 (fun q => existsb (fun t0 => t0 =? question_type q)
                                           ["text"; "short_text"; "fill_blank"])
                (fun q => question_type q =? "image_text")
                (fun q => StudentAssessmentService.is_text_type (question_type q)) questions
                (fun q => text_types (question_type q))) as Ht.
  pose proof (count_disjoint2
                (fun q => StudentAssessmentService.is_mcq_type (question_type q))
                (fun q => StudentAssessmentService.is_text_type (question_type q)) questions
                (fun q => scored_types_disjoint (question_type q))) as Hd.
  exists questions. split; [exact E|]. split; [reflexivity|]. split; [exact Hl|].
  split; [exact Hlen|]. split.
  { intros studentId sp w1 S0. apply startAssessment_outcome in S0.
    destruct S0 as (t' & qs & u0 & u1 & _ & _ & _ & Hs & Q & _ & _ & _ & _ & _ & _ & Hn & _).
    apply getQuestionsForSession_result in Q. destruct Q as (Q1 & _).
    apply Permutation_length in Q1. rewrite !List.length_map in Q1.
    rewrite Hn, Q1, Hlen. unfold ordered_links, template_question_ids.
    rewrite (Permutation_length (order_asc_Permutation _ _)), List.length_map, Hs.
    reflexivity. }
  split.
  { apply (count_disjoint3 (fun q => difficulty_level q =? "easy")
             (fun q => difficulty_level q =? "medium")
             (fun q => difficulty_level q =? "hard")).
    intros q. apply difficulty_levels_disjoint. }
  split; [exact Hm|]. split; [exact Ht|]. split; [lia|].
  rewrite fold_left_points. lia.
Qed.

Lemma preview_breakdown_counts_witness :
  exists pv,
    StudentAssessmentService.previewAssessment "t1" demo_live_world = (inr pv, demo_live_world) /\
    qb_total (pv_question_breakdown pv) = 1%nat /\
    qb_total_points (pv_question_breakdown pv) = 2.
Proof.
  eexists. split; [vm_compute; reflexivity|].
  destruct (preview_breakdown_counts "t1" demo_live_world demo_live_world _ eq_refl)
    as (questions & E & _ & _ & Hn & _ & _ & _ & _ & _ & Hp).
  split; [exact Hn|].
  vm_compute in E. destruct questions as [|q [|q' l]]; try discriminate.
  injection E as <-. exact (eq_trans Hp eq_refl).
Defined.

Lemma tally_responses_spec responses : forall byDifficulty,
  Forall (fun r => dr_assessment_questions r <> None) responses ->
  StudentAssessmentService.tally_responses byDifficulty responses
  = inr (let plus := fun d data =>
           {| dt_total := dt_total data + List.length (of_difficulty d responses);
              dt_correct := dt_correct data
                            + List.length (marked_correct (of_difficulty d responses)) |} in
         {| bd_easy := plus "easy" (bd_easy byDifficulty);
            bd_medium := plus "medium" (bd_medium byDifficulty);
            bd_hard := plus "hard" (bd_hard byDifficulty) |}).
Proof.
  induction responses as [|r rest IH]; intros acc H.
  - cbn. destruct acc as [[] [] []]. cbn. rewrite !Nat.add_0_r. reflexivity.
  - inversion H as [|? ? Hr Hrest]; subst.
    cbn [StudentAssessmentService.tally_responses].
    destruct (dr_assessment_questions r) as [q|] eqn:Hq; [|congruence].
    rewrite (IH _ Hrest). clear IH. f_equal.
    unfold of_difficulty, marked_correct. cbn [List.filter]. rewrite Hq.
    unfold StudentAssessmentService.tally_response.
    destruct (String.eqb_spec (difficulty_level q) "easy") as [E1|N1];
      [rewrite ?E1
      |destruct (String.eqb_spec (difficulty_level q) "medium") as [E2|N2];
        [rewrite ?E2
        |destruct (String.eqb_spec (difficulty_level q) "hard") as [E3|N3]]];
      destruct (r_is_correct (dr_response r)) eqn:Hc;
      cbn [String.eqb Ascii.eqb Bool.eqb bd_easy bd_medium bd_hard dt_total dt_correct
           List.filter List.length andb];
      rewrite ?Hc; cbn [List.length];
      f_equal; f_equal; lia.
Qed.

Lemma tally_responses_null responses : forall byDifficulty,
  In None (List.map dr_assessment_questions responses) ->
  StudentAssessmentService.tally_responses byDifficulty responses = inl TypeError.
Proof.
  induction responses as [|r rest IH]; intros acc H; [destruct H|].
  cbn [StudentAssessmentService.tally_responses].
  destruct (dr_assessment_questions r) as [q|] eqn:Hq; [|reflexivity].
  apply IH. destruct H as [H|H]; [cbn in H; congruence | exact H].
Qed.

Lemma tallies_entry d responses total correct :
  total = List.length (of_difficulty d responses) ->
  correct = List.length (marked_correct (of_difficulty d responses)) ->
  tallies d responses
    {| dp_total := total;
       dp_correct := correct;
       dp_percentage :=
         if (0 <? total)%nat then
           JS.Math_round
             (PrimFloat.mul
                (PrimFloat.div (JS.of_int (Z.of_nat correct)) (JS.of_int (Z.of_nat total)))
                (JS.of_int 100))
         else JS.of_int 0 |}.
Proof.
  intros Ht Hc. unfold tallies. cbn [dp_total dp_correct dp_percentage].
  assert (Hle : (correct <= total)%nat).
  { subst. unfold marked_correct. apply List.filter_length_le. }
  split; [exact Ht|]. split; [exact Hc|]. split; [exact Hle|]. split; [reflexivity|].
  intros Hn. destruct (score_table correct total Hle Hn) as [E _]. exact E.
Qed.

(** X17.  The performance breakdown tallies the responses by the
    difficulty of their question.  When every response carries its
    question, each of the entries easy, medium and hard holds the number
    of responses of that difficulty, the number of those marked correct
    (never more than the total), and the percentage
    Math.round((correct / total) * 100), 0 when there is none, which for
    fewer than 40 responses of that difficulty is 100 * correct / total
    rounded to the nearest integer, halves up; responses of any other
    difficulty are left out, so the three totals together do not exceed
    the number of responses.  When a response carries no question, the
    tally fails with a TypeError. *)
Theorem performance_by_difficulty_tallies (responses : list DetailedResponseRow) :
  (In None (List.map dr_assessment_questions responses) ->
   StudentAssessmentService.calculatePerformanceByDifficulty responses = inl TypeError) /\
  (Forall (fun r => dr_assessment_questions r <> None) responses ->
   exists perf,
     StudentAssessmentService.calculatePerformanceByDifficulty responses = inr perf /\
     tallies "easy" responses (pbd_easy perf) /\
     tallies "medium" responses (pbd_medium perf) /\
     tallies "hard" responses (pbd_hard perf) /\
     (dp_total (pbd_easy perf) + dp_total (pbd_medium perf) + dp_total (pbd_hard perf)
      <= List.length responses)%nat).
Proof.
  unfold StudentAssessmentService.calculatePerformanceByDifficulty. split.
  - intros H. rewrite tally_responses_null by exact H. reflexivity.
  - intros H. rewrite tally_responses_spec by exact H.
    cbv beta iota zeta delta [bd_easy bd_medium bd_hard dt_total dt_correct].
    eexists. split; [reflexivity|].
    cbv beta iota delta [pbd_easy pbd_medium pbd_hard].
    split; [apply tallies_entry; reflexivity|].
    split; [apply tallies_entry; reflexivity|].
    split; [apply tallies_entry; reflexivity|].
    cbv beta iota delta [dp_total]. rewrite !Nat.add_0_l.
    apply (count_disjoint3
             (fun r => match dr_assessment_questions r with
                       | Some q => difficulty_level q =? "easy" | None => false end)
             (fun r => match dr_assessment_questions r with
                       | Some q => difficulty_level q =? "medium" | None => false end)
             (fun r => match dr_assessment_questions r with
                       | Some q => difficulty_level q =? "hard" | None => false end)).
    intros r. destruct (dr_assessment_questions r) as [q|]; [|cbn; lia].
    apply difficulty_levels_disjoint.
Qed.

Lemma performance_by_difficulty_tallies_witness :
  exists perf,
    StudentAssessmentService.calculatePerformanceByDifficulty demo_detailed = inr perf /\
    dp_total (pbd_easy perf) = 2%nat /\ dp_correct (pbd_easy perf) = 1%nat /\
    dp_percentage (pbd_easy perf) = JS.of_int 50 /\
    dp_total (pbd_medium perf) = 0%nat /\ dp_total (pbd_hard perf) = 1%nat.
Proof.
  destruct (proj2 (performance_by_difficulty_tallies demo_detailed))
    as (perf & E & (E1 & E2 & _ & _ & E3) & (M1 & _) & (H1 & _) & _).
  - repeat constructor; discriminate.
  - exists perf. split; [exact E|].
    split; [exact E1|]. split; [exact E2|]. split.
    + rewrite E3 by (rewrite E1; vm_compute; lia). rewrite E1, E2. vm_compute. reflexivity.
    + split; [exact M1 | exact H1].
Defined.

(* ===================================================================== *)
(** ** Further properties: attempts that time out *)
(* ===================================================================== *)

Lemma filter_expire_attempts (id template student : string) (l : list SessionRow) :
  List.length
    (List.filter (fun s => (s_student_id s =? student) && (s_template_id s =? template))
       (List.map (fun r => if s_id r =? id then set_status expired r else r) l))
  = List.length
      (List.filter (fun s => (s_student_id s =? student) && (s_template_id s =? template)) l).
Proof.
  induction l as [|r l IH]; [reflexivity|]. cbn [List.map List.filter].
  assert (E : (s_student_id (if s_id r =? id then set_status expired r else r) =? student)
              && (s_template_id (if s_id r =? id then set_status expired r else r) =? template)
              = (s_student_id r =? student) && (s_template_id r =? template))
    by (destruct (s_id r =? id); reflexivity).
  rewrite E. destruct ((s_student_id r =? student) && (s_template_id r =? template));
    cbn [List.length]; rewrite IH; reflexivity.
Qed.

Lemma filter_expire_active (id template student : string) (l : list SessionRow) :
  List.filter (fun s => (s_student_id s =? student) && (s_template_id s =? template)
                        && session_status_eqb (s_status s) in_progress) l = [] ->
  List.filter (fun s => (s_student_id s =? student) && (s_template_id s =? template)
                        && session_status_eqb (s_status s) in_progress)
    (List.map (fun r => if s_id r =? id then set_status expired r else r) l) = [].
Proof.
  induction l as [|r l IH]; [reflexivity|]. cbn [List.map List.filter].
  destruct ((s_student_id r =? student) && (s_template_id r =? template)
            && session_status_eqb (s_status r) in_progress) eqn:Hr; [discriminate|].
  intros H. destruct (s_id r =? id).
  - cbn. rewrite andb_false_r. apply IH. exact H.
  - rewrite Hr. apply IH. exact H.
Qed.

(** X18.  An attempt that times out still counts.  Take a successful
    start for a student with no other session in progress for the
    template, and let the new session be marked expired (as the first read
    after its expiry time does).  Then the student's recorded attempts for
    the template are one more than before the start, and a new request to
    start the template is refused with status 403, in a message that names
    the cap, when the template sets a non-zero max_attempts that this
    count has reached, and passes the start checks otherwise. *)
Theorem timed_out_attempt_counts_towards_cap (templateId studentId : string)
    (w w' w2 : World) (p : StartPayload) :
  StudentAssessmentService.startAssessment templateId studentId w = (inr p, w') ->
  active_sessions (store w) templateId studentId = [] ->
  store w2 = expire_store (sp_session_id p) (store w') ->
  let count := attempt_count (store w2) templateId studentId in
  count = attempt_count (store w) templateId studentId + 1 /\
  (cap_reached (sp_template p) count = true ->
   StudentAssessmentController.startAssessment templateId studentId w2
   = (inl (cap_refusal (sp_template p)), w2)) /\
  (cap_reached (sp_template p) count = false ->
   StudentAssessmentController.validateStudentCanStartAssessment templateId studentId w2
   = (inr tt, w2)).
Proof.
  intros H Hact Hst count. apply startAssessment_outcome in H.
  destruct H as (t & qs & w0 & w1 & Hl & Ha & Hp & Hs & _ & _ & Hw & _ & Hid & Ht & _).
  assert (Hsess : student_assessment_sessions (store w2)
                  = List.map (fun r => if s_id r =? sp_session_id p
                                       then set_status expired r else r)
                      (student_assessment_sessions (store w)
                       ++ [started_session w templateId studentId t])%list)
    by (rewrite Hst, Hw, Hs; reflexivity).
  assert (Hcount : count = attempt_count (store w) templateId studentId + 1).
  { unfold count, attempt_count. rewrite Hsess, filter_expire_attempts.
    rewrite List.filter_app, List.length_app. cbn. rewrite !String.eqb_refl. cbn. lia. }
  assert (Hnone : active_sessions (store w2) templateId studentId = []).
  { unfold active_sessions. rewrite Hsess, List.map_app, List.filter_app.
    rewrite filter_expire_active by exact Hact.
    cbn. rewrite Hid, String.eqb_refl. cbn. rewrite andb_false_r. reflexivity. }
  assert (L : template_lookup (store w2) templateId = Some t)
    by (unfold template_lookup; rewrite Hst, Hw, Hs; exact Hl).
  pose proof (validateStudentCanStartAssessment_spec templateId studentId w2) as V.
  rewrite L, Ha, Hp, Hnone in V. cbn [negb orb List.length Nat.ltb Nat.leb] in V.
  fold count in V. rewrite Ht.
  split; [exact Hcount|]. split.
  - intros Hcap. unfold StudentAssessmentController.startAssessment, bind.
    rewrite V, Hcap. reflexivity.
  - intros Hcap. rewrite V, Hcap. reflexivity.
Qed.

Lemma timed_out_attempt_counts_towards_cap_witness :
  exists w2 e,
    store w2
    = expire_store "ii"
        (store (snd (StudentAssessmentService.startAssessment "t1" "stu" demo_retake_world))) /\
    StudentAssessmentController.startAssessment "t1" "stu" w2 = (inl e, w2) /\
    http_status e = 403 /\
    e = ForbiddenException
          "You have reached the maximum number of attempts (2) for this assessment".
Proof.
  let r := eval vm_compute in
        (StudentAssessmentService.startAssessment "t1" "stu" demo_retake_world) in
  match r with
  | (inr ?p, ?wc) =>
      pose (w2 := with_store wc (expire_store "ii" (store wc)));
      destruct (timed_out_attempt_counts_towards_cap "t1" "stu" demo_retake_world wc w2 p
                  eq_refl eq_refl eq_refl) as (_ & Hcap & _);
      exists w2; eexists; split; [reflexivity|]; split; [apply Hcap; reflexivity|]
  end.
  split; reflexivity.
Defined.

(* ===================================================================== *)
(** ** Further properties: the listing of available assessments *)
(* ===================================================================== *)

Lemma attempts_of_template (l : list SessionRow) (student id : string) (ids : list string) :
  In id ids ->
  List.filter (fun a => s_template_id a =? id)
    (List.filter (fun s => (s_student_id s =? student)
                           && existsb (fun i => s_template_id s =? i) ids) l)
  = List.filter (fun s => (s_student_id s =? student) && (s_template_id s =? id)) l.
Proof.
  intros Hin. induction l as [|s l IH]; [reflexivity|]. cbn [List.filter].
  destruct (s_student_id s =? student); cbn [andb]; [|exact IH].
  destruct (s_template_id s =? id) eqn:E.
  - assert (X : existsb (fun i => s_template_id s =? i) ids = true)
      by (apply existsb_exists; exists id; split; assumption).
    rewrite X. cbn [List.filter]. rewrite E, IH. reflexivity.
  - destruct (existsb _ ids); [|exact IH].
    cbn [List.filter]. rewrite E. exact IH.
Qed.

Lemma max_of_zeros {A} (l : list A) :
  List.fold_right Z.max 0 (List.map (fun _ => 0) l) = 0.
Proof. induction l as [|x l IH]; [reflexivity|]. simpl. rewrite IH. reflexivity. Qed.

(** X19.  The listing of available assessments agrees with the start
    checks.  Whatever the created_at and passed columns hold, the listing
    returns, writes nothing, and lists exactly the templates that are
    active and public.  For each of them, total_attempts is the number of
    sessions the student has recorded for the template (the count the
    start check uses), can_retake is true exactly when the attempt cap of
    the start check is not reached, max_attempts_reached is the boolean
    true exactly when it is reached, and best_score is 0 whatever the
    attempts scored; and when can_retake is true, the student has no
    session in progress for the template and the template id resolves to
    the listed row, the start check passes. *)
Theorem listing_agrees_with_start_checks (created_at : TemplateRow -> Z)
    (passed : SessionRow -> option bool) (studentId : string) (w : World) :
  exists listing,
    StudentAssessmentService.getAvailableAssessments created_at passed studentId w
    = (inr listing, w) /\
    List.map aa_template listing
    ≡ₚ List.filter (fun t => is_active t && is_public t) (assessment_templates (store w)) /\
    Forall (fun e =>
              let t := aa_template e in
              let info := aa_student_info e in
              let count := attempt_count (store w) (tpl_id t) studentId in
              Z.of_nat (si_total_attempts info) = count /\
              si_can_retake info = negb (cap_reached t count) /\
              (si_max_attempts_reached info = inr true <-> cap_reached t count = true) /\
              si_best_score info = 0 /\
              (si_can_retake info = true ->
               active_sessions (store w) (tpl_id t) studentId = [] ->
               template_lookup (store w) (tpl_id t) = Some t ->
               StudentAssessmentController.validateStudentCanStartAssessment
                 (tpl_id t) studentId w = (inr tt, w)))
           listing.
Proof.
  unfold StudentAssessmentService.getAvailableAssessments, rest_get, bind, read, ret.
  cbv beta iota delta [ok json negb].
  set (available := List.filter (fun t => is_active t && is_public t)
                                (assessment_templates (store w))).
  set (templates := order_asc (fun t => - created_at t) available).
  assert (P : templates ≡ₚ available) by apply order_asc_Permutation.
  destruct (List.length (List.map tpl_id templates) =? 0)%nat eqn:Hz.
  - apply Nat.eqb_eq in Hz. rewrite List.length_map in Hz.
    destruct templates as [|t l]; [|discriminate].
    eexists. split; [reflexivity|]. split; [exact P | constructor].
  - eexists. split; [reflexivity|]. split.
    + rewrite List.map_map. cbn [aa_template]. rewrite List.map_id. exact P.
    + apply List.Forall_forall. intros e He. apply in_map_iff in He.
      destruct He as (t & <- & Ht).
      cbv beta iota zeta delta [aa_template aa_student_info si_total_attempts si_can_retake
                                si_max_attempts_reached si_best_score].
      rewrite attempts_of_template by (apply in_map; exact Ht).
      fold (attempt_count (store w) (tpl_id t) studentId).
      set (count := attempt_count (store w) (tpl_id t) studentId).
      assert (Hretake : match max_attempts t with
                        | Some max => (max =? 0)%Z || (count <? max)%Z
                        | None => true
                        end = negb (cap_reached t count)).
      { unfold cap_reached. destruct (max_attempts t) as [m|]; [|reflexivity].
        rewrite negb_andb, negb_involutive, Z.leb_antisym, negb_involutive. reflexivity. }
      split; [reflexivity|]. split; [exact Hretake|]. split.
      { unfold cap_reached. destruct (max_attempts t) as [m|]; [|split; discriminate].
        destruct (m =? 0)%Z; cbn [negb andb]; [split; discriminate|].
        split; [intros H; injection H as ->; reflexivity | intros ->; reflexivity]. }
      split; [apply max_of_zeros|].
      intros Hr Hact Hl. rewrite Hretake in Hr. apply negb_true_iff in Hr.
      rewrite validateStudentCanStartAssessment_spec, Hl.
      apply (Permutation_in _ P) in Ht. apply List.filter_In in Ht.
      destruct Ht as [_ Hv]. apply andb_prop in Hv. destruct Hv as [-> ->].
      fold count. rewrite Hact, Hr. reflexivity.
Qed.

Lemma listing_agrees_with_start_checks_witness :
  exists listing,
    StudentAssessmentService.getAvailableAssessments (fun _ => 0) (fun _ => Some true)
      "stu" demo_retake_world = (inr listing, demo_retake_world) /\
    List.map (fun e => (si_total_attempts (aa_student_info e),
                        si_can_retake (aa_student_info e))) listing = [(1%nat, true)].
Proof.
  destruct (listing_agrees_with_start_checks (fun _ => 0) (fun _ => Some true)
              "stu" demo_retake_world) as (listing & E & _ & _).
  exists listing. split; [exact E|].
  vm_compute in E. injection E as <-. reflexivity.
Defined.

(* ===================================================================== *)
(** ** Further properties: the standalone flow *)
(* ===================================================================== *)

Lemma round_half_up_all (n : nat) : (0 < n)%nat -> round_half_up n n = 100.
Proof.
  intros Hn. unfold round_half_up. symmetry.
  apply (Z.div_unique _ _ 100 (Z.of_nat n)); lia.
Qed.

(** X20.  The standalone [finish] grades each response on its own and
    counts responses, not questions.  The rows, the total and the number
    correct of two response lists put together are those of the two lists
    taken apart, put together; so nothing is checked across responses, and
    a list of n copies (0 < n < 40) of a single response that is graded
    correct has n correct of n, scores 100 and passes. *)
Theorem finish_counts_responses_not_questions
    (parse_index : option string -> option Z) (assessmentId : string)
    (questions : list AssessmentService.FullQuestion) :
  let finish := AssessmentService.finish parse_index assessmentId questions in
  (forall rs1 rs2,
     AssessmentService.toSave (finish (rs1 ++ rs2)%list)
     = (AssessmentService.toSave (finish rs1) ++ AssessmentService.toSave (finish rs2))%list /\
     AssessmentService.total (finish (rs1 ++ rs2)%list)
     = (AssessmentService.total (finish rs1) + AssessmentService.total (finish rs2))%nat /\
     AssessmentService.correct (finish (rs1 ++ rs2)%list)
     = (AssessmentService.correct (finish rs1) + AssessmentService.correct (finish rs2))%nat) /\
  (forall r n,
     snd (AssessmentService.grade parse_index (AssessmentService.question_map questions) r)
     = true ->
     (0 < n < 40)%nat ->
     AssessmentService.correct (finish (List.repeat r n)) = n /\
     AssessmentService.total (finish (List.repeat r n)) = n /\
     AssessmentService.score (finish (List.repeat r n)) = JS.of_int 100 /\
     AssessmentService.passed (finish (List.repeat r n)) = true).
Proof.
  intros finish. split.
  - intros rs1 rs2. unfold finish, AssessmentService.finish.
    cbv zeta. cbn [AssessmentService.toSave AssessmentService.total AssessmentService.correct].
    unfold JS.count. rewrite !List.map_app, List.filter_app, !List.length_app.
    repeat split.
  - intros r n Hg Hn.
    assert (Hc : AssessmentService.correct (finish (List.repeat r n)) = n).
    { unfold finish, AssessmentService.finish. cbv zeta. cbn [AssessmentService.correct].
      rewrite count_map. unfold JS.count. cbn [snd].
      clear Hn. induction n as [|n IH]; [reflexivity|].
      cbn [List.repeat List.filter]. rewrite Hg. cbn [List.length]. rewrite IH. reflexivity. }
    assert (Ht : AssessmentService.total (finish (List.repeat r n)) = n)
      by (unfold finish, AssessmentService.finish; cbv zeta;
          cbn [AssessmentService.total]; apply List.repeat_length).
    destruct (finish_counts parse_index assessmentId questions (List.repeat r n))
      as (_ & _ & _ & Hs & Hp).
    fold finish in Hs, Hp. cbv zeta in Hs, Hp. fold finish in Hs, Hp.
    rewrite Hc, Ht in Hs.
    destruct (score_table n n (Nat.le_refl n) (proj2 Hn)) as [E1 E2].
    cbn [fst snd] in E1, E2. rewrite round_half_up_all in E1, E2 by apply Hn.
    split; [exact Hc|]. split; [exact Ht|]. split; [rewrite Hs; exact E1|].
    rewrite Hp, Hs. exact E2.
Qed.

Lemma finish_counts_responses_not_questions_witness :
  let r := AssessmentService.finish (fun _ => None) "a1" [text_question_a]
             (List.repeat (answer_q "a") 20) in
  AssessmentService.correct r = 20%nat /\ AssessmentService.passed r = true.
Proof.
  destruct (proj2 (finish_counts_responses_not_questions (fun _ => None) "a1"
                     [text_question_a])
              (answer_q "a") 20%nat) as (Hc & _ & _ & Hp).
  - vm_compute. reflexivity.
  - lia.
  - split; [exact Hc | exact Hp].
Defined.

(** X21.  The two flows know the same question types.  The standalone
    flow's [sanitizeQuestionType] maps a type to mcq exactly when response
    scoring of the template flow treats it as a choice question, to text
    exactly when scoring treats it as a text question, and to null
    otherwise; the types it keeps are exactly SUPPORTED_TYPES; and for a
    question whose type is not among them, scoring marks every response
    incorrect with 0 points. *)
Theorem question_types_classified_alike (t : string) :
  AssessmentService.sanitizeQuestionType (Some t)
  = (if StudentAssessmentService.is_mcq_type t then Some AssessmentService.mcq
     else if StudentAssessmentService.is_text_type t then Some AssessmentService.text
     else None) /\
  (In t AssessmentService.SUPPORTED_TYPES
   <-> AssessmentService.sanitizeQuestionType (Some t) <> None) /\
  (~ In t AssessmentService.SUPPORTED_TYPES ->
   forall question dto w,
     question_type question = t ->
     StudentAssessmentService.validateAndScoreResponse question dto w
     = (inr (false, 0), w)).
Proof.
  assert (E : AssessmentService.sanitizeQuestionType (Some t)
              = (if StudentAssessmentService.is_mcq_type t then Some AssessmentService.mcq
                 else if StudentAssessmentService.is_text_type t
                      then Some AssessmentService.text else None)).
  { unfold AssessmentService.sanitizeQuestionType, StudentAssessmentService.is_mcq_type,
      StudentAssessmentService.is_text_type.
    destruct t as [|a s]; reflexivity. }
  assert (S : In t AssessmentService.SUPPORTED_TYPES
              <-> StudentAssessmentService.is_mcq_type t
                  || StudentAssessmentService.is_text_type t = true).
  { unfold AssessmentService.SUPPORTED_TYPES, StudentAssessmentService.is_mcq_type,
      StudentAssessmentService.is_text_type. split.
    - intros H. repeat (destruct H as [<-|H]; [reflexivity|]). destruct H.
    - intros H. cbn [In].
      repeat (apply orb_prop in H; destruct H as [H|H]);
        apply String.eqb_eq in H; subst; tauto. }
  split; [exact E|]. split.
  - rewrite E, S.
    destruct (StudentAssessmentService.is_mcq_type t),
      (StudentAssessmentService.is_text_type t); cbn; split; congruence.
  - intros Hn question dto w <-.
    unfold StudentAssessmentService.validateAndScoreResponse.
    destruct (StudentAssessmentService.is_mcq_type (question_type question)) eqn:Hm;
      [exfalso; apply Hn, S; rewrite ?Hm; reflexivity|].
    destruct (StudentAssessmentService.is_text_type (question_type question)) eqn:Ht;
      [exfalso; apply Hn, S; rewrite ?Hm, ?Ht; reflexivity|].
    reflexivity.
Qed.

Lemma question_types_classified_alike_witness :
  StudentAssessmentService.validateAndScoreResponse
    {| q_id := "q1"; question_type := "essay"; question_text := "Explain.";
       question_image_url := None; difficulty_level := "hard"; points_value := Some 5;
       time_limit_seconds := None; q_explanation := None |} (demo_dto "o2") demo_live_world
  = (inr (false, 0), demo_live_world).
Proof.
  apply (proj2 (proj2 (question_types_classified_alike "essay"))); [|reflexivity].
  vm_compute. intuition discriminate.
Defined.

(* ===================================================================== *)
(** ** Further properties: the questions of the standalone flow *)
(* ===================================================================== *)

Section Sorting.

Context {A : Type} (key : A -> Z).

Lemma insert_by_Forall (P : A -> Prop) x l :
  P x -> Forall P l -> Forall P (insert_by key x l).
Proof.
  intros Hx Hl. induction Hl as [|y l Hy Hl IH]; simpl; [repeat constructor; exact Hx|].
  destruct (key x <=? key y)%Z; repeat constructor; assumption.
Qed.

Lemma insert_by_ascending x l : ascending key l -> ascending key (insert_by key x l).
Proof.
  induction l as [|y l IH]; simpl; [intros _; split; [constructor | exact I]|].
  intros [Hy Hl]. destruct (key x <=? key y)%Z eqn:C.
  - apply Z.leb_le in C. split; [|split; assumption].
    constructor; [lia|]. eapply List.Forall_impl; [|exact Hy]. intros z Hz. cbn beta in Hz. lia.
  - apply Z.leb_gt in C. split; [|apply IH; exact Hl].
    apply insert_by_Forall; [lia | exact Hy].
Qed.

Lemma order_asc_ascending l : ascending key (order_asc key l).
Proof.
  induction l as [|x l IH]; [exact I|]. unfold order_asc in *. simpl.
  apply insert_by_ascending. exact IH.
Qed.

Lemma ascending_filter (p : A -> bool) l : ascending key l -> ascending key (List.filter p l).
Proof.
  induction l as [|x l IH]; [intros _; exact I|]. intros [Hx Hl]. simpl.
  destruct (p x); [|apply IH; exact Hl].
  split; [|apply IH; exact Hl].
  apply List.Forall_forall. intros y Hy. apply List.filter_In in Hy.
  rewrite List.Forall_forall in Hx. apply Hx. apply Hy.
Qed.

(** A stable sort leaves an ascending list as it is. *)
Lemma sort_by_ascending l : ascending key l -> AssessmentFetch.sort_by key l = l.
Proof.
  induction l as [|x l IH]; [reflexivity|]. intros [Hx Hl].
  unfold AssessmentFetch.sort_by in *. simpl. rewrite (IH Hl).
  destruct l as [|y l]; [reflexivity|]. simpl.
  inversion Hx as [|? ? Hxy _]; subst.
  apply Z.leb_le in Hxy. rewrite Hxy. reflexivity.
Qed.

Lemma insert_by_front x l :
  Forall (fun y => key x <= key y) l -> insert_by key x l = x :: l.
Proof.
  intros H. destruct H as [|y l Hy _]; [reflexivity|]. simpl.
  apply Z.leb_le in Hy. rewrite Hy. reflexivity.
Qed.

Lemma filter_insert_by (p : A -> bool) x l :
  ascending key l ->
  List.filter p (insert_by key x l)
  = if p x then insert_by key x (List.filter p l) else List.filter p l.
Proof.
  induction l as [|y l IH]; [intros _; simpl; destruct (p x); reflexivity|].
  intros [Hy Hl]. simpl. destruct (key x <=? key y)%Z eqn:C.
  - simpl. destruct (p x) eqn:Px; [|reflexivity].
    rewrite insert_by_front; [reflexivity|].
    apply Z.leb_le in C. apply List.Forall_forall. intros z Hz.
    destruct (p y).
    + destruct Hz as [<-|Hz]; [exact C|].
      apply List.filter_In in Hz. rewrite List.Forall_forall in Hy.
      specialize (Hy z (proj1 Hz)). cbn beta in Hy. lia.
    + apply List.filter_In in Hz. rewrite List.Forall_forall in Hy.
      specialize (Hy z (proj1 Hz)). cbn beta in Hy. lia.
  - simpl. rewrite (IH Hl). destruct (p y), (p x); simpl; rewrite ?C; reflexivity.
Qed.

(** Sorting a selection of rows selects from the sorted rows. *)
Lemma filter_order_asc (p : A -> bool) l :
  List.filter p (order_asc key l) = order_asc key (List.filter p l).
Proof.
  induction l as [|x l IH]; [reflexivity|].
  change (order_asc key (x :: l)) with (insert_by key x (order_asc key l)).
  rewrite filter_insert_by by apply order_asc_ascending. rewrite IH. simpl.
  destruct (p x); reflexivity.
Qed.

End Sorting.

Section StandaloneFetch.

Import AssessmentService AssessmentFetch.

(** Grouping the option rows by question keeps, under each id, the rows of
    that question in their order. *)
Lemma grouped_options (rows : list OptionRow) (id : string) :
  forall acc : gmap string (list OptionRow),
    default [] (List.fold_left
                  (fun (map : gmap string (list OptionRow)) row =>
                     let current := default [] (map !! o_question_id row) in
                     <[o_question_id row := (current ++ [row])%list]> map)
                  rows acc !! id)
    = (default [] (acc !! id)
       ++ List.filter (fun o => o_question_id o =? id) rows)%list.
Proof.
  induction rows as [|row rows IH]; intros acc; [cbn; rewrite List.app_nil_r; reflexivity|].
  cbn [List.fold_left List.filter]. rewrite IH. cbv zeta.
  destruct (String.eqb_spec (o_question_id row) id) as [E|N].
  - rewrite E, lookup_insert. cbn.
    destruct (decide (id = id)) as [_|C]; [|congruence].
    cbn. rewrite <- List.app_assoc. reflexivity.
  - rewrite lookup_insert_ne by exact N. reflexivity.
Qed.

Lemma filter_in_filter (ids : list string) (id : string) (l : list OptionRow) :
  List.filter (fun o => o_question_id o =? id)
    (List.filter (fun o => in_filter ids (o_question_id o)) l)
  = if in_filter ids id then List.filter (fun o => o_question_id o =? id) l else [].
Proof.
  induction l as [|o l IH]; [destruct (in_filter ids id); reflexivity|].
  cbn [List.filter].
  destruct (String.eqb_spec (o_question_id o) id) as [E|N].
  - rewrite E. destruct (in_filter ids id) eqn:F; [|exact IH].
    cbn [List.filter]. rewrite E, String.eqb_refl, IH. reflexivity.
  - destruct (in_filter ids (o_question_id o)).
    + cbn [List.filter]. apply String.eqb_neq in N. rewrite N. exact IH.
    + exact IH.
Qed.

(** [fetchOptions]: under each id among [questionIds], the stored options
    of that question in ascending order_index; nothing under other ids. *)
Lemma fetchOptions_lookup (questionIds : list string) (w : World) :
  exists optionsMap,
    fetchOptions questionIds w = (inr optionsMap, w) /\
    forall id,
      default [] (optionsMap !! id)
      = if in_filter questionIds id then sorted_options (store w) id else [].
Proof.
  unfold fetchOptions. destruct (List.length questionIds =? 0)%nat eqn:Hz.
  - exists ∅. split; [reflexivity|]. intros id.
    apply Nat.eqb_eq in Hz. destruct questionIds; [|discriminate]. reflexivity.
  - unfold rest_get, bind, read, ret. cbv beta iota delta [ok json negb].
    eexists. split; [reflexivity|]. intros id.
    rewrite lookup_fmap.
    match goal with
    | |- default [] (sort_by o_order_index <$> ?o) = _ =>
        transitivity (sort_by o_order_index (default [] o));
          [destruct o; reflexivity|]
    end.
    rewrite grouped_options, lookup_empty. cbn [default List.app].
    rewrite filter_order_asc, filter_in_filter.
    destruct (in_filter questionIds id); [|reflexivity].
    apply sort_by_ascending. apply order_asc_ascending.
Qed.

Lemma fetchTextAnswers_returns (questionIds : list string) (w : World) :
  exists textAnswerMap, fetchTextAnswers questionIds w = (inr textAnswerMap, w).
Proof.
  unfold fetchTextAnswers. destruct (List.length questionIds =? 0)%nat.
  - exists ∅. reflexivity.
  - unfold rest_get, bind, read, ret. cbv beta iota delta [ok json negb].
    eexists. reflexivity.
Qed.

Lemma NoDup_map_flat {X Y Z0} (g : Y -> Z0) (h : X -> Z0) (f : X -> list Y) (l : list X) :
  (forall a, f a = [] \/ exists b, f a = [b] /\ g b = h a) ->
  List.NoDup (List.map h l) -> List.NoDup (List.map g (List.flat_map f l)).
Proof.
  intros Hf. induction l as [|a l IH]; [intros _; constructor|].
  cbn [List.map List.flat_map]. intros Hn. inversion Hn as [|? ? Hna Hnl]; subst.
  destruct (Hf a) as [E|(b & E & Eg)]; rewrite E; [apply IH; exact Hnl|].
  cbn [List.app List.map]. constructor; [|apply IH; exact Hnl].
  intros Hin. apply Hna. rewrite Eg in Hin.
  apply in_map_iff in Hin. destruct Hin as (y & Hy & Hin).
  apply in_flat_map in Hin. destruct Hin as (a' & Ha' & Hya').
  apply in_map_iff. exists a'. split; [|exact Ha'].
  destruct (Hf a') as [E'|(b' & E' & Eg')]; rewrite E' in Hya'; [destruct Hya'|].
  destruct Hya' as [<-|[]]. congruence.
Qed.

Lemma NoDup_map_filter {X Y} (h : X -> Y) (p : X -> bool) (l : list X) :
  List.NoDup (List.map h l) -> List.NoDup (List.map h (List.filter p l)).
Proof.
  intros Hn.
  replace (List.filter p l) with (List.flat_map (fun a => if p a then [a] else []) l).
  - apply (NoDup_map_flat h h); [|exact Hn].
    intros a. destruct (p a); [right; exists a; split; reflexivity | left; reflexivity].
  - clear Hn. induction l as [|a l IH]; [reflexivity|].
    cbn [List.flat_map List.filter]. rewrite IH. destruct (p a); reflexivity.
Qed.

Lemma In_firstn {X} (n : nat) (l : list X) (x : X) : In x (List.firstn n l) -> In x l.
Proof.
  intros H. rewrite <- (List.firstn_skipn n l). apply in_or_app. left. exact H.
Qed.

Section Returns.

Variable q_is_active : QuestionRow -> option bool.
Variable q_created_at : QuestionRow -> Z.

(** The rows [fetchQuestions] keeps of the rows selected. *)
Lemma kept_rows (ids : option (list string)) (rows : list QuestionRow)
    (e : QuestionRow * QuestionType) :
  In e (List.flat_map
          (fun row =>
             match sanitizeQuestionType (Some (question_type row)) with
             | None => []
             | Some type =>
                 match ids, q_is_active row with
                 | None, Some false => []
                 | _, _ => [(row, type)]
                 end
             end) rows)
  <-> In (fst e) rows /\
      sanitizeQuestionType (Some (question_type (fst e))) = Some (snd e) /\
      (ids = None -> q_is_active (fst e) <> Some false).
Proof.
  rewrite in_flat_map. split.
  - intros (row & Hrow & He).
    destruct (sanitizeQuestionType (Some (question_type row))) as [type|] eqn:Hs;
      [|destruct He].
    destruct ids as [l|]; [|destruct (q_is_active row) as [[|]|] eqn:Ha];
      try (destruct He as [<-|[]]; cbn; repeat split; [assumption..|congruence]);
      destruct He.
  - intros (Hrow & Hs & Ha). exists (fst e). split; [exact Hrow|]. rewrite Hs.
    destruct e as [row type]. cbn in *.
    destruct ids as [l|]; [left; reflexivity|].
    destruct (q_is_active row) as [[|]|]; try (left; reflexivity).
    exfalso. apply Ha; reflexivity.
Qed.

(** What [fetchQuestions] builds from the rows it keeps. *)
Lemma fetchQuestions_tail (ids : option (list string)) (rows : list QuestionRow) (w : World) :
  let mapped :=
    List.flat_map
      (fun row =>
         match sanitizeQuestionType (Some (question_type row)) with
         | None => []
         | Some type =>
             match ids, q_is_active row with
             | None, Some false => []
             | _, _ => [(row, type)]
             end
         end) rows in
  exists textAnswerMap,
    (if (List.length mapped =? 0)%nat then ret [] else
     let mcqIds :=
       List.map (fun e => q_id (fst e)) (List.filter (fun e => is_mcq (snd e)) mapped) in
     let textIds :=
       List.map (fun e => q_id (fst e)) (List.filter (fun e => is_text (snd e)) mapped) in
     let* optionsMap := fetchOptions mcqIds in
     let* textAnswerMap := fetchTextAnswers textIds in
     ret (List.map
            (fun e =>
               let row := fst e in
               {| fetched_full :=
                    {| fq_id := q_id row;
                       fq_type := snd e;
                       fq_options :=
                         List.map to_db_option (default [] (optionsMap !! q_id row));
                       fq_textAnswer := textAnswerMap !! q_id row |};
                  fetched_prompt := question_text row;
                  fetched_imageUrl := question_image_url row;
                  fetched_points := match points_value row with Some n => n | None => 1 end;
                  fetched_timeLimit := time_limit_seconds row;
                  fetched_rawType := question_type row |})
            mapped)) w
    = (inr (List.map (built_question (store w) (mcq_ids mapped) textAnswerMap) mapped), w).
Proof.
  intros mapped. destruct (List.length mapped =? 0)%nat eqn:Hz.
  - apply Nat.eqb_eq in Hz. destruct mapped; [|discriminate]. exists ∅. reflexivity.
  - cbv zeta. fold (mcq_ids mapped). unfold bind at 1.
    destruct (fetchOptions_lookup (mcq_ids mapped) w) as (optionsMap & Eo & Ho).
    rewrite Eo. unfold bind at 1.
    match goal with
    | |- context [fetchTextAnswers ?l w] =>
        destruct (fetchTextAnswers_returns l w) as (textAnswerMap & Et); rewrite Et
    end.
    exists textAnswerMap. unfold ret. f_equal. f_equal.
    apply List.map_ext. intros e. unfold built_question. rewrite Ho. reflexivity.
Qed.

Lemma fetchQuestions_returns (ids : option (list string)) (w : World) :
  exists mapped textAnswerMap,
    fetchQuestions q_is_active q_created_at ids w
    = (inr (List.map (built_question (store w) (mcq_ids mapped) textAnswerMap) mapped), w) /\
    (forall e, In e mapped ->
       In (fst e) (assessment_questions (store w)) /\
       sanitizeQuestionType (Some (question_type (fst e))) = Some (snd e)) /\
    (forall id0 more, ids = Some (id0 :: more) ->
       (forall row type, In row (assessment_questions (store w)) ->
          in_filter (id0 :: more) (q_id row) = true ->
          sanitizeQuestionType (Some (question_type row)) = Some type ->
          In (row, type) mapped) /\
       (List.NoDup (List.map q_id (assessment_questions (store w))) ->
        List.NoDup (List.map (fun e => q_id (fst e)) mapped))) /\
    (ids = None ->
     (List.length mapped <= DEFAULT_LIMIT)%nat /\
     Forall (fun e => q_is_active (fst e) <> Some false) mapped).
Proof.
  assert (Hflat : forall (rows : list QuestionRow),
             let f := fun row =>
                        match sanitizeQuestionType (Some (question_type row)) with
                        | None => []
                        | Some type =>
                            match ids, q_is_active row with
                            | None, Some false => []
                            | _, _ => [(row, type)]
                            end
                        end in
             (List.length (List.flat_map f rows) <= List.length rows)%nat /\
             (List.NoDup (List.map q_id rows) ->
              List.NoDup (List.map (fun e => q_id (fst e)) (List.flat_map f rows)))).
  { intros rows f. split.
    - induction rows as [|row rows IH]; [cbn; lia|].
      cbn [List.flat_map List.length]. rewrite List.length_app.
      assert ((List.length (f row) <= 1)%nat); [|lia].
      unfold f. destruct (sanitizeQuestionType _); [|cbn; lia].
      destruct ids; [cbn; lia|]. destruct (q_is_active row) as [[|]|]; cbn; lia.
    - apply (NoDup_map_flat (fun e => q_id (fst e)) q_id f).
      intros row. unfold f. destruct (sanitizeQuestionType _) as [type|]; [|left; reflexivity].
      destruct ids; [right; eexists; split; reflexivity|].
      destruct (q_is_active row) as [[|]|];
        (left; reflexivity) || (right; eexists; split; reflexivity). }
  unfold fetchQuestions.
  destruct ids as [[|id0 more]|].
  - (* an empty id list: the default selection *)
    unfold bind at 1. unfold bind at 1, rest_get at 1, bind at 1, read at 1, ret at 1, ret at 1.
    cbv beta iota delta [ok json negb status].
    match goal with
    | |- context [List.flat_map ?f ?rows] =>
        destruct (fetchQuestions_tail (Some []) rows w) as (textAnswerMap & E);
        cbv zeta in E; exists (List.flat_map f rows), textAnswerMap
    end.
    split; [exact E|]. split.
    { intros e He.
      match type of He with
      | In _ (List.flat_map _ ?rows) =>
          apply (proj1 (kept_rows (Some []) rows e)) in He
      end.
      destruct He as (Hr & Hs & _).
      split; [|exact Hs]. apply In_firstn in Hr.
      apply (Permutation_in _ (order_asc_Permutation _ _)) in Hr.
      apply List.filter_In in Hr. apply Hr. }
    split; [intros ? ? H; discriminate | intros H; discriminate].
  - (* ids given *)
    unfold bind at 1, rest_get at 1, bind at 1, read at 1, ret at 1.
    cbv beta iota delta [ok json negb status].
    match goal with
    | |- context [List.flat_map ?f ?rows] =>
        destruct (fetchQuestions_tail (Some (id0 :: more)) rows w) as (textAnswerMap & E);
        cbv zeta in E; exists (List.flat_map f rows), textAnswerMap
    end.
    split; [exact E|]. split.
    { intros e He.
      match type of He with
      | In _ (List.flat_map _ ?rows) =>
          apply (proj1 (kept_rows (Some (id0 :: more)) rows e)) in He
      end.
      destruct He as (Hr & Hs & _).
      split; [|exact Hs]. apply List.filter_In in Hr. apply Hr. }
    split.
    { intros i m Hi. injection Hi as <- <-. split.
      - intros row type Hrow Hin Hs.
        apply (proj2 (kept_rows (Some (id0 :: more)) _ (row, type))). cbn [fst snd].
        split; [apply List.filter_In; split; assumption|]. split; [exact Hs | discriminate].
      - intros Hn. apply Hflat. apply NoDup_map_filter. exact Hn. }
    intros H; discriminate.
  - (* no ids: the default selection *)
    unfold bind at 1. unfold bind at 1, rest_get at 1, bind at 1, read at 1, ret at 1, ret at 1.
    cbv beta iota delta [ok json negb status].
    match goal with
    | |- context [List.flat_map ?f ?rows] =>
        destruct (fetchQuestions_tail None rows w) as (textAnswerMap & E);
        cbv zeta in E; exists (List.flat_map f rows), textAnswerMap;
        pose proof (proj1 (Hflat rows)) as Hlen
    end.
    split; [exact E|]. split.
    { intros e He.
      match type of He with
      | In _ (List.flat_map _ ?rows) =>
          apply (proj1 (kept_rows None rows e)) in He
      end.
      destruct He as (Hr & Hs & _).
      split; [|exact Hs]. apply In_firstn in Hr.
      apply (Permutation_in _ (order_asc_Permutation _ _)) in Hr.
      apply List.filter_In in Hr. apply Hr. }
    split; [intros ? ? H; discriminate|]. intros _. split.
    { cbv zeta in Hlen. etransitivity; [exact Hlen|]. apply List.firstn_le_length. }
    apply List.Forall_forall. intros e He.
    match type of He with
    | In _ (List.flat_map _ ?rows) => apply (proj1 (kept_rows None rows e)) in He
    end.
    destruct He as (_ & _ & Ha). apply Ha. reflexivity.
Qed.

End Returns.

End StandaloneFetch.

Section RoundTrip.

Import AssessmentService AssessmentFetch.

Lemma in_filter_true (values : list string) (x : string) :
  x <> "" -> In x values -> in_filter values x = true.
Proof.
  intros Hx Hin. unfold in_filter. apply existsb_exists. exists x.
  split; [|apply String.eqb_refl]. apply List.filter_In. split; [exact Hin|].
  unfold JS.truthy. apply negb_true_iff. apply String.eqb_neq. exact Hx.
Qed.

Lemma distinct_In (values : list string) (v : string) : forall seen,
  In v values -> ~ In v seen -> In v (distinct seen values).
Proof.
  induction values as [|x values IH]; intros seen Hin Hs; [destruct Hin|].
  cbn [distinct]. destruct (existsb (fun s => s =? x) seen) eqn:E.
  - destruct Hin as [->|Hin]; [|apply IH; assumption].
    exfalso. apply Hs. apply existsb_exists in E. destruct E as (s & Hs' & Es).
    apply String.eqb_eq in Es. subst. exact Hs'.
  - destruct Hin as [->|Hin]; [left; reflexivity|].
    destruct (String.eqb_spec x v) as [->|N]; [left; reflexivity|].
    right. apply IH; [exact Hin|]. intros [C|C]; [congruence | exact (Hs C)].
Qed.

Lemma question_map_from (qs : list FullQuestion) (id : string) :
  forall acc : gmap string FullQuestion,
    ~ In id (List.map fq_id qs) ->
    List.fold_left (fun m q => <[fq_id q := q]> m) qs acc !! id = acc !! id.
Proof.
  induction qs as [|q qs IH]; intros acc Hn; [reflexivity|].
  cbn [List.fold_left]. rewrite IH by (intros C; apply Hn; right; exact C).
  apply lookup_insert_ne. intros C. apply Hn. left. exact C.
Qed.

(** Among questions with distinct ids, the map of [finish] finds each
    under its id. *)
Lemma question_map_lookup (qs : list FullQuestion) (q : FullQuestion) :
  List.NoDup (List.map fq_id qs) -> In q qs -> question_map qs !! fq_id q = Some q.
Proof.
  unfold question_map. generalize (∅ : gmap string FullQuestion).
  induction qs as [|q0 qs IH]; intros acc Hn Hin; [destruct Hin|].
  cbn [List.map] in Hn. inversion Hn as [|? ? Hq0 Hqs]; subst.
  cbn [List.fold_left]. destruct Hin as [->|Hin].
  - rewrite question_map_from by exact Hq0. apply lookup_insert_eq.
  - apply IH; assumption.
Qed.

Lemma lookup_map {X Y} (f : X -> Y) (l : list X) : forall n,
  List.map f l !! n = option_map f (l !! n).
Proof.
  induction l as [|x l IH]; intros [|n]; cbn; try reflexivity. apply IH.
Qed.

End RoundTrip.

(** X22.  The answer index of a choice question is read against the list
    that was shown.  Let the question set show a choice question with a
    non-empty id and a list of options, over a question table with
    distinct ids.  Then that list is the stored option texts of the
    question in ascending order_index; and when [finish] grades a response
    to that question whose answer parses to the index i >= 0, the answer it
    stores is the option text shown at position i (null when there is
    none), and the response is correct exactly when the stored option at
    that position is flagged correct. *)
Theorem answer_index_round_trip
    (q_is_active : QuestionRow -> option bool) (q_created_at : QuestionRow -> Z)
    (parse_index : option string -> option Z)
    (w w1 w2 : World) (shown : list AssessmentFetch.RunnerQuestion)
    (qs : list AssessmentService.FullQuestion)
    (id prompt rawType : string) (options : list string) (imageUrl : option string)
    (timeLimit : option Z)
    (responses : list AssessmentService.RunnerResponse)
    (r : AssessmentService.RunnerResponse) (i : Z) :
  AssessmentFetch.getQuestionSet q_is_active q_created_at w = (inr shown, w1) ->
  In (AssessmentFetch.RunnerMcq id prompt options imageUrl rawType timeLimit) shown ->
  List.NoDup (List.map q_id (assessment_questions (store w))) ->
  id <> "" ->
  AssessmentFetch.finish_questions q_is_active q_created_at responses w = (inr qs, w2) ->
  In r responses ->
  AssessmentService.question_id r = id ->
  parse_index (AssessmentService.answer r) = Some i ->
  0 <= i ->
  options = List.map option_text (sorted_options (store w) id) /\
  AssessmentService.grade parse_index (AssessmentService.question_map qs) r
  = (options !! Z.to_nat i,
     match sorted_options (store w) id !! Z.to_nat i with
     | Some o => is_correct o
     | None => false
     end).
Proof.
  intros Hset Hshown Hnd Hid Hfin Hr Hq Hparse Hi.
  (* the question set *)
  unfold AssessmentFetch.getQuestionSet, bind in Hset.
  destruct (fetchQuestions_returns q_is_active q_created_at None w)
    as (mapped & tm & E & P1 & _ & _).
  rewrite E in Hset. unfold ret in Hset. injection Hset as <- <-.
  apply in_map_iff in Hshown. destruct Hshown as (fq & Hrun & Hfq).
  apply in_map_iff in Hfq. destruct Hfq as (e & <- & He).
  destruct (P1 e He) as [Hrow Hs].
  unfold built_question in Hrun. cbn in Hrun.
  destruct (snd e) eqn:Hty; [|discriminate].
  injection Hrun as Eid _ Eopts _ _ _.
  assert (Hmcq : In id (mcq_ids mapped)).
  { unfold mcq_ids. apply in_map_iff. exists e. split; [exact Eid|].
    apply List.filter_In. split; [exact He|]. rewrite Hty. reflexivity. }
  rewrite Eid, (in_filter_true _ _ Hid Hmcq), List.map_map in Eopts.
  cbn [AssessmentFetch.to_db_option AssessmentService.do_option_text] in Eopts.
  split; [symmetry; exact Eopts|].
  (* the questions fetched by finish *)
  unfold AssessmentFetch.finish_questions, bind in Hfin.
  set (questionIds := AssessmentFetch.distinct []
                        (List.filter JS.truthy
                           (List.map AssessmentService.question_id responses))) in Hfin.
  assert (Hin : In id questionIds).
  { apply distinct_In; [|intros []]. apply List.filter_In. split.
    - apply in_map_iff. exists r. split; assumption.
    - unfold JS.truthy. apply negb_true_iff, String.eqb_neq. exact Hid. }
  destruct (fetchQuestions_returns q_is_active q_created_at (Some questionIds) w)
    as (mapped' & tm' & E' & _ & P2 & _).
  rewrite E' in Hfin. unfold ret in Hfin. injection Hfin as <- <-.
  destruct questionIds as [|id0 more] eqn:Hids; [destruct Hin|].
  destruct (P2 id0 more eq_refl) as [Hall Hnd'].
  assert (He' : In (fst e, AssessmentService.mcq) mapped').
  { apply Hall; [exact Hrow | rewrite Eid; apply in_filter_true; assumption|].
    first [exact Hs | rewrite Hs, Hty; reflexivity]. }
  set (st := store w) in *.
  set (fq := AssessmentFetch.fetched_full
               (built_question st (mcq_ids mapped') tm' (fst e, AssessmentService.mcq))).
  assert (Hlook : AssessmentService.question_map
                    (List.map AssessmentFetch.fetched_full
                       (List.map (built_question st (mcq_ids mapped') tm') mapped'))
                  !! id = Some fq).
  { replace id with (AssessmentService.fq_id fq) by (cbn; exact Eid).
    apply question_map_lookup.
    - rewrite !List.map_map. cbn. apply Hnd'. exact Hnd.
    - apply in_map. apply in_map. exact He'. }
  assert (Hmcq' : In id (mcq_ids mapped')).
  { unfold mcq_ids. apply in_map_iff. exists (fst e, AssessmentService.mcq).
    split; [exact Eid|]. apply List.filter_In. split; [exact He' | reflexivity]. }
  unfold AssessmentService.grade. rewrite Hq, Hlook.
  cbn [fq built_question AssessmentFetch.fetched_full AssessmentService.fq_type
       AssessmentService.fq_options fst snd].
  rewrite Hparse. apply Z.leb_le in Hi. rewrite Hi.
  rewrite Eid, (in_filter_true _ _ Hid Hmcq'). rewrite <- Eopts, !lookup_map.
  destruct (sorted_options st id !! Z.to_nat i) as [o|]; reflexivity.
Qed.

Lemma answer_index_round_trip_witness :
  exists shown qs,
    AssessmentFetch.getQuestionSet (fun _ => Some true) (fun _ => 0) demo_live_world
    = (inr shown, demo_live_world) /\
    AssessmentFetch.finish_questions (fun _ => Some true) (fun _ => 0) [demo_index_answer]
      demo_live_world = (inr qs, demo_live_world) /\
    AssessmentService.grade demo_parse_index (AssessmentService.question_map qs)
      demo_index_answer = (Some "x = 10", true).
Proof.
  let s := eval vm_compute in
        (AssessmentFetch.getQuestionSet (fun _ => Some true) (fun _ => 0) demo_live_world) in
  let f := eval vm_compute in
        (AssessmentFetch.finish_questions (fun _ => Some true) (fun _ => 0)
           [demo_index_answer] demo_live_world) in
  match s with
  | (inr ?shown, _) =>
      match f with
      | (inr ?qs, _) =>
          exists shown, qs;
          assert (Es : AssessmentFetch.getQuestionSet (fun _ => Some true) (fun _ => 0)
                         demo_live_world = (inr shown, demo_live_world))
            by (vm_compute; reflexivity);
          assert (Ef : AssessmentFetch.finish_questions (fun _ => Some true) (fun _ => 0)
                         [demo_index_answer] demo_live_world = (inr qs, demo_live_world))
            by (vm_compute; reflexivity);
          split; [exact Es|]; split; [exact Ef|];
          destruct (answer_index_round_trip (fun _ => Some true) (fun _ => 0)
                      demo_parse_index demo_live_world demo_live_world demo_live_world
                      shown qs "q1"
                      "What is the correct way to create a variable in Python?" "mcq"
                      ["var x = 10"; "x = 10"] None None [demo_index_answer]
                      demo_index_answer 1 Es) as [_ G]
      end
  end.
  - left. reflexivity.
  - vm_compute. repeat constructor; intros H;
      repeat (destruct H as [H|H]; try discriminate); destruct H.
  - discriminate.
  - exact Ef.
  - left. reflexivity.
  - reflexivity.
  - reflexivity.
  - lia.
  - rewrite G. reflexivity.
Defined.

Lemma sanitizeQuestionType_kind (t : string) (type : AssessmentService.QuestionType) :
  AssessmentService.sanitizeQuestionType (Some t) = Some type ->
  In t AssessmentService.SUPPORTED_TYPES /\
  match type with
  | AssessmentService.mcq => StudentAssessmentService.is_mcq_type t = true
  | AssessmentService.text => StudentAssessmentService.is_text_type t = true
  end.
Proof.
  unfold AssessmentService.sanitizeQuestionType, AssessmentService.SUPPORTED_TYPES,
    StudentAssessmentService.is_mcq_type, StudentAssessmentService.is_text_type.
  destruct (negb (JS.truthy t)); [discriminate|].
  destruct ((t =? "mcq") || (t =? "image_mcq")) eqn:Hm.
  - intros H. injection H as <-. split; [|reflexivity].
    apply orb_prop in Hm. destruct Hm as [H|H]; apply String.eqb_eq in H; subst;
      cbn; tauto.
  - destruct ((t =? "text") || (t =? "image_text") || (t =? "short_text")
              || (t =? "fill_blank")) eqn:Ht; [|discriminate].
    intros H. injection H as <-. split; [|reflexivity].
    repeat (apply orb_prop in Ht; destruct Ht as [Ht|Ht]);
      apply String.eqb_eq in Ht; subst; cbn; tauto.
Qed.

(** X23.  What the question set shows.  [getQuestionSet] returns, writes
    nothing, and shows at most 25 questions.  Each one is built from a
    stored question row that is not inactive and whose type is one of
    SUPPORTED_TYPES, with the id, the text and the type of that row; it is
    shown as a choice question exactly when response scoring treats the
    type as a choice, and then (for a non-empty id) with the stored option
    texts of the question in ascending order_index and nothing else of the
    options; otherwise it is shown as a text question, without options. *)
Theorem question_set_contents
    (q_is_active : QuestionRow -> option bool) (q_created_at : QuestionRow -> Z)
    (w : World) :
  exists shown,
    AssessmentFetch.getQuestionSet q_is_active q_created_at w = (inr shown, w) /\
    (List.length shown <= 25)%nat /\
    Forall (fun question =>
              exists row,
                In row (assessment_questions (store w)) /\
                q_is_active row <> Some false /\
                In (question_type row) AssessmentService.SUPPORTED_TYPES /\
                match question with
                | AssessmentFetch.RunnerMcq id prompt options imageUrl rawType timeLimit =>
                    id = q_id row /\ prompt = question_text row /\
                    rawType = question_type row /\
                    StudentAssessmentService.is_mcq_type (question_type row) = true /\
                    (id <> "" ->
                     options = List.map option_text (sorted_options (store w) id))
                | AssessmentFetch.RunnerText id prompt imageUrl rawType timeLimit =>
                    id = q_id row /\ prompt = question_text row /\
                    rawType = question_type row /\
                    StudentAssessmentService.is_text_type (question_type row) = true
                end)
           shown.
Proof.
  unfold AssessmentFetch.getQuestionSet, bind.
  destruct (fetchQuestions_returns q_is_active q_created_at None w)
    as (mapped & tm & E & P1 & _ & P4).
  destruct (P4 eq_refl) as [Hlen Hact].
  rewrite E. eexists. split; [reflexivity|]. split.
  - rewrite !List.length_map. exact Hlen.
  - apply List.Forall_forall. intros question Hq.
    apply in_map_iff in Hq. destruct Hq as (fq & <- & Hfq).
    apply in_map_iff in Hfq. destruct Hfq as (e & <- & He).
    destruct (P1 e He) as [Hrow Hs].
    apply sanitizeQuestionType_kind in Hs. destruct Hs as [Hsup Hkind].
    rewrite List.Forall_forall in Hact.
    exists (fst e). split; [exact Hrow|]. split; [apply Hact; exact He|].
    split; [exact Hsup|].
    unfold built_question. cbn.
    destruct (snd e) eqn:Hty.
    + split; [reflexivity|]. split; [reflexivity|]. split; [reflexivity|].
      split; [exact Hkind|]. intros Hid.
      assert (Hmcq : In (q_id (fst e)) (mcq_ids mapped)).
      { unfold mcq_ids. apply in_map_iff. exists e. split; [reflexivity|].
        apply List.filter_In. split; [exact He|]. rewrite Hty. reflexivity. }
      rewrite (in_filter_true _ _ Hid Hmcq), List.map_map. reflexivity.
    + repeat split. exact Hkind.
Qed.

(* ===================================================================== *)
(** ** Further properties: the results of a session *)
(* ===================================================================== *)


Section ResultsGate.

Variable Json : Type.
Variables total_score percentage_score correct_answers passed_column : SessionRow -> Json.
Variable time_spent_seconds_column : SessionRow -> option Z.
Variables title passing_percentage : TemplateRow -> Json.
Variable show_results_immediately : TemplateRow -> bool.

Let results :=
  StudentAssessmentService.getAssessmentResults Json total_score percentage_score
    correct_answers passed_column time_spent_seconds_column title passing_percentage
    show_results_immediately.

Let detailed :=
  StudentAssessmentService.getDetailedResults Json total_score percentage_score
    correct_answers passed_column time_spent_seconds_column title passing_percentage
    show_results_immediately.



End ResultsGate.



Lemma detailed_responses_present (rows : list (DetailedResponseRow * option OptionRow)) :
  Forall (fun row => dr_assessment_questions (fst row) <> None) rows ->
  exists entries,
    StudentAssessmentService.detailed_responses rows = inr entries /\
    List.map de_is_correct entries
    = List.map (fun row => r_is_correct (dr_response (fst row))) rows /\
    List.map de_points_earned entries
    = List.map (fun row => r_points_earned (dr_response (fst row))) rows /\
    Forall (fun e => de_student_answer e <> "") entries.
Proof.
  induction 1 as [|[response option] rows Hq _ IH].
  - exists []. repeat split. constructor.
  - destruct IH as (tail & E & H1 & H2 & H3). cbn [fst] in Hq.
    cbn [StudentAssessmentService.detailed_responses].
    destruct (dr_assessment_questions response) as [question|]; [|congruence].
    rewrite E. eexists. split; [reflexivity|].
    cbn [List.map de_is_correct de_points_earned fst]. rewrite H1, H2.
    split; [reflexivity|]. split; [reflexivity|].
    constructor; [|exact H3]. cbn [de_student_answer].
    unfold StudentAssessmentService.or_null, StudentAssessmentService.truthy_str.
    destruct (r_text_answer (dr_response response)) as [text|].
    + destruct (JS.truthy text) eqn:T; [apply truthy_not_empty; exact T|].
      destruct option as [o|]; [|discriminate].
      destruct (JS.truthy (option_text o)) eqn:To;
        [apply truthy_not_empty; exact To | discriminate].
    + destruct option as [o|]; [|discriminate].
      destruct (JS.truthy (option_text o)) eqn:To;
        [apply truthy_not_empty; exact To | discriminate].
Qed.

(** X25.  The detailed results list every response once.  Whatever the
    result columns hold: when [getAssessmentResults] answers for a session
    and every stored response of that session has its question,
    [getDetailedResults] returns those results, writes nothing, and lists
    one entry per stored response of the session in ascending answered_at,
    with the verdict and points of that response and a student answer that
    is never empty (the text answer, else the text of the selected option,
    else 'No answer'); its performance breakdown is that of
    [calculatePerformanceByDifficulty] on these responses. *)
Theorem detailed_results_list_every_response (Json : Type)
    (total_score percentage_score correct_answers passed_column : SessionRow -> Json)
    (time_spent_seconds_column : SessionRow -> option Z)
    (title passing_percentage : TemplateRow -> Json)
    (show_results_immediately : TemplateRow -> bool)
    (sessionId studentId : string) (w : World) (r : AssessmentResults Json) :
  StudentAssessmentService.getAssessmentResults Json total_score percentage_score
    correct_answers passed_column time_spent_seconds_column title passing_percentage
    show_results_immediately sessionId studentId w = (inr r, w) ->
  let rows := StudentAssessmentService.detailed_rows (store w) sessionId in
  let stored := order_asc r_answered_at (responses_of_session (store w) sessionId) in
  Forall (fun row => dr_assessment_questions (fst row) <> None) rows ->
  exists d,
    StudentAssessmentService.getDetailedResults Json total_score percentage_score
      correct_answers passed_column time_spent_seconds_column title passing_percentage
      show_results_immediately sessionId studentId w = (inr d, w) /\
    dres_results d = r /\
    List.map (fun row => dr_response (fst row)) rows = stored /\
    List.map de_is_correct (dres_detailed_responses d) = List.map r_is_correct stored /\
    List.map de_points_earned (dres_detailed_responses d)
    = List.map r_points_earned stored /\
    Forall (fun e => de_student_answer e <> "") (dres_detailed_responses d) /\
    StudentAssessmentService.calculatePerformanceByDifficulty (List.map fst rows)
    = inr (dres_performance_by_difficulty d).
Proof.
  intros Hr rows stored Hq.
  assert (Hrows : List.map (fun row => dr_response (fst row)) rows = stored).
  { unfold rows, stored, StudentAssessmentService.detailed_rows, responses_of_session.
    rewrite List.map_map. cbn [fst dr_response]. apply List.map_id. }
  destruct (detailed_responses_present rows Hq) as (entries & E & H1 & H2 & H3).
  assert (Hq' : Forall (fun x => dr_assessment_questions x <> None) (List.map fst rows)).
  { apply List.Forall_forall. intros x Hx. apply in_map_iff in Hx.
    destruct Hx as (row & <- & Hrow). rewrite List.Forall_forall in Hq. apply Hq. exact Hrow. }
  assert (P : exists perf,
             StudentAssessmentService.calculatePerformanceByDifficulty (List.map fst rows)
             = inr perf).
  { unfold StudentAssessmentService.calculatePerformanceByDifficulty.
    rewrite tally_responses_spec by exact Hq'. eexists. reflexivity. }
  destruct P as (perf & Ep).
  unfold StudentAssessmentService.getDetailedResults. unfold bind at 1. rewrite Hr.
  unfold bind at 1, read at 1. unfold bind at 1. fold rows. rewrite E.
  unfold StudentAssessmentService.lift at 1, ret at 1. unfold bind at 1.
  rewrite Ep. unfold StudentAssessmentService.lift, ret.
  eexists. split; [reflexivity|]. cbn [dres_results dres_detailed_responses
                                        dres_performance_by_difficulty].
  split; [reflexivity|]. split; [exact Hrows|].
  rewrite H1, H2, <- Hrows, !List.map_map.
  repeat split; try reflexivity. exact H3.
Qed.

Lemma detailed_results_list_every_response_witness :
  exists d,
    StudentAssessmentService.getDetailedResults unit (fun _ => tt) (fun _ => tt)
      (fun _ => tt) (fun _ => tt) (fun _ => None) (fun _ => tt) (fun _ => tt)
      (fun _ => true) "s1" "stu" demo_results_world = (inr d, demo_results_world) /\
    List.map de_is_correct (dres_detailed_responses d) = [true] /\
    List.map de_student_answer (dres_detailed_responses d) = ["x = 10"].
Proof.
  let r := eval vm_compute in
        (StudentAssessmentService.getAssessmentResults unit (fun _ => tt) (fun _ => tt)
           (fun _ => tt) (fun _ => tt) (fun _ => None) (fun _ => tt) (fun _ => tt)
           (fun _ => true) "s1" "stu" demo_results_world) in
  match r with
  | (inr ?res, _) =>
      destruct (detailed_results_list_every_response unit (fun _ => tt) (fun _ => tt)
                  (fun _ => tt) (fun _ => tt) (fun _ => None) (fun _ => tt) (fun _ => tt)
                  (fun _ => true) "s1" "stu" demo_results_world res)
        as (d & E & _ & _ & Hc & _)
  end.
  - vm_compute. reflexivity.
  - repeat constructor; discriminate.
  - exists d. split; [exact E|]. split; [exact Hc|].
    vm_compute in E. injection E as <-. reflexivity.
Defined.

(* ===================================================================== *)
(** ** The earlier finish over the fixed question set *)
(* ===================================================================== *)

Section StaticFinish.

Import StaticAssessmentService.

Variable parse_index : option string -> option Z.

Lemma QUESTIONS_length_eq : List.length QUESTIONS = QUESTIONS_length.
Proof. reflexivity. Qed.

Lemma QUESTIONS_ids_distinct : List.NoDup (List.map question_ident QUESTIONS).
Proof.
  vm_compute.
  repeat (constructor;
          [intros H; repeat (destruct H as [H|H]; [discriminate H|]); exact H|]).
  constructor.
Qed.

Lemma NoDup_map_injective {X Y} (f : X -> Y) (l : list X) x y :
  List.NoDup (List.map f l) -> In x l -> In y l -> f x = f y -> x = y.
Proof.
  induction l as [|a l IH]; cbn; [intros _ []|].
  intros N Hx Hy E. inversion N as [|? ? Na Nl]; subst.
  destruct Hx as [->|Hx], Hy as [->|Hy].
  - reflexivity.
  - exfalso. apply Na. rewrite E. apply in_map. exact Hy.
  - exfalso. apply Na. rewrite <- E. apply in_map. exact Hx.
  - apply IH; assumption.
Qed.

Lemma find_question (id : string) q :
  In q QUESTIONS -> question_ident q = id ->
  List.find (fun qq => question_ident qq =? id) QUESTIONS = Some q.
Proof.
  intros Hq E.
  destruct (List.find (fun qq => question_ident qq =? id) QUESTIONS) as [q'|] eqn:F.
  - apply List.find_some in F. destruct F as [Hq' E'].
    apply String.eqb_eq in E'. f_equal.
    apply (NoDup_map_injective question_ident QUESTIONS q' q QUESTIONS_ids_distinct);
      [assumption | assumption | congruence].
  - exfalso. pose proof (List.find_none _ _ F q Hq) as N. cbn beta in N.
    apply String.eqb_neq in N. congruence.
Qed.

Lemma QUESTIONS_keys_in_range id prompt options k :
  In (McqQuestion id prompt options k) QUESTIONS ->
  exists text, options !! k = Some text.
Proof.
  intros Hq.
  assert (T : List.forallb key_in_range QUESTIONS = true) by (vm_compute; reflexivity).
  rewrite List.forallb_forall in T. specialize (T _ Hq). cbn in T.
  apply Nat.ltb_lt in T. apply lookup_lt_is_Some_2 in T. destruct T as [text T].
  exists text. exact T.
Qed.

Lemma decimal_head fuel : forall n acc,
  exists d s, (d < 10)%nat /\
              decimal (S fuel) n acc = String (Ascii.ascii_of_nat (48 + d)) s.
Proof.
  induction fuel as [|fuel IH]; intros n acc; cbn [decimal].
  - exists (n mod 10)%nat, acc. split; [apply Nat.mod_upper_bound; lia|].
    destruct (n / 10 =? 0)%nat; reflexivity.
  - destruct (n / 10 =? 0)%nat.
    + exists (n mod 10)%nat, acc. split; [apply Nat.mod_upper_bound; lia | reflexivity].
    + apply IH.
Qed.

Lemma numeral_not_null n : String_of_index n <> "null".
Proof.
  unfold String_of_index. destruct (decimal_head n n EmptyString) as (d & s & Hd & E).
  rewrite E. intros H. injection H as H _.
  apply (f_equal Ascii.nat_of_ascii) in H.
  rewrite Ascii.nat_ascii_embedding in H by lia. vm_compute in H. lia.
Qed.

Lemma static_grade_mcq r id prompt options k :
  In (McqQuestion id prompt options k) QUESTIONS ->
  AssessmentService.question_id r = id ->
  grade parse_index r =
    (match parse_index (AssessmentService.answer r) with
     | Some idx =>
         if (0 <=? idx)%Z && (idx <? Z.of_nat (List.length options))%Z
         then options !! Z.to_nat idx
         else None
     | None => AssessmentService.answer r
     end,
     String_of_index k =? String_of_answer (AssessmentService.answer r)).
Proof.
  intros Hq E. unfold grade.
  rewrite (find_question (AssessmentService.question_id r) _ Hq (eq_sym E)). reflexivity.
Qed.

Lemma static_saved_row aid rs i r :
  rs !! i = Some r ->
  toSave (finish parse_index aid rs) !! i =
    Some {| AssessmentService.row_assessment_id := aid;
            AssessmentService.row_q_index := AssessmentService.q_index r;
            AssessmentService.row_question_id := AssessmentService.question_id r;
            AssessmentService.row_answer_text := fst (grade parse_index r);
            AssessmentService.row_correct := snd (grade parse_index r) |}.
Proof.
  intros H. unfold finish. cbn [toSave]. rewrite List.map_map, lookup_map, H.
  reflexivity.
Qed.

End StaticFinish.

Lemma count_repeat {X} (p : X -> bool) (x : X) (n : nat) :
  p x = true -> JS.count p (List.repeat x n) = n.
Proof.
  intros H. unfold JS.count. induction n as [|n IH]; cbn; [reflexivity|].
  rewrite H. cbn. rewrite IH. reflexivity.
Qed.

(** X26.  The earlier [finish] marks a response to a choice question of
    the fixed set correct exactly when its answer is the decimal numeral
    of the question's answer index; the text it stores follows the index
    read from the answer instead.  So an answer that reads as the right
    index without being that numeral is saved with the text of the right
    option and marked incorrect; an index outside the options is saved as
    null and an answer that is no number is saved as sent. *)
Theorem static_verdict_is_exact_numeral
    (parse_index : option string -> option Z) (aid : string)
    (rs : list AssessmentService.RunnerResponse) (i : nat)
    (r : AssessmentService.RunnerResponse)
    (id prompt : string) (options : list string) (k : nat) :
  rs !! i = Some r ->
  In (StaticAssessmentService.McqQuestion id prompt options k)
     StaticAssessmentService.QUESTIONS ->
  AssessmentService.question_id r = id ->
  exists row text,
    StaticAssessmentService.toSave
      (StaticAssessmentService.finish parse_index aid rs) !! i = Some row /\
    AssessmentService.row_question_id row = id /\
    options !! k = Some text /\
    (AssessmentService.row_correct row = true <->
     AssessmentService.answer r = Some (StaticAssessmentService.String_of_index k)) /\
    (parse_index (AssessmentService.answer r) = Some (Z.of_nat k) ->
     AssessmentService.row_answer_text row = Some text) /\
    (forall idx, parse_index (AssessmentService.answer r) = Some idx ->
       (idx < 0 \/ Z.of_nat (List.length options) <= idx)%Z ->
       AssessmentService.row_answer_text row = None) /\
    (parse_index (AssessmentService.answer r) = None ->
     AssessmentService.row_answer_text row = AssessmentService.answer r).
Proof.
  intros Hr Hq Hid.
  destruct (QUESTIONS_keys_in_range _ _ _ _ Hq) as [text Ht].
  eexists. exists text. split; [apply (static_saved_row parse_index aid rs i r Hr)|].
  cbn [AssessmentService.row_question_id AssessmentService.row_correct
       AssessmentService.row_answer_text].
  rewrite (static_grade_mcq parse_index r id prompt options k Hq Hid). cbn [fst snd].
  split; [exact Hid|]. split; [exact Ht|]. split; [|split; [|split]].
  - rewrite String.eqb_eq. split.
    + intros E. destruct (AssessmentService.answer r) as [a|];
        unfold StaticAssessmentService.String_of_answer in E.
      * rewrite E. reflexivity.
      * exfalso. exact (numeral_not_null k E).
    + intros ->. reflexivity.
  - intros ->. pose proof (lookup_lt_Some _ _ _ Ht) as Hk.
    replace (0 <=? Z.of_nat k)%Z with true by (symmetry; apply Z.leb_le; lia).
    replace (Z.of_nat k <? Z.of_nat (List.length options))%Z with true
      by (symmetry; apply Z.ltb_lt; lia).
    cbn [andb]. rewrite Nat2Z.id. exact Ht.
  - intros idx -> [Hneg|Hbig].
    + replace (0 <=? idx)%Z with false by (symmetry; apply Z.leb_gt; lia).
      reflexivity.
    + replace (idx <? Z.of_nat (List.length options))%Z with false
        by (symmetry; apply Z.ltb_ge; lia).
      rewrite Bool.andb_false_r. reflexivity.
  - intros ->. reflexivity.
Qed.

Lemma static_verdict_is_exact_numeral_witness :
  exists row,
    StaticAssessmentService.toSave
      (StaticAssessmentService.finish static_parse_index "a1" [static_padded_answer])
      !! 0%nat = Some row /\
    AssessmentService.row_answer_text row = Some "x = 10" /\
    AssessmentService.row_correct row = false.
Proof.
  destruct (static_verdict_is_exact_numeral static_parse_index "a1"
              [static_padded_answer] 0 static_padded_answer "q1"
              "What is the correct way to create a variable in Python?"
              ["var x = 10"; "x := 10"; "x = 10"; "int x = 10"] 2)
    as (row & text & Hrow & _ & Ht & Hc & Hp & _).
  - reflexivity.
  - left. reflexivity.
  - reflexivity.
  - exists row. split; [exact Hrow|]. split.
    + rewrite (Hp eq_refl). rewrite <- Ht. reflexivity.
    + destruct (AssessmentService.row_correct row); [|reflexivity].
      destruct Hc as [Hc _]. specialize (Hc eq_refl). vm_compute in Hc.
      discriminate Hc.
Defined.

(** X27.  The earlier [finish] scores four points for every response it
    grades correct, repeated ones included, against a total that is
    always the 25 questions of the fixed set: the score is 4 times the
    number of correct responses and the attempt passes from 18 correct
    responses on, so [n] copies of one correct response score [4 * n],
    above 100 once [n] exceeds 25. *)
Theorem static_score_counts_every_response
    (parse_index : option string -> option Z) (aid : string)
    (rs : list AssessmentService.RunnerResponse) :
  (List.length rs <= 1000)%nat ->
  StaticAssessmentService.total (StaticAssessmentService.finish parse_index aid rs)
    = 25%nat /\
  List.length (StaticAssessmentService.toSave
                 (StaticAssessmentService.finish parse_index aid rs))
    = List.length rs /\
  StaticAssessmentService.correct (StaticAssessmentService.finish parse_index aid rs)
    = JS.count (fun r => snd (StaticAssessmentService.grade parse_index r)) rs /\
  StaticAssessmentService.score_of (StaticAssessmentService.finish parse_index aid rs)
    = JS.of_int
        (4 * Z.of_nat (StaticAssessmentService.correct
                         (StaticAssessmentService.finish parse_index aid rs))) /\
  (StaticAssessmentService.passed_of (StaticAssessmentService.finish parse_index aid rs)
     = true <->
   (18 <= StaticAssessmentService.correct
            (StaticAssessmentService.finish parse_index aid rs))%nat) /\
  (forall r n,
     rs = List.repeat r n ->
     snd (StaticAssessmentService.grade parse_index r) = true ->
     StaticAssessmentService.score_of (StaticAssessmentService.finish parse_index aid rs)
       = JS.of_int (4 * Z.of_nat n)).
Proof.
  intros Hlen.
  assert (C : StaticAssessmentService.correct
                (StaticAssessmentService.finish parse_index aid rs)
              = JS.count (fun r => snd (StaticAssessmentService.grade parse_index r)) rs).
  { unfold StaticAssessmentService.finish. cbn [StaticAssessmentService.correct].
    rewrite count_map. reflexivity. }
  assert (Sc : StaticAssessmentService.score_of
                 (StaticAssessmentService.finish parse_index aid rs)
               = JS.of_int
                   (4 * Z.of_nat (StaticAssessmentService.correct
                                    (StaticAssessmentService.finish parse_index aid rs)))).
  { rewrite C. unfold StaticAssessmentService.finish.
    cbn [StaticAssessmentService.score_of]. rewrite count_map. cbn [snd].
    apply static_score_table.
    pose proof (count_le_length (fun r => snd (StaticAssessmentService.grade parse_index r)) rs).
    lia. }
  split; [reflexivity|]. split.
  { unfold StaticAssessmentService.finish. cbn [StaticAssessmentService.toSave].
    rewrite !List.length_map. reflexivity. }
  split; [exact C|]. split; [exact Sc|]. split.
  - unfold StaticAssessmentService.finish.
    cbn [StaticAssessmentService.passed_of StaticAssessmentService.correct].
    unfold StaticAssessmentService.passed. apply Nat.leb_le.
  - intros r n -> Hg. rewrite Sc, C, count_repeat by exact Hg. reflexivity.
Qed.

Lemma static_score_counts_every_response_witness :
  StaticAssessmentService.score_of
    (StaticAssessmentService.finish static_parse_index "a1"
       (List.repeat static_right_answer 26))
    = JS.of_int 104 /\
  StaticAssessmentService.total
    (StaticAssessmentService.finish static_parse_index "a1"
       (List.repeat static_right_answer 26))
    = 25%nat.
Proof.
  destruct (static_score_counts_every_response static_parse_index "a1"
              (List.repeat static_right_answer 26))
    as (Ht & _ & _ & _ & _ & Hrep).
  - rewrite List.repeat_length. lia.
  - split; [|exact Ht].
    rewrite (Hrep static_right_answer 26%nat eq_refl eq_refl). reflexivity.
Defined.
